(** * Support-ticket resolution agent: a shallow embedding of the workflow

    The development follows the Python package [support_agent] and the
    Streamlit entry point [app.py]:

    - [PyStr]       the [str] operations the code relies on
    - [State]       state.py   (TypedDicts, [create_initial_state], the audit log)
    - [Utils]       utils.py   ([validate_ticket_input], [save_escalation_log],
                    [log_escalation], [clean_text])
    - [Gemini]      gemini_client.py ([classify_ticket], [review_response])
    - [Rag]         rag_system.py ([_initialize_indexes], [_search_category],
                    [retrieve_context])
    - [Nodes]       nodes.py   (the seven stage handlers)
    - [Graph]       graph.py   ([review_routing], the edges, the driver)
    - [App]         app.py     (the ticket form, [process_ticket_async],
                    [update_analytics])
    - [Intelligent] intelligent_response.py and the drafting path of
                    gemini_client.py ([generate_intelligent_response])

    External services (the HTTP completion endpoint, the TF-IDF similarity
    computation, the wall clock, the CSV file system) are inputs of the
    model: every statement below is quantified over their behaviour. *)

From Stdlib Require Import ZArith QArith Lia Permutation Sorted.
From Stdlib Require Import Ascii String Numbers.DecimalString.
From stdpp Require Import base option list strings gmap.

Close Scope Q_scope.
Open Scope string_scope.
Open Scope list_scope.
Open Scope nat_scope.

(** ** Python [str] operations

    Text is a Rocq [string]; one character stands for one code point.  The
    case mappings and the whitespace class are Python's on the ASCII range;
    characters above 127 are carried along unchanged. *)
Module PyStr.

Definition code (c : ascii) : nat := nat_of_ascii c.

(** [str.isspace] on ASCII: TAB, LF, VT, FF, CR, FS, GS, RS, US and SPACE. *)
Definition is_space (c : ascii) : bool :=
  (((9 <=? code c) && (code c <=? 13)) || ((28 <=? code c) && (code c <=? 32)))%nat.

Definition lower_char (c : ascii) : ascii :=
  if ((65 <=? code c) && (code c <=? 90))%nat then ascii_of_nat (code c + 32) else c.

Definition upper_char (c : ascii) : ascii :=
  if ((97 <=? code c) && (code c <=? 122))%nat then ascii_of_nat (code c - 32) else c.

Fixpoint map_chars (f : ascii -> ascii) (s : string) : string :=
  match s with
  | EmptyString => EmptyString
  | String c s' => String (f c) (map_chars f s')
  end.

(** [s.lower()] and [s.upper()]. *)
Definition lower : string -> string := map_chars lower_char.
Definition upper : string -> string := map_chars upper_char.

Fixpoint lstrip (s : string) : string :=
  match s with
  | EmptyString => EmptyString
  | String c s' => if is_space c then lstrip s' else s
  end.

Fixpoint rstrip (s : string) : string :=
  match s with
  | EmptyString => EmptyString
  | String c s' =>
      match rstrip s' with
      | EmptyString => if is_space c then EmptyString else String c EmptyString
      | r => String c r
      end
  end.

(** [s.strip()]. *)
Definition strip (s : string) : string := rstrip (lstrip s).

(** Truthiness of a [str]: [bool(s)]. *)
Definition truthy (s : string) : bool :=
  match s with EmptyString => false | _ => true end.

(** [needle in hay]. *)
Fixpoint contains (needle hay : string) : bool :=
  String.prefix needle hay ||
  match hay with
  | EmptyString => false
  | String _ hay' => contains needle hay'
  end.

(** [any(word in text for word in words)]. *)
Definition any_in (words : list string) (text : string) : bool :=
  existsb (fun w => contains w text) words.

(** [s.replace(old, "")]: remove the non-overlapping occurrences of [old],
    scanning from the left.  [skip] counts the characters of a match still
    to be dropped. *)
Fixpoint remove_go (old : string) (skip : nat) (s : string) : string :=
  match s with
  | EmptyString => EmptyString
  | String c s' =>
      match skip with
      | S k => remove_go old k s'
      | O =>
          if truthy old && String.prefix old s
          then remove_go old (String.length old - 1) s'
          else String c (remove_go old 0 s')
      end
  end.

Definition remove_all (old s : string) : string := remove_go old 0 s.

(** [str(n)] for a non-negative integer. *)
Definition of_nat (n : nat) : string := NilEmpty.string_of_uint (Nat.to_uint n).

(** [s * n] for a one-character pattern, used to build long inputs. *)
Fixpoint repeat_char (c : ascii) (n : nat) : string :=
  match n with
  | O => EmptyString
  | S k => String c (repeat_char c k)
  end.


(** [s[:n]] for a non-negative [n]. *)
Fixpoint take (n : nat) (s : string) : string :=
  match n, s with
  | S k, String c s' => String c (take k s')
  | _, _ => EmptyString
  end.

(** [s.replace(old, new)] for one-character [old] and [new]. *)
Definition replace_char (old new : ascii) (s : string) : string :=
  map_chars (fun c => if Ascii.eqb c old then new else c) s.

(** The line feed and the double quote, as one-character strings. *)
Definition nl : string := String (ascii_of_nat 10) EmptyString.
Definition dq : string := String (ascii_of_nat 34) EmptyString.

(** [s.split()]: the maximal runs of non-whitespace characters, in order.
    [word] is the run being read. *)
Fixpoint split_go (word : string) (s : string) : list string :=
  match s with
  | EmptyString => if truthy word then [word] else []
  | String c s' =>
      if is_space c
      then if truthy word then word :: split_go EmptyString s'
           else split_go EmptyString s'
      else split_go (word +:+ String c EmptyString) s'
  end.

Definition split (s : string) : list string := split_go EmptyString s.

(** [sep.join(l)]. *)
Fixpoint join (sep : string) (l : list string) : string :=
  match l with
  | [] => EmptyString
  | x :: l' =>
      match l' with
      | [] => x
      | _ => x +:+ sep +:+ join sep l'
      end
  end.

(** [''.join(c for c in s if f(c))]. *)
Fixpoint filter_chars (f : ascii -> bool) (s : string) : string :=
  match s with
  | EmptyString => EmptyString
  | String c s' => if f c then String c (filter_chars f s') else filter_chars f s'
  end.

End PyStr.

(** ** Outcome of a call that may raise *)
Inductive outcome (A : Type) : Type :=
  | Returned (a : A)
  | Raised (msg : string).
Arguments Returned {A} a.
Arguments Raised {A} msg.

(** Sequencing of calls that may raise: the first exception aborts. *)
#[global] Instance outcome_bind : MBind outcome :=
  fun A B (f : A -> outcome B) (m : outcome A) =>
    match m with
    | Returned a => f a
    | Raised msg => Raised msg
    end.

(** [l[:k]] with Python's treatment of a negative bound. *)
Definition py_take {A : Type} (k : Z) (l : list A) : list A :=
  if (0 <=? k)%Z then take (Z.to_nat k) l
  else take (length l - Z.to_nat (- k)) l.

(** ** state.py *)
Module State.

Record TicketInfo := {
  subject : string;
  description : string
}.

Record ContextDocument := {
  content : string;
  source : string;
  relevance_score : Q;
  doc_category : string
}.

Record ReviewFeedback := {
  rf_status : string;
  rf_feedback : string;
  rf_timestamp : string;
  attempt : Z
}.

Record SupportTicketState := {
  ticket : TicketInfo;
  category : string;
  retrieved_context : list ContextDocument;
  drafts : list string;
  current_draft : option string;
  review_feedback : list ReviewFeedback;
  review_status : option string;
  latest_feedback : option string;
  final_output : option string;
  retries : Z;
  status : string;
  escalated : bool;
  processing_start_time : option string;
  processing_end_time : option string;
  node_execution_log : option (list string)
}.

(** class WorkflowStatus *)
Definition INITIALIZED := "initialized".
Definition CLASSIFIED := "classified".
Definition CONTEXT_RETRIEVED := "context_retrieved".
Definition RESPONSE_GENERATED := "response_generated".
Definition REVIEWED := "reviewed".
Definition CONTEXT_REFINED := "context_refined".
Definition RESOLVED := "resolved".
Definition ESCALATED := "escalated".
Definition ERROR := "error".

(** class TicketCategory *)
Definition BILLING := "Billing".
Definition TECHNICAL := "Technical".
Definition SECURITY := "Security".
Definition GENERAL := "General".

Definition categories : list string := [BILLING; TECHNICAL; SECURITY; GENERAL].

(** Field updates, one per key the handlers assign. *)
Definition set_category (v : string) (s : SupportTicketState) :=
  {| ticket := ticket s; category := v;
     retrieved_context := retrieved_context s; drafts := drafts s;
     current_draft := current_draft s; review_feedback := review_feedback s;
     review_status := review_status s; latest_feedback := latest_feedback s;
     final_output := final_output s; retries := retries s; status := status s;
     escalated := escalated s;
     processing_start_time := processing_start_time s;
     processing_end_time := processing_end_time s;
     node_execution_log := node_execution_log s |}.

Definition set_retrieved_context (v : list ContextDocument) (s : SupportTicketState) :=
  {| ticket := ticket s; category := category s;
     retrieved_context := v; drafts := drafts s;
     current_draft := current_draft s; review_feedback := review_feedback s;
     review_status := review_status s; latest_feedback := latest_feedback s;
     final_output := final_output s; retries := retries s; status := status s;
     escalated := escalated s;
     processing_start_time := processing_start_time s;
     processing_end_time := processing_end_time s;
     node_execution_log := node_execution_log s |}.

Definition set_drafts (v : list string) (s : SupportTicketState) :=
  {| ticket := ticket s; category := category s;
     retrieved_context := retrieved_context s; drafts := v;
     current_draft := current_draft s; review_feedback := review_feedback s;
     review_status := review_status s; latest_feedback := latest_feedback s;
     final_output := final_output s; retries := retries s; status := status s;
     escalated := escalated s;
     processing_start_time := processing_start_time s;
     processing_end_time := processing_end_time s;
     node_execution_log := node_execution_log s |}.

Definition set_current_draft (v : option string) (s : SupportTicketState) :=
  {| ticket := ticket s; category := category s;
     retrieved_context := retrieved_context s; drafts := drafts s;
     current_draft := v; review_feedback := review_feedback s;
     review_status := review_status s; latest_feedback := latest_feedback s;
     final_output := final_output s; retries := retries s; status := status s;
     escalated := escalated s;
     processing_start_time := processing_start_time s;
     processing_end_time := processing_end_time s;
     node_execution_log := node_execution_log s |}.

Definition set_review_feedback (v : list ReviewFeedback) (s : SupportTicketState) :=
  {| ticket := ticket s; category := category s;
     retrieved_context := retrieved_context s; drafts := drafts s;
     current_draft := current_draft s; review_feedback := v;
     review_status := review_status s; latest_feedback := latest_feedback s;
     final_output := final_output s; retries := retries s; status := status s;
     escalated := escalated s;
     processing_start_time := processing_start_time s;
     processing_end_time := processing_end_time s;
     node_execution_log := node_execution_log s |}.

Definition set_review_status (v : option string) (s : SupportTicketState) :=
  {| ticket := ticket s; category := category s;
     retrieved_context := retrieved_context s; drafts := drafts s;
     current_draft := current_draft s; review_feedback := review_feedback s;
     review_status := v; latest_feedback := latest_feedback s;
     final_output := final_output s; retries := retries s; status := status s;
     escalated := escalated s;
     processing_start_time := processing_start_time s;
     processing_end_time := processing_end_time s;
     node_execution_log := node_execution_log s |}.

Definition set_latest_feedback (v : option string) (s : SupportTicketState) :=
  {| ticket := ticket s; category := category s;
     retrieved_context := retrieved_context s; drafts := drafts s;
     current_draft := current_draft s; review_feedback := review_feedback s;
     review_status := review_status s; latest_feedback := v;
     final_output := final_output s; retries := retries s; status := status s;
     escalated := escalated s;
     processing_start_time := processing_start_time s;
     processing_end_time := processing_end_time s;
     node_execution_log := node_execution_log s |}.

Definition set_final_output (v : option string) (s : SupportTicketState) :=
  {| ticket := ticket s; category := category s;
     retrieved_context := retrieved_context s; drafts := drafts s;
     current_draft := current_draft s; review_feedback := review_feedback s;
     review_status := review_status s; latest_feedback := latest_feedback s;
     final_output := v; retries := retries s; status := status s;
     escalated := escalated s;
     processing_start_time := processing_start_time s;
     processing_end_time := processing_end_time s;
     node_execution_log := node_execution_log s |}.

Definition set_retries (v : Z) (s : SupportTicketState) :=
  {| ticket := ticket s; category := category s;
     retrieved_context := retrieved_context s; drafts := drafts s;
     current_draft := current_draft s; review_feedback := review_feedback s;
     review_status := review_status s; latest_feedback := latest_feedback s;
     final_output := final_output s; retries := v; status := status s;
     escalated := escalated s;
     processing_start_time := processing_start_time s;
     processing_end_time := processing_end_time s;
     node_execution_log := node_execution_log s |}.

Definition set_status (v : string) (s : SupportTicketState) :=
  {| ticket := ticket s; category := category s;
     retrieved_context := retrieved_context s; drafts := drafts s;
     current_draft := current_draft s; review_feedback := review_feedback s;
     review_status := review_status s; latest_feedback := latest_feedback s;
     final_output := final_output s; retries := retries s; status := v;
     escalated := escalated s;
     processing_start_time := processing_start_time s;
     processing_end_time := processing_end_time s;
     node_execution_log := node_execution_log s |}.

Definition set_escalated (v : bool) (s : SupportTicketState) :=
  {| ticket := ticket s; category := category s;
     retrieved_context := retrieved_context s; drafts := drafts s;
     current_draft := current_draft s; review_feedback := review_feedback s;
     review_status := review_status s; latest_feedback := latest_feedback s;
     final_output := final_output s; retries := retries s; status := status s;
     escalated := v;
     processing_start_time := processing_start_time s;
     processing_end_time := processing_end_time s;
     node_execution_log := node_execution_log s |}.

Definition set_processing_end_time (v : option string) (s : SupportTicketState) :=
  {| ticket := ticket s; category := category s;
     retrieved_context := retrieved_context s; drafts := drafts s;
     current_draft := current_draft s; review_feedback := review_feedback s;
     review_status := review_status s; latest_feedback := latest_feedback s;
     final_output := final_output s; retries := retries s; status := status s;
     escalated := escalated s;
     processing_start_time := processing_start_time s;
     processing_end_time := v;
     node_execution_log := node_execution_log s |}.

Definition set_node_execution_log (v : option (list string)) (s : SupportTicketState) :=
  {| ticket := ticket s; category := category s;
     retrieved_context := retrieved_context s; drafts := drafts s;
     current_draft := current_draft s; review_feedback := review_feedback s;
     review_status := review_status s; latest_feedback := latest_feedback s;
     final_output := final_output s; retries := retries s; status := status s;
     escalated := escalated s;
     processing_start_time := processing_start_time s;
     processing_end_time := processing_end_time s;
     node_execution_log := v |}.

(** [create_initial_state(ticket)]; [now] is [datetime.now().isoformat()]. *)
Definition create_initial_state (now : string) (t : TicketInfo) : SupportTicketState :=
  {| ticket := {| subject := subject t; description := description t |};
     category := "";
     retrieved_context := [];
     drafts := [];
     current_draft := None;
     review_feedback := [];
     review_status := None;
     latest_feedback := None;
     final_output := Some "";
     retries := 0;
     status := INITIALIZED;
     escalated := false;
     processing_start_time := Some now;
     processing_end_time := None;
     node_execution_log := Some [] |}.

(** [log_state_transition(state, node_name, action)]. *)
Definition log_state_transition (now : string) (s : SupportTicketState)
    (node_name action : string) : SupportTicketState :=
  let log := match node_execution_log s with Some l => l | None => [] end in
  let log_entry := now +:+ " - " +:+ node_name +:+ ": " +:+ action in
  set_node_execution_log (Some (log ++ [log_entry])) s.

End State.

(** ** utils.py *)
Module Utils.
Import State.

(** The values a ticket dictionary may hold, and the objects
    [validate_ticket_input] may be handed. *)
Inductive pyval : Type :=
  | VStr (s : string)
  | VInt (z : Z)
  | VBool (b : bool)
  | VNone.

Inductive pyarg : Type :=
  | ADict (d : gmap string pyval)
  | AOther (v : pyval).

(** [isinstance(v, str) and v.strip()] *)
Definition nonblank_str (v : pyval) : option string :=
  match v with
  | VStr s => if PyStr.truthy (PyStr.strip s) then Some s else None
  | _ => None
  end.

(** [validate_ticket_input(ticket) -> (is_valid, error_message)] *)
Definition validate_ticket_input (t : pyarg) : bool * string :=
  match t with
  | AOther _ => (false, "Ticket must be a dictionary")
  | ADict d =>
      match d !! "subject" with
      | None => (false, "Ticket must have a 'subject' field")
      | Some subject_v =>
          match d !! "description" with
          | None => (false, "Ticket must have a 'description' field")
          | Some description_v =>
              match nonblank_str subject_v with
              | None => (false, "Subject must be a non-empty string")
              | Some subject =>
                  match nonblank_str description_v with
                  | None => (false, "Description must be a non-empty string")
                  | Some description =>
                      if 200 <? String.length subject
                      then (false, "Subject must be 200 characters or less")
                      else if 5000 <? String.length description
                      then (false, "Description must be 5000 characters or less")
                      else (true, "")
                  end
              end
          end
      end
  end.

(** The dictionary a caller builds from two form fields. *)
Definition ticket_dict (t : TicketInfo) : pyarg :=
  ADict (<["subject" := VStr (subject t)]>
         (<["description" := VStr (description t)]> ∅)).

(** The escalation log: a CSV file that may not exist yet, and whose
    storage may refuse the write. *)
Inductive cell : Type :=
  | CStr (s : string)
  | CInt (z : Z).

Inductive csv_line : Type :=
  | Header (fieldnames : list string)
  | Row (cells : list (string * cell)).

Record FileSystem := {
  csv_file : option (list csv_line);
  writable : bool
}.

(** The dictionary [escalate_ticket_node] hands to the sink. *)
Record EscalationData := {
  ed_timestamp : string;
  ed_ticket_subject : string;
  ed_ticket_description : string;
  ed_category : string;
  ed_retries : Z;
  ed_review_feedback : list ReviewFeedback;
  ed_final_drafts : list string
}.

(** [flattened_data] of [save_escalation_log]. *)
Definition flattened_data (d : EscalationData) : list (string * cell) :=
  [ ("timestamp", CStr (ed_timestamp d));
    ("ticket_subject", CStr (ed_ticket_subject d));
    ("ticket_description", CStr (ed_ticket_description d));
    ("category", CStr (ed_category d));
    ("retries", CInt (ed_retries d));
    ("review_count", CInt (Z.of_nat (length (ed_review_feedback d))));
    ("draft_count", CInt (Z.of_nat (length (ed_final_drafts d)))) ].

(** [save_escalation_log(escalation_data)]: appends one row (and the header
    when the file is new); any I/O error is caught and reported as [False]. *)
Definition save_escalation_log (d : EscalationData) (fs : FileSystem)
    : bool * FileSystem :=
  if writable fs then
    let flattened := flattened_data d in
    let old := default [] (csv_file fs) in
    let header :=
      match csv_file fs with
      | Some _ => []
      | None => [Header (flattened.*1)]
      end in
    (true, {| csv_file := Some (old ++ header ++ [Row flattened]);
              writable := writable fs |})
  else (false, fs).

(** The rows of the log, headers left out. *)
Definition rows_of (fs : FileSystem) : list (list (string * cell)) :=
  omap (fun l => match l with Row r => Some r | Header _ => None end)
       (default [] (csv_file fs)).


(** What [log_escalation] reads from its dictionary, each key possibly
    absent; the lists are typed as the sibling writer and the state have
    them. *)
Record EscalationDict := {
  g_timestamp : option string;
  g_ticket_subject : option string;
  g_ticket_description : option string;
  g_category : option string;
  g_retry_attempts : option Z;
  g_drafts : option (list string);
  g_review_feedback : option (list ReviewFeedback);
  g_retrieved_context : option (list ContextDocument)
}.

(** The standard library's [json.dumps] on the values [log_escalation]
    serialises. *)
Record JsonLib := {
  dumps_strings : list string -> string;
  dumps_reviews : list ReviewFeedback -> string
}.

(** [csv_row] of [log_escalation]; [now] is the clock reading used when
    the dictionary has no timestamp. *)
Definition csv_row (json : JsonLib) (now : string) (d : EscalationDict)
    : list (string * cell) :=
  [ ("timestamp", CStr (default now (g_timestamp d)));
    ("ticket_subject", CStr (default "" (g_ticket_subject d)));
    ("ticket_description", CStr (default "" (g_ticket_description d)));
    ("category", CStr (default "" (g_category d)));
    ("retry_attempts", CInt (default 0%Z (g_retry_attempts d)));
    ("draft_count", CInt (Z.of_nat (length (default [] (g_drafts d)))));
    ("feedback_count",
       CInt (Z.of_nat (length (default [] (g_review_feedback d)))));
    ("context_documents",
       CInt (Z.of_nat (length (default [] (g_retrieved_context d)))));
    ("final_drafts", CStr (dumps_strings json (default [] (g_drafts d))));
    ("review_feedback",
       CStr (dumps_reviews json (default [] (g_review_feedback d))));
    ("context_summary",
       CStr (dumps_strings json
               (map source (default [] (g_retrieved_context d))))) ].

(** [log_escalation(escalation_data)]: the same file as
    [save_escalation_log], by default. *)
Definition log_escalation (json : JsonLib) (now : string) (d : EscalationDict)
    (fs : FileSystem) : bool * FileSystem :=
  if writable fs then
    let csv_row := csv_row json now d in
    let old := default [] (csv_file fs) in
    let header :=
      match csv_file fs with
      | Some _ => []
      | None => [Header (csv_row.*1)]
      end in
    (true, {| csv_file := Some (old ++ header ++ [Row csv_row]);
              writable := writable fs |})
  else (false, fs).

(** The dictionary the follow-up chat of [app.py] hands to
    [log_escalation]: of the keys it sets (timestamp, reason,
    original_subject, follow_up_question, attempts, case_reference) only
    the timestamp is one [log_escalation] reads. *)
Definition follow_up_escalation (timestamp : string) : EscalationDict :=
  {| g_timestamp := Some timestamp;
     g_ticket_subject := None;
     g_ticket_description := None;
     g_category := None;
     g_retry_attempts := None;
     g_drafts := None;
     g_review_feedback := None;
     g_retrieved_context := None |}.

(** A sequence of calls of [save_escalation_log]. *)
Definition save_all (ds : list EscalationData) (fs : FileSystem) : FileSystem :=
  foldl (fun fs d => (save_escalation_log d fs).2) fs ds.

(** The header line of a file, and the column names of its rows. *)
Definition header_of (fs : FileSystem) : option (list string) :=
  match csv_file fs with
  | Some (Header names :: _) => Some names
  | _ => None
  end.

(** [clean_text(text)] *)
Definition clean_text (text : pyval) : string :=
  match text with
  | VStr text =>
      let cleaned := PyStr.strip text in
      let cleaned := PyStr.join " " (PyStr.split cleaned) in
      PyStr.filter_chars
        (fun char =>
           (32 <=? PyStr.code char)
           || PyStr.contains (String char EmptyString)
                (String (ascii_of_nat 10) (String (ascii_of_nat 9) EmptyString)))
        cleaned
  | _ => ""
  end.

End Utils.

(** ** gemini_client.py *)
Module Gemini.
Import State.

(** What [requests.post] followed by [response.json()] and the lookup of
    [choices[0].message.content] can give: a transport exception, or a
    response with its status code and, when the body has that shape, the
    content string. *)
Inductive http_reply : Type :=
  | ConnectionError (msg : string)
  | HttpResponse (status_code : Z) (content : option string).

(** [{"status": ..., "feedback": ...}] *)
Record ReviewResult := {
  rr_status : string;
  rr_feedback : string
}.

(** The completion endpoint, keyed by what the prompt is built from.
    [generation] stands for the whole drafting pipeline of
    [generate_response_node] on the client path (profile analysis, the
    completion request with its built-in fallback text, and the contextual
    enhancement): it returns the draft or raises. *)
Record Endpoint := {
  post_classify : string -> string -> http_reply;
  post_review : string -> string -> string -> list ContextDocument -> http_reply;
  generation : TicketInfo -> string -> list ContextDocument -> option string
               -> outcome string
}.

(** [GeminiClient.classify_ticket] *)
Definition classify_ticket (e : Endpoint) (subject description : string) : string :=
  match post_classify e subject description with
  | ConnectionError _ => "General"
  | HttpResponse code body =>
      if (code =? 200)%Z then
        match body with
        | None => "General"
        | Some text =>
            let category := PyStr.strip text in
            if negb (existsb (String.eqb category)
                       ["Billing"; "Technical"; "Security"; "General"])
            then "General"
            else category
        end
      else "General"
  end.

Definition unavailable : ReviewResult :=
  {| rr_status := "approved";
     rr_feedback := "Review system unavailable, proceeding with response" |}.

(** The verdict parsing of [GeminiClient.review_response]. *)
Definition parse_verdict (review_text : string) : ReviewResult :=
  if PyStr.contains "APPROVED" (PyStr.upper review_text) then
    {| rr_status := "approved";
       rr_feedback := "Response meets quality standards" |}
  else if PyStr.contains "REJECTED" (PyStr.upper review_text) then
    {| rr_status := "rejected";
       rr_feedback := PyStr.strip (PyStr.remove_all "REJECTED:" review_text) |}
  else
    {| rr_status := "approved";
       rr_feedback := "Review completed successfully" |}.

(** [GeminiClient.review_response] *)
Definition review_response (e : Endpoint) (ticket_subject ticket_description
    generated_response : string) (context_documents : list ContextDocument)
    : ReviewResult :=
  match post_review e ticket_subject ticket_description generated_response
          context_documents with
  | ConnectionError _ => unavailable
  | HttpResponse code body =>
      if (code =? 200)%Z then
        match body with
        | None => unavailable
        | Some text => parse_verdict (PyStr.strip text)
        end
      else unavailable
  end.

End Gemini.

(** ** The capabilities the stage handlers call

    [nodes.py] keeps two module-level objects, [gemini_client] and
    [rag_system], and calls methods on them; either may be [None].  The
    handlers are written against these two interfaces; [GeminiClient] and
    [RAGSystem] below are the implementations the repository provides. *)
Record LLMClient := {
  classify_ticket : string -> string -> outcome string;
  generate_intelligent_response :
    State.TicketInfo -> string -> list State.ContextDocument -> option string
    -> outcome string;
  review_response :
    string -> string -> string -> list State.ContextDocument
    -> outcome Gemini.ReviewResult
}.

Record Retriever := {
  enhance_query : string -> string -> string;
  retrieve_context : string -> string -> Z -> bool -> Q
                     -> outcome (list State.ContextDocument)
}.

Definition GeminiClient (e : Gemini.Endpoint) : LLMClient :=
  {| classify_ticket := fun s d => Returned (Gemini.classify_ticket e s d);
     generate_intelligent_response := Gemini.generation e;
     review_response :=
       fun s d r ctx => Returned (Gemini.review_response e s d r ctx) |}.

(** ** rag_system.py *)
Module Rag.
Import State.

(** A knowledge-base document: [doc['content']] and [doc.get('source')]. *)
Record KBDoc := {
  kb_content : string;
  kb_source : option string
}.

(** The fitted TF-IDF matrix of one category.  It is observed only through
    [cosine_similarity(vectorizer.transform([query]), matrix).flatten()],
    which gives one score per row or raises.  Scores are the exact values
    of the floats (no NaN). *)
Record DocVectors := {
  cosine_similarity : string -> outcome (list Q)
}.

Record RAGSystem := {
  vectorizers : gset string;
  document_stores : gmap string (list KBDoc);
  document_vectors : gmap string (option DocVectors)
}.

(** [d[key]] on a dictionary. *)
Definition getitem {V : Type} (d : gmap string V) (key : string) : outcome V :=
  match d !! key with
  | Some v => Returned v
  | None => Raised "KeyError"
  end.

(** [try: ... except Exception: return []] *)
Definition or_empty {A : Type} (m : outcome (list A)) : list A :=
  match m with
  | Returned l => l
  | Raised _ => []
  end.

(** [l.sort(key=lambda x: x['relevance_score'], reverse=True)]: a stable
    sort, largest score first. *)
Fixpoint insert_desc (x : ContextDocument) (l : list ContextDocument)
    : list ContextDocument :=
  match l with
  | [] => [x]
  | y :: l' =>
      if Qle_bool (relevance_score y) (relevance_score x)
      then x :: l
      else y :: insert_desc x l'
  end.

Fixpoint sort_desc (l : list ContextDocument) : list ContextDocument :=
  match l with
  | [] => []
  | x :: l' => insert_desc x (sort_desc l')
  end.

(** The loop of [_search_category] over [enumerate(similarities)]. *)
Fixpoint collect (category : string) (min_relevance : Q) (documents : list KBDoc)
    (idx : nat) (similarities : list Q) : outcome (list ContextDocument) :=
  match similarities with
  | [] => Returned []
  | similarity :: rest =>
      if Qle_bool min_relevance similarity then
        match documents !! idx with
        | None => Raised "IndexError"
        | Some doc =>
            let context_doc :=
              {| content := kb_content doc;
                 source := default (category +:+ "_doc_" +:+ PyStr.of_nat idx)
                                   (kb_source doc);
                 relevance_score := similarity;
                 doc_category := category |} in
            results ← collect category min_relevance documents (S idx) rest;
            Returned (context_doc :: results)
        end
      else collect category min_relevance documents (S idx) rest
  end.

(** [RAGSystem._search_category] *)
Definition _search_category (self : RAGSystem) (query category : string)
    (top_k : Z) (min_relevance : Q) : list ContextDocument :=
  or_empty
    (_ ← (if bool_decide (category ∈ vectorizers self)
           then Returned tt else Raised "KeyError");
     document_vectors ← getitem (document_vectors self) category;
     documents ← getitem (document_stores self) category;
     match document_vectors with
     | None => Returned []
     | Some matrix =>
         if (length documents =? 0)%nat then Returned []
         else
           similarities ← cosine_similarity matrix query;
           results ← collect category min_relevance documents 0 similarities;
           Returned (py_take top_k (sort_desc results))
     end).

(** [RAGSystem._get_related_categories] *)
Definition _get_related_categories (primary_category : string) : list string :=
  if String.eqb primary_category "Billing" then ["General"]
  else if String.eqb primary_category "Technical" then ["General"; "Security"]
  else if String.eqb primary_category "Security" then ["Technical"; "General"]
  else if String.eqb primary_category "General"
       then ["Billing"; "Technical"; "Security"]
  else ["General"].

(** [cat in self.vectorizers and self.document_vectors[cat] is not None] *)
Definition indexed (self : RAGSystem) (cat : string) : outcome bool :=
  if bool_decide (cat ∈ vectorizers self) then
    v ← getitem (document_vectors self) cat;
    Returned (match v with Some _ => true | None => false end)
  else Returned false.

(** The loop over the related categories, with its [break]. *)
Fixpoint search_related (self : RAGSystem) (query : string) (top_k remaining_k : Z)
    (min_relevance : Q) (related_categories : list string)
    (all_results : list ContextDocument) : outcome (list ContextDocument) :=
  match related_categories with
  | [] => Returned all_results
  | related_cat :: rest =>
      ok ← indexed self related_cat;
      if ok : bool then
        let all_results :=
          all_results ++
          _search_category self query related_cat remaining_k min_relevance in
        if (top_k <=? Z.of_nat (length all_results))%Z
        then Returned all_results
        else search_related self query top_k remaining_k min_relevance rest
               all_results
      else search_related self query top_k remaining_k min_relevance rest
             all_results
  end.

(** [RAGSystem.retrieve_context] *)
Definition retrieve_context (self : RAGSystem) (query category : string)
    (top_k : Z) (include_related : bool) (min_relevance : Q)
    : list ContextDocument :=
  or_empty
    (primary ← indexed self category;
     all_results ←
       (if primary : bool
        then Returned (_search_category self query category top_k min_relevance)
        else
          general ← indexed self "General";
          if general : bool
          then Returned (_search_category self query "General" top_k min_relevance)
          else Returned []);
     all_results ←
       (if include_related && (Z.of_nat (length all_results) <? top_k)%Z
        then
          let related_categories := _get_related_categories category in
          let remaining_k := (top_k - Z.of_nat (length all_results))%Z in
          search_related self query top_k remaining_k min_relevance
            related_categories all_results
        else Returned all_results);
     Returned (py_take top_k (sort_desc all_results))).

(** [RAGSystem.enhance_query] *)
Definition enhance_query (subject description : string) : string :=
  PyStr.strip (PyStr.lower (subject +:+ " " +:+ subject +:+ " " +:+ description)).

(** The default of the [min_relevance] parameter of [retrieve_context]. *)
Definition default_min_relevance : Q := (1 # 10)%Q.


(** [knowledge_base.KnowledgeBase] as the retrieval system reads it: the
    documents of each category. *)
Record KnowledgeBase := {
  documents : gmap string (list KBDoc)
}.

(** [KnowledgeBase.get_category_documents] *)
Definition get_category_documents (kb : KnowledgeBase) (category : string)
    : list KBDoc :=
  default [] (documents kb !! category).

(** [TfidfVectorizer(...).fit_transform(texts)]: the fitted matrix, or an
    exception (an empty vocabulary, for one). *)
Definition Fitter := list string -> outcome DocVectors.

(** One round of the loop of [_initialize_indexes]. *)
Definition index_category (kb : KnowledgeBase) (fit_transform : Fitter)
    (self : RAGSystem) (category : string) : RAGSystem :=
  let empty_stores :=
    {| vectorizers := {[category]} ∪ vectorizers self;
       document_stores := <[category := []]> (document_stores self);
       document_vectors := <[category := None]> (document_vectors self) |} in
  let documents := get_category_documents kb category in
  if (length documents =? 0)%nat then empty_stores
  else
    let texts := map kb_content documents in
    match fit_transform texts with
    | Returned vectors =>
        {| vectorizers := {[category]} ∪ vectorizers self;
           document_stores := <[category := documents]> (document_stores self);
           document_vectors :=
             <[category := Some vectors]> (document_vectors self) |}
    | Raised _ => empty_stores
    end.

(** [RAGSystem.__init__] with [_initialize_indexes]. *)
Definition _initialize_indexes (kb : KnowledgeBase) (fit_transform : Fitter)
    : RAGSystem :=
  foldl (index_category kb fit_transform)
    {| vectorizers := ∅; document_stores := ∅; document_vectors := ∅ |}
    ["Billing"; "Technical"; "Security"; "General"].

(** [RAGSystem.get_category_stats] *)
Definition get_category_stats (self : RAGSystem) : gmap string nat :=
  length <$> document_stores self.

End Rag.

Definition RAGSystem (self : Rag.RAGSystem) : Retriever :=
  {| enhance_query := Rag.enhance_query;
     retrieve_context :=
       fun q c k r m => Returned (Rag.retrieve_context self q c k r m) |}.

(** ** nodes.py *)
Module Nodes.
Import State.

(** The module-level components; [None] when initialisation failed. *)
Record Components := {
  gemini_client : option LLMClient;
  rag_system : option Retriever
}.

(** A handler reads the wall clock a few times; [now i] is the [i]-th
    reading of [datetime.now().isoformat()] during one invocation. *)
Definition Clock := nat -> string.

(** [_fallback_classify] *)
Definition _fallback_classify (subject description : string) : string :=
  let text := PyStr.lower (subject +:+ " " +:+ description) in
  if PyStr.any_in ["bill"; "payment"; "charge"; "refund"; "price"] text
  then "Billing"
  else if PyStr.any_in ["api"; "error"; "bug"; "technical"; "integration"] text
  then "Technical"
  else if PyStr.any_in
            ["security"; "password"; "login"; "access"; "authentication"] text
  then "Security"
  else "General".

(** [_fallback_response] *)
Definition _fallback_response (t : TicketInfo) (category : string)
    (context_docs : list ContextDocument) : string :=
  "Thank you for contacting our " +:+ PyStr.lower category +:+ " support team.

We have received your inquiry regarding: " +:+ subject t +:+ "

Our team is currently reviewing your request and will provide a detailed response within our standard response time. 

If this is an urgent matter, please contact our priority support line.

Best regards,
Support Team".

(** [classify_ticket_node] *)
Definition classify_ticket_node (c : Components) (now : Clock)
    (state : SupportTicketState) : SupportTicketState :=
  let subject := subject (ticket state) in
  let description := description (ticket state) in
  let attempt :=
    match gemini_client c with
    | Some client => classify_ticket client subject description
    | None => Returned (_fallback_classify subject description)
    end in
  match attempt with
  | Returned category =>
      let state := set_category category state in
      let state := set_status "classified" state in
      log_state_transition (now 0) state "classify_ticket"
        ("Classified as " +:+ category)
  | Raised _ =>
      let state := set_category "General" state in
      let state := set_status "classified" state in
      log_state_transition (now 0) state "classify_ticket"
        "Error occurred, defaulted to General"
  end.

(** [retrieve_context_node]; the call leaves [min_relevance] at its
    default. *)
Definition retrieve_context_node (c : Components) (now : Clock)
    (state : SupportTicketState) : SupportTicketState :=
  let attempt :=
    match rag_system c with
    | Some rag =>
        let query :=
          enhance_query rag (subject (ticket state)) (description (ticket state)) in
        retrieve_context rag query (category state) 3 true
          Rag.default_min_relevance
    | None => Returned []
    end in
  match attempt with
  | Returned context_docs =>
      let state := set_retrieved_context context_docs state in
      let state := set_status "context_retrieved" state in
      log_state_transition (now 0) state "retrieve_context"
        ("Retrieved " +:+ PyStr.of_nat (length context_docs) +:+ " documents")
  | Raised _ =>
      let state := set_retrieved_context [] state in
      let state := set_status "context_retrieved" state in
      log_state_transition (now 0) state "retrieve_context"
        "Error occurred, proceeding without context"
  end.

(** The feedback handed to the generator: the text of the latest review
    when it was a rejection. *)
Definition previous_feedback (state : SupportTicketState) : option string :=
  match last (review_feedback state) with
  | Some latest_review =>
      if String.eqb (rf_status latest_review) "rejected"
      then Some (rf_feedback latest_review)
      else None
  | None => None
  end.

(** [generate_response_node] *)
Definition generate_response_node (c : Components) (now : Clock)
    (state : SupportTicketState) : SupportTicketState :=
  let attempt :=
    match gemini_client c with
    | Some client =>
        generate_intelligent_response client (ticket state) (category state)
          (retrieved_context state) (previous_feedback state)
    | None =>
        Returned (_fallback_response (ticket state) (category state)
                    (retrieved_context state))
    end in
  match attempt with
  | Returned response =>
      let state := set_drafts (drafts state ++ [response]) state in
      let state := set_current_draft (Some response) state in
      let state := set_status "response_generated" state in
      log_state_transition (now 0) state "generate_response"
        "Response generated successfully"
  | Raised _ =>
      let fallback_response :=
        "I apologize, but I'm experiencing technical difficulties. Please contact our support team directly for assistance with your "
        +:+ PyStr.lower (category state) +:+ " inquiry." in
      let state := set_drafts (drafts state ++ [fallback_response]) state in
      let state := set_current_draft (Some fallback_response) state in
      let state := set_status "response_generated" state in
      log_state_transition (now 0) state "generate_response"
        "Error occurred, generated fallback response"
  end.

(** [review_response_node] *)
Definition review_response_node (c : Components) (now : Clock)
    (state : SupportTicketState) : SupportTicketState :=
  let attempt :=
    match gemini_client c, current_draft state with
    | Some client, Some current_response =>
        if PyStr.truthy current_response then
          review_response client (subject (ticket state))
            (description (ticket state)) current_response
            (retrieved_context state)
        else Returned {| Gemini.rr_status := "approved";
                         Gemini.rr_feedback := "Automated review completed" |}
    | _, _ => Returned {| Gemini.rr_status := "approved";
                          Gemini.rr_feedback := "Automated review completed" |}
    end in
  match attempt with
  | Returned review_result =>
      let entry :=
        {| rf_status := Gemini.rr_status review_result;
           rf_feedback := Gemini.rr_feedback review_result;
           rf_timestamp := now 0;
           attempt := Z.of_nat (length (review_feedback state)) + 1 |} in
      let state := set_review_feedback (review_feedback state ++ [entry]) state in
      let state := set_review_status (Some (Gemini.rr_status review_result)) state in
      let state := set_latest_feedback (Some (Gemini.rr_feedback review_result)) state in
      let state := set_status "reviewed" state in
      log_state_transition (now 1) state "review_response"
        ("Review: " +:+ Gemini.rr_status review_result)
  | Raised _ =>
      let fallback_review :=
        {| rf_status := "approved";
           rf_feedback := "Review system unavailable, proceeding with response";
           rf_timestamp := now 0;
           attempt := Z.of_nat (length (review_feedback state)) + 1 |} in
      let state :=
        set_review_feedback (review_feedback state ++ [fallback_review]) state in
      let state := set_review_status (Some "approved") state in
      let state := set_latest_feedback (Some (rf_feedback fallback_review)) state in
      let state := set_status "reviewed" state in
      log_state_transition (now 1) state "review_response"
        "Error occurred, defaulted to approved"
  end.

(** [f"{x}"] for an optional string. *)
Definition format_opt (o : option string) : string := default "None" o.

(** [refine_context_node] *)
Definition refine_context_node (c : Components) (now : Clock)
    (state : SupportTicketState) : SupportTicketState :=
  let enhanced_query :=
    subject (ticket state) +:+ " " +:+ description (ticket state) +:+ " "
    +:+ format_opt (latest_feedback state) in
  let attempt :=
    match rag_system c with
    | Some rag =>
        retrieve_context rag enhanced_query (category state) 5 true (5 # 100)%Q
    | None => Returned (retrieved_context state)
    end in
  match attempt with
  | Returned refined_context =>
      let state := set_retrieved_context refined_context state in
      let state := set_status "context_refined" state in
      log_state_transition (now 0) state "refine_context"
        ("Refined to " +:+ PyStr.of_nat (length refined_context) +:+ " documents")
  | Raised _ =>
      let state := set_status "context_refined" state in
      log_state_transition (now 0) state "refine_context"
        "Error occurred, keeping existing context"
  end.

Definition escalation_message : string :=
  "This ticket has been escalated to our human support team for personalized assistance. "
  +:+ "A support specialist will review your case and provide a detailed response within our "
  +:+ "standard response time. Thank you for your patience.".

(** [escalate_ticket_node].  [save_escalation_log] catches its own errors,
    so the handler's [except] branch is not taken. *)
Definition escalate_ticket_node (now : Clock) (state : SupportTicketState)
    (fs : Utils.FileSystem) : SupportTicketState * Utils.FileSystem :=
  let escalation_data :=
    {| Utils.ed_timestamp := now 0;
       Utils.ed_ticket_subject := subject (ticket state);
       Utils.ed_ticket_description := description (ticket state);
       Utils.ed_category := category state;
       Utils.ed_retries := retries state;
       Utils.ed_review_feedback := review_feedback state;
       Utils.ed_final_drafts := drafts state |} in
  let '(_, fs) := Utils.save_escalation_log escalation_data fs in
  let state := set_final_output (Some escalation_message) state in
  let state := set_escalated true state in
  let state := set_status "escalated" state in
  (log_state_transition (now 1) state "escalate_ticket"
     "Ticket escalated to human agent", fs).

(** [finalize_response_node] *)
Definition finalize_response_node (now : Clock) (state : SupportTicketState)
    : SupportTicketState :=
  let state := set_final_output (current_draft state) state in
  let state := set_status "resolved" state in
  let state := set_processing_end_time (Some (now 0)) state in
  log_state_transition (now 1) state "finalize_response"
    "Workflow completed successfully".

End Nodes.

(** ** graph.py *)
Module Graph.
Import State.

(** The seven nodes added to the [StateGraph]. *)
Inductive node : Type :=
  | n_classify_ticket
  | n_retrieve_context
  | n_generate_response
  | n_review_response
  | n_refine_context
  | n_escalate_ticket
  | n_finalize_response.

(** [review_routing]: [state.get('review_status', 'failed')] reads the
    key, which every state has; its value is [None] before the first
    review. *)
Definition review_routing (state : SupportTicketState) : node :=
  let review_status := review_status state in
  if bool_decide (review_status = Some "approved") then n_finalize_response
  else if (retries state <? 2)%Z then n_refine_context
  else n_escalate_ticket.

(** [increment_retry_and_generate]: defined inside
    [create_support_agent_graph], and passed to no [add_node] or
    [add_edge] call. *)
Definition increment_retry_and_generate (state : SupportTicketState)
    : SupportTicketState :=
  set_retries (retries state + 1)%Z state.

(** The edges: [set_entry_point], [add_edge], [add_conditional_edges].
    [None] is [END]. *)
Definition entry_point : node := n_classify_ticket.

Definition next_node (n : node) (state : SupportTicketState) : option node :=
  match n with
  | n_classify_ticket => Some n_retrieve_context
  | n_retrieve_context => Some n_generate_response
  | n_generate_response => Some n_review_response
  | n_review_response => Some (review_routing state)
  | n_refine_context => Some n_generate_response
  | n_finalize_response => None
  | n_escalate_ticket => None
  end.

(** The handler registered under each node name.  Only the escalation
    handler touches the escalation log. *)
Definition run_node (c : Nodes.Components) (now : Nodes.Clock) (n : node)
    (state : SupportTicketState) (fs : Utils.FileSystem)
    : SupportTicketState * Utils.FileSystem :=
  match n with
  | n_classify_ticket => (Nodes.classify_ticket_node c now state, fs)
  | n_retrieve_context => (Nodes.retrieve_context_node c now state, fs)
  | n_generate_response => (Nodes.generate_response_node c now state, fs)
  | n_review_response => (Nodes.review_response_node c now state, fs)
  | n_refine_context => (Nodes.refine_context_node c now state, fs)
  | n_escalate_ticket => Nodes.escalate_ticket_node now state fs
  | n_finalize_response => (Nodes.finalize_response_node now state, fs)
  end.

(** What the LangGraph runtime contributes: the bound on the number of
    handler invocations of one run (25 unless configured), the text of the
    error raised when the bound is hit, and the clock readings of each
    invocation. *)
Record Runtime := {
  recursion_limit : nat;
  recursion_error : string;
  clock : nat -> Nodes.Clock
}.

Inductive run_result : Type :=
  | Finished (state : SupportTicketState) (fs : Utils.FileSystem)
  | GraphRecursionError (msg : string) (state : SupportTicketState)
      (fs : Utils.FileSystem).

(** The compiled graph: run the current node, follow its edge, stop at
    [END]; [budget] handler invocations remain. *)
Fixpoint invoke_from (c : Nodes.Components) (rt : Runtime) (budget step : nat)
    (n : node) (state : SupportTicketState) (fs : Utils.FileSystem)
    : run_result :=
  match budget with
  | O => GraphRecursionError (recursion_error rt) state fs
  | S budget' =>
      let '(state', fs') := run_node c (clock rt step) n state fs in
      match next_node n state' with
      | None => Finished state' fs'
      | Some n' => invoke_from c rt budget' (S step) n' state' fs'
      end
  end.

(** [compiled_graph.ainvoke(initial_state)] *)
Definition ainvoke (c : Nodes.Components) (rt : Runtime)
    (initial_state : SupportTicketState) (fs : Utils.FileSystem) : run_result :=
  invoke_from c rt (recursion_limit rt) 0 entry_point initial_state fs.

(** The sequence of nodes a run visits in its first [budget] invocations,
    with the state each one was entered with. *)
Fixpoint trace_from (c : Nodes.Components) (rt : Runtime) (budget step : nat)
    (n : node) (state : SupportTicketState) (fs : Utils.FileSystem)
    : list (node * SupportTicketState) :=
  match budget with
  | O => []
  | S budget' =>
      let '(state', fs') := run_node c (clock rt step) n state fs in
      (n, state) ::
      match next_node n state' with
      | None => []
      | Some n' => trace_from c rt budget' (S step) n' state' fs'
      end
  end.

#[global] Instance node_eq_dec : EqDecision node.
Proof. solve_decision. Defined.

(** The number of times a node occurs in a trace. *)
Definition visits (n : node) (t : list (node * SupportTicketState)) : nat :=
  length (filter (fun p => p.1 = n) t).

End Graph.

(** ** app.py *)
Module App.

(** [result_data] of [process_ticket_async] (the start time and the
    elapsed seconds are left out). *)
Record ResultData := {
  subject : string;
  description : string;
  category : string;
  status : string;
  final_output : option string;
  retries : Z;
  escalated : bool;
  drafts : list string;
  review_feedback : list State.ReviewFeedback
}.

(** [process_ticket_async(agent, ticket_data)]; [start] is the clock
    reading taken by [create_initial_state]. *)
Definition process_ticket_async (c : Nodes.Components) (rt : Graph.Runtime)
    (start : string) (ticket_data : State.TicketInfo) (fs : Utils.FileSystem)
    : ResultData * Utils.FileSystem :=
  let initial_state := State.create_initial_state start ticket_data in
  match Graph.ainvoke c rt initial_state fs with
  | Graph.Finished result fs' =>
      ({| subject := State.subject ticket_data;
          description := State.description ticket_data;
          category := State.category result;
          status := State.status result;
          final_output := State.final_output result;
          retries := State.retries result;
          escalated := State.escalated result;
          drafts := State.drafts result;
          review_feedback := State.review_feedback result |}, fs')
  | Graph.GraphRecursionError e _ fs' =>
      ({| subject := State.subject ticket_data;
          description := State.description ticket_data;
          category := "Error";
          status := "error";
          final_output := Some ("Error processing ticket: " +:+ e);
          retries := 0;
          escalated := true;
          drafts := [];
          review_feedback := [] |}, fs')
  end.

(** The submit branch of the ticket form in [main] (the emoji that start
    the two messages are left out). *)
Inductive form_outcome : Type :=
  | FormError (msg : string)
  | Processed (result : ResultData) (fs : Utils.FileSystem).

Definition Processed_of (r : ResultData * Utils.FileSystem) : form_outcome :=
  Processed r.1 r.2.

Definition submit (c : Nodes.Components) (rt : Graph.Runtime) (start : string)
    (gemini_key : bool) (subject description : string) (fs : Utils.FileSystem)
    : form_outcome :=
  if negb (PyStr.truthy (PyStr.strip subject))
     || negb (PyStr.truthy (PyStr.strip description))
  then FormError "Please provide both subject and description"
  else if negb gemini_key
  then FormError "Gemini API Key not configured. Please set GEMINI_API_KEY environment variable."
  else
    let ticket_data :=
      {| State.subject := PyStr.strip subject;
         State.description := PyStr.strip description |} in
    Processed_of (process_ticket_async c rt start ticket_data fs).


(** [st.session_state.analytics_data].  [success_rate] is a float in the
    code; here it is the exact quotient the float rounds. *)
Record Analytics := {
  total_tickets : Z;
  resolved_tickets : Z;
  escalated_tickets : Z;
  category_distribution : gmap string Z;
  resolution_times : list Q;
  success_rate : Q
}.

Definition initial_analytics : Analytics :=
  {| total_tickets := 0;
     resolved_tickets := 0;
     escalated_tickets := 0;
     category_distribution := ∅;
     resolution_times := [];
     success_rate := 0%Q |}.

(** [update_analytics(ticket_data)]; [resolution_time] is the entry of
    that name in the dictionary, absent when [None]. *)
Definition update_analytics (ticket_data : ResultData)
    (resolution_time : option Q) (analytics : Analytics) : Analytics :=
  let total := (total_tickets analytics + 1)%Z in
  let resolved :=
    if String.eqb (status ticket_data) "resolved"
    then (resolved_tickets analytics + 1)%Z
    else resolved_tickets analytics in
  let escalated :=
    if String.eqb (status ticket_data) "resolved"
    then escalated_tickets analytics
    else if String.eqb (status ticket_data) "escalated"
    then (escalated_tickets analytics + 1)%Z
    else escalated_tickets analytics in
  let category := category ticket_data in
  let distribution :=
    <[category :=
        (default 0%Z (category_distribution analytics !! category) + 1)%Z]>
      (category_distribution analytics) in
  let times :=
    match resolution_time with
    | Some t => resolution_times analytics ++ [t]
    | None => resolution_times analytics
    end in
  let rate :=
    if (0 <? total)%Z
    then ((inject_Z resolved / inject_Z total) * 100)%Q
    else success_rate analytics in
  {| total_tickets := total;
     resolved_tickets := resolved;
     escalated_tickets := escalated;
     category_distribution := distribution;
     resolution_times := times;
     success_rate := rate |}.

(** The analytics after a sequence of processed tickets. *)
Definition update_all (results : list (ResultData * option Q))
    (analytics : Analytics) : Analytics :=
  foldl (fun a r => update_analytics r.1 r.2 a) analytics results.

End App.

(** ** Scenarios: concrete collaborators and tickets *)
Module Scenario.
Import State.

Definition refund_ticket : TicketInfo :=
  {| subject := "Refund request"; description := "I was charged twice" |}.

(** A reviewer that rejects every draft. *)
Definition rejecting_endpoint : Gemini.Endpoint :=
  {| Gemini.post_classify := fun _ _ => Gemini.HttpResponse 200 (Some "Billing");
     Gemini.post_review :=
       fun _ _ _ _ => Gemini.HttpResponse 200 (Some "REJECTED: too vague");
     Gemini.generation := fun _ _ _ _ => Returned "draft" |}.

Definition rejecting_components : Nodes.Components :=
  {| Nodes.gemini_client := Some (GeminiClient rejecting_endpoint);
     Nodes.rag_system := None |}.

(** A reviewer that approves every draft. *)
Definition approving_endpoint : Gemini.Endpoint :=
  {| Gemini.post_classify := fun _ _ => Gemini.HttpResponse 200 (Some "Billing");
     Gemini.post_review := fun _ _ _ _ => Gemini.HttpResponse 200 (Some "APPROVED");
     Gemini.generation := fun _ _ _ _ => Returned "draft" |}.

Definition approving_components : Nodes.Components :=
  {| Nodes.gemini_client := Some (GeminiClient approving_endpoint);
     Nodes.rag_system := None |}.

(** A reviewer that rejects the first draft and approves the revision. *)
Definition second_chance_endpoint : Gemini.Endpoint :=
  {| Gemini.post_classify := fun _ _ => Gemini.HttpResponse 200 (Some "Billing");
     Gemini.post_review :=
       fun _ _ draft _ =>
         if String.eqb draft "second draft"
         then Gemini.HttpResponse 200 (Some "APPROVED")
         else Gemini.HttpResponse 200 (Some "REJECTED: too vague");
     Gemini.generation :=
       fun _ _ _ feedback =>
         match feedback with
         | None => Returned "first draft"
         | Some _ => Returned "second draft"
         end |}.

Definition second_chance_components : Nodes.Components :=
  {| Nodes.gemini_client := Some (GeminiClient second_chance_endpoint);
     Nodes.rag_system := None |}.

(** The completion endpoint cannot be reached. *)
Definition unreachable_endpoint : Gemini.Endpoint :=
  {| Gemini.post_classify := fun _ _ => Gemini.ConnectionError "timeout";
     Gemini.post_review := fun _ _ _ _ => Gemini.ConnectionError "timeout";
     Gemini.generation := fun _ _ _ _ => Raised "timeout" |}.

Definition unreachable_components : Nodes.Components :=
  {| Nodes.gemini_client := Some (GeminiClient unreachable_endpoint);
     Nodes.rag_system := None |}.

(** No client at all (initialisation failed). *)
Definition bare_components : Nodes.Components :=
  {| Nodes.gemini_client := None; Nodes.rag_system := None |}.

(** A reviewer whose answer names both verdicts. *)
Definition contradicting_endpoint : Gemini.Endpoint :=
  {| Gemini.post_classify := fun _ _ => Gemini.HttpResponse 200 (Some "Billing");
     Gemini.post_review :=
       fun _ _ _ _ =>
         Gemini.HttpResponse 200
           (Some "REJECTED: the refund amount is not approved by policy");
     Gemini.generation := fun _ _ _ _ => Returned "draft" |}.

Definition contradicting_components : Nodes.Components :=
  {| Nodes.gemini_client := Some (GeminiClient contradicting_endpoint);
     Nodes.rag_system := None |}.

(** A state that has just been through generation. *)
Definition drafted_state : SupportTicketState :=
  Nodes.generate_response_node contradicting_components (fun _ => "t")
    (create_initial_state "t0" refund_ticket).

Definition fixed_clock : nat -> Nodes.Clock := fun _ _ => "2025-01-01T00:00:00".

Definition runtime (limit : nat) : Graph.Runtime :=
  {| Graph.recursion_limit := limit;
     Graph.recursion_error := "Recursion limit reached";
     Graph.clock := fixed_clock |}.

Definition no_log : Utils.FileSystem :=
  {| Utils.csv_file := None; Utils.writable := true |}.

Definition read_only : Utils.FileSystem :=
  {| Utils.csv_file := None; Utils.writable := false |}.

(** A state as the router would hand it to the escalation handler: three
    drafts, three rejections, two retries. *)
Definition rejection (n : Z) : ReviewFeedback :=
  {| rf_status := "rejected"; rf_feedback := "too vague";
     rf_timestamp := "2025-01-01T00:00:00"; attempt := n |}.

Definition exhausted_state : SupportTicketState :=
  {| ticket := refund_ticket;
     category := "Billing";
     retrieved_context :=
       [ {| content := "Refunds take five days"; source := "billing_faq";
            relevance_score := (1 # 2)%Q; doc_category := "Billing" |} ];
     drafts := ["draft"; "draft"; "draft"];
     current_draft := Some "draft";
     review_feedback := [rejection 1; rejection 2; rejection 3];
     review_status := Some "rejected";
     latest_feedback := Some "too vague";
     final_output := Some "";
     retries := 2;
     status := "reviewed";
     escalated := false;
     processing_start_time := Some "2025-01-01T00:00:00";
     processing_end_time := None;
     node_execution_log := Some [] |}.

(** A subject of 201 characters. *)
Definition long_subject : string := PyStr.repeat_char "a" 201.

Definition oversized_ticket : TicketInfo :=
  {| subject := long_subject; description := "x" |}.

(** A knowledge base with two billing documents, scored 0.4 and 0.9. *)
Definition small_rag : Rag.RAGSystem :=
  {| Rag.vectorizers := {["Billing"]};
     Rag.document_stores :=
       {["Billing" :=
          [ {| Rag.kb_content := "Invoices"; Rag.kb_source := Some "inv" |};
            {| Rag.kb_content := "Refunds"; Rag.kb_source := None |};
            {| Rag.kb_content := "Taxes"; Rag.kb_source := None |} ]]};
     Rag.document_vectors :=
       {["Billing" :=
          Some {| Rag.cosine_similarity :=
                    fun _ => Returned [(4 # 10)%Q; (9 # 10)%Q; (1 # 100)%Q] |}]} |}.

Definition rag_components : Nodes.Components :=
  {| Nodes.gemini_client := None; Nodes.rag_system := Some (RAGSystem small_rag) |}.



(** A retriever whose search call raises. *)
Definition failing_retriever : Retriever :=
  {| enhance_query := Rag.enhance_query;
     retrieve_context := fun _ _ _ _ _ => Raised "service unavailable" |}.

Definition failing_rag_components : Nodes.Components :=
  {| Nodes.gemini_client := None; Nodes.rag_system := Some failing_retriever |}.


(** A knowledge base with billing documents only, and a fitter that
    accepts every corpus. *)
Definition billing_only : Rag.KnowledgeBase :=
  {| Rag.documents :=
       {["Billing" :=
          [ {| Rag.kb_content := "Invoices"; Rag.kb_source := Some "inv" |};
            {| Rag.kb_content := "Refunds"; Rag.kb_source := None |} ]]} |}.

Definition constant_matrix : Rag.DocVectors :=
  {| Rag.cosine_similarity := fun _ => Returned [(4 # 10)%Q; (9 # 10)%Q] |}.

Definition always_fits : Rag.Fitter := fun _ => Returned constant_matrix.

End Scenario.

(** ** What the specification says, in its own words *)
Module Spec.

(** The keyword heuristic as the specification words it:
    payment/charge/refund -> Billing; api/error/bug/integration ->
    Technical; security/password/login/access -> Security; else General. *)
Definition spec_keyword_heuristic (subject description : string) : string :=
  let text := PyStr.lower (subject +:+ " " +:+ description) in
  if PyStr.any_in ["payment"; "charge"; "refund"] text then "Billing"
  else if PyStr.any_in ["api"; "error"; "bug"; "integration"] text then "Technical"
  else if PyStr.any_in ["security"; "password"; "login"; "access"] text
  then "Security"
  else "General".

End Spec.

(** ** intelligent_response.py, and the drafting path of gemini_client.py *)
Module Intelligent.
Import State.

(** [sum(1 for word in words if word in text)] *)
Definition count_in (words : list string) (text : string) : nat :=
  list_sum (map (fun w => if PyStr.contains w text then 1 else 0) words).

(** The dictionary [analyze_user_profile] returns. *)
Record UserProfile := {
  sentiment : string;
  technical_level : string;
  urgency : string;
  user_type : string;
  preferred_tone : string;
  personalization_level : string;
  response_style : string
}.

(** [determine_response_style] *)
Definition determine_response_style (sentiment technical_level urgency : string)
    : string :=
  if String.eqb urgency "high" then
    if String.eqb technical_level "advanced"
    then "direct_technical_immediate"
    else "empathetic_immediate_simple"
  else if String.eqb sentiment "frustrated" then "empathetic_solution_focused"
  else if String.eqb technical_level "advanced" then "detailed_technical"
  else "friendly_comprehensive".

(** [analyze_user_profile] *)
Definition analyze_user_profile (t : TicketInfo) : UserProfile :=
  let subject := PyStr.lower (subject t) in
  let description := PyStr.lower (description t) in
  let combined_text := subject +:+ " " +:+ description in
  let negative_count :=
    count_in ["cant"; "cannot"; "broken"; "failed"; "error"; "issue"; "problem";
              "frustrated"; "urgent"; "immediately"] combined_text in
  let positive_count :=
    count_in ["please"; "thank"; "help"; "could"; "would"] combined_text in
  let '(sentiment, preferred_tone) :=
    if positive_count + 1 <? negative_count
    then ("frustrated", "empathetic and solution-focused")
    else if negative_count <? positive_count
    then ("polite", "friendly and helpful")
    else ("neutral", "professional and direct") in
  let technical_count :=
    count_in ["api"; "database"; "server"; "configuration"; "authentication";
              "integration"; "sdk"; "webhook"] combined_text in
  let basic_count :=
    count_in ["login"; "password"; "email"; "account"; "profile"; "settings"]
      combined_text in
  let '(technical_level, personalization_level) :=
    if 2 <? technical_count then ("advanced", "technical")
    else if technical_count <? basic_count then ("basic", "simple")
    else ("intermediate", "balanced") in
  let urgency_count :=
    count_in ["urgent"; "immediately"; "asap"; "critical"; "emergency";
              "production"; "down"; "broken"] combined_text in
  let urgency :=
    if (0 <? urgency_count) || PyStr.contains "urgent" subject
       || PyStr.contains "critical" subject
    then "high"
    else if PyStr.any_in ["soon"; "quick"; "fast"] combined_text then "medium"
    else "low" in
  let user_type :=
    if 1 <? technical_count then "developer"
    else if PyStr.any_in ["business"; "company"; "team"; "organization"]
              combined_text
    then "business_user"
    else "end_user" in
  {| sentiment := sentiment;
     technical_level := technical_level;
     urgency := urgency;
     user_type := user_type;
     preferred_tone := preferred_tone;
     personalization_level := personalization_level;
     response_style :=
       determine_response_style sentiment technical_level urgency |}.

(** The dictionary [assess_issue_complexity] returns. *)
Record Complexity := {
  level : string;
  reasoning : string;
  recommended_approach : string;
  estimated_resolution_steps : Z
}.

(** [get_estimated_steps] *)
Definition get_estimated_steps (complexity_level : string) : Z :=
  if String.eqb complexity_level "simple" then 2
  else if String.eqb complexity_level "moderate" then 4
  else if String.eqb complexity_level "complex" then 6
  else 3.

(** [assess_issue_complexity] *)
Definition assess_issue_complexity (t : TicketInfo) (category : string)
    : Complexity :=
  let subject := PyStr.lower (subject t) in
  let description := PyStr.lower (description t) in
  let combined_text := subject +:+ " " +:+ description in
  let simple_count :=
    count_in ["password"; "login"; "forgot"; "reset"; "email"; "profile"]
      combined_text in
  let moderate_count :=
    count_in ["setup"; "configuration"; "installation"; "integration";
              "permission"] combined_text in
  let complex_count :=
    count_in ["api"; "webhook"; "database"; "custom"; "advanced"; "development"]
      combined_text in
  let '(level, reasoning, approach) :=
    if 0 <? complex_count
    then ("complex", "Technical issue requiring detailed analysis",
          "step_by_step_technical")
    else if simple_count <? moderate_count
    then ("moderate", "Configuration or setup related issue",
          "guided_resolution")
    else ("simple", "Common user account or access issue",
          "direct_solution") in
  let level :=
    if existsb (String.eqb category) ["Security"; "Technical"] then
      if String.eqb level "simple" then "moderate"
      else if String.eqb level "moderate" then "complex"
      else level
    else level in
  {| level := level;
     reasoning := reasoning;
     recommended_approach := approach;
     estimated_resolution_steps := get_estimated_steps level |}.

(** The [confidence_level] entry of what [analyze_context_relevance]
    returns (the other entries go into the prompt only). *)
Definition confidence_level (context_docs : list ContextDocument) : string :=
  match context_docs with
  | [] => "low"
  | _ =>
      let relevant_docs :=
        List.filter (fun doc => negb (Qle_bool (relevance_score doc) (1 # 10)%Q))
          context_docs in
      if 2 <=? length relevant_docs then "high"
      else if 0 <? length relevant_docs then "medium"
      else "low"
  end.

(** [get_personalized_closing] *)
Definition get_personalized_closing (user_profile : UserProfile) : string :=
  if String.eqb (user_type user_profile) "developer" then
    "If you need additional API documentation or technical specifications, please let me know. I'm here to support your development work."
  else if String.eqb (user_type user_profile) "business_user" then
    "I'm committed to ensuring your business operations run smoothly. Please don't hesitate to reach out if you need further assistance."
  else
    "I hope this helps resolve your issue. If you have any questions or need clarification on any of these steps, I'm here to help.".

(** The police-light emoji U+1F6A8 that opens the urgency line, written
    as its four UTF-8 bytes. *)
Definition siren : string :=
  String (ascii_of_nat 240) (String (ascii_of_nat 159)
    (String (ascii_of_nat 154) (String (ascii_of_nat 168) EmptyString))).

Definition urgency_line : string :=
  siren +:+ " I understand this is urgent and I'm prioritizing your request.".

Definition confidence_line (confidence : string) : string :=
  if String.eqb confidence "high" then
    "Based on our comprehensive policy documentation, here's what I can help you with:"
  else if String.eqb confidence "medium" then
    "I found some relevant information that should help:"
  else
    "While I have limited specific documentation for this exact issue, I can provide general guidance:".

(** [enhance_response_with_context]; [confidence] is
    [context_analysis['confidence_level']]. *)
Definition enhance_response_with_context (response : string)
    (user_profile : UserProfile) (confidence : string) : string :=
  let enhancements :=
    (if String.eqb (urgency user_profile) "high" then [urgency_line] else [])
    ++ [confidence_line confidence] in
  let enhanced_response :=
    match enhancements with
    | [] => response
    | first :: rest =>
        let enhanced := first +:+ PyStr.nl +:+ PyStr.nl +:+ response in
        match rest with
        | second :: _ => second +:+ PyStr.nl +:+ PyStr.nl +:+ enhanced
        | [] => enhanced
        end
    end in
  enhanced_response +:+ PyStr.nl +:+ PyStr.nl
  +:+ get_personalized_closing user_profile.

(** [GeminiClient._create_intelligent_fallback], the three-parameter
    definition (the later one in the class body, which is the one in
    force). *)
Definition _create_intelligent_fallback (user_profile : UserProfile)
    (subject description : string) : string :=
  if String.eqb (urgency user_profile) "high" then
    "I understand your urgent request regarding " +:+ PyStr.dq +:+ subject
    +:+ PyStr.dq +:+ " requires immediate attention." +:+ PyStr.nl
    +:+ "            " +:+ PyStr.nl
    +:+ "Due to a temporary system issue, I'm escalating this directly to our priority support team. You'll receive a comprehensive response within our expedited timeframe."
    +:+ PyStr.nl +:+ PyStr.nl
    +:+ "Your concern about " +:+ PyStr.dq +:+ PyStr.take 50 description
    +:+ "..." +:+ PyStr.dq
    +:+ " is important to us, and our specialists have the tools and expertise to provide the detailed assistance you need."
  else
    "Thank you for your inquiry about " +:+ PyStr.dq +:+ subject +:+ PyStr.dq
    +:+ "." +:+ PyStr.nl +:+ PyStr.nl
    +:+ "While I'm experiencing a temporary processing issue, I want to ensure you receive the best possible assistance for your "
    +:+ PyStr.replace_char "_" " " (user_type user_profile) +:+ " needs."
    +:+ PyStr.nl +:+ "            " +:+ PyStr.nl
    +:+ "I'm connecting you with a specialist who can provide comprehensive support for your specific situation regarding: "
    +:+ PyStr.take 100 description
    +:+ (if 100 <? String.length description then "..." else "")
    +:+ PyStr.nl +:+ PyStr.nl
    +:+ "You can expect a detailed, personalized response that addresses your exact requirements.".

(** [GeminiClient.generate_intelligent_response], given what the
    completion request came back with. *)
Definition generate_intelligent_response (reply : Gemini.http_reply)
    (user_profile : UserProfile) (ticket_subject ticket_description : string)
    : string :=
  match reply with
  | Gemini.HttpResponse code (Some text) =>
      if (code =? 200)%Z then PyStr.strip text
      else _create_intelligent_fallback user_profile ticket_subject
             ticket_description
  | _ =>
      _create_intelligent_fallback user_profile ticket_subject
        ticket_description
  end.

(** The drafting steps of [generate_response_node] on the client path:
    profile and context analysis, the completion request, the
    enhancement.  [post_generate] is the completion request, keyed by what
    its prompt is built from. *)
Definition drafting
    (post_generate : TicketInfo -> string -> list ContextDocument
                     -> option string -> Gemini.http_reply)
    (t : TicketInfo) (category : string) (context_docs : list ContextDocument)
    (previous_feedback : option string) : outcome string :=
  let user_profile := analyze_user_profile t in
  let confidence := confidence_level context_docs in
  let response :=
    generate_intelligent_response
      (post_generate t category context_docs previous_feedback)
      user_profile (subject t) (description t) in
  Returned (enhance_response_with_context response user_profile confidence).

End Intelligent.

Import State.

(** ** Definitions used in the statements *)

(** The row [save_escalation_log] writes for a state. *)
Definition escalation_row (timestamp : string) (s : SupportTicketState)
    : list (string * Utils.cell) :=
  [ ("timestamp", Utils.CStr timestamp);
    ("ticket_subject", Utils.CStr (subject (ticket s)));
    ("ticket_description", Utils.CStr (description (ticket s)));
    ("category", Utils.CStr (category s));
    ("retries", Utils.CInt (retries s));
    ("review_count", Utils.CInt (Z.of_nat (length (review_feedback s))));
    ("draft_count", Utils.CInt (Z.of_nat (length (drafts s)))) ].

(** The part of the graph a run stays in when every draft is rejected. *)
Definition rejecting_loop (n : Graph.node) (s : SupportTicketState) : Prop :=
  retries s = 0%Z /\
  match n with
  | Graph.n_finalize_response | Graph.n_escalate_ticket => False
  | Graph.n_review_response => current_draft s = Some "draft"
  | _ => True
  end.

(** [text] contains [word] in some casing. *)
Definition mentions (word text : string) : Prop :=
  exists pre mid post,
    text = pre +:+ mid +:+ post /\ PyStr.upper mid = PyStr.upper word.

(** A word whose first and last characters are not white space. *)
Definition solid (w : string) : Prop :=
  (exists c r, w = String c r /\ PyStr.is_space c = false) /\
  (exists y d, w = y +:+ String d "" /\ PyStr.is_space d = false).

(** The reviewer failed (transport error, error status, malformed body) or
    its answer carries no usable verdict: it names neither verdict, or
    both. *)
Inductive no_verdict : Gemini.http_reply -> Prop :=
  | nv_transport msg : no_verdict (Gemini.ConnectionError msg)
  | nv_status code body :
      code <> 200%Z -> no_verdict (Gemini.HttpResponse code body)
  | nv_malformed code : no_verdict (Gemini.HttpResponse code None)
  | nv_unparseable code answer :
      ~ mentions "approved" answer -> ~ mentions "rejected" answer ->
      no_verdict (Gemini.HttpResponse code (Some answer))
  | nv_ambiguous code answer :
      mentions "approved" answer -> mentions "rejected" answer ->
      no_verdict (Gemini.HttpResponse code (Some answer)).

(** Largest score first. *)
Definition score_ge (a b : ContextDocument) : Prop :=
  (relevance_score b <= relevance_score a)%Q.

(** ** Definitions used in the further properties *)

(** The audit trail of a state, [None] read as empty. *)
Definition log_of (s : SupportTicketState) : list string :=
  default [] (node_execution_log s).

(** The state a run stopped in. *)
Definition final_state (r : Graph.run_result) : SupportTicketState :=
  match r with
  | Graph.Finished s _ => s
  | Graph.GraphRecursionError _ s _ => s
  end.

(** The [attempt] fields of the review history count 1, 2, 3, ... *)
Definition attempts_numbered (s : SupportTicketState) : Prop :=
  map attempt (review_feedback s)
  = map Z.of_nat (seq 1 (length (review_feedback s))).

(** The convenience fields repeat the last draft and the last review. *)
Definition mirrors (s : SupportTicketState) : Prop :=
  current_draft s = last (drafts s)
  /\ review_status s = rf_status <$> last (review_feedback s)
  /\ latest_feedback s = rf_feedback <$> last (review_feedback s).

Definition not_approved (f : ReviewFeedback) : Prop :=
  rf_status f <> "approved".

(** What holds of the state a node is entered with, in a run that started
    from a fresh state. *)
Definition on_entry (n : Graph.node) (s : SupportTicketState) : Prop :=
  retries s = 0%Z /\ escalated s = false /\ mirrors s /\
  Forall not_approved (removelast (review_feedback s)) /\
  match n with
  | Graph.n_classify_ticket =>
      drafts s = [] /\ review_feedback s = [] /\ length (log_of s) = 0
  | Graph.n_retrieve_context =>
      drafts s = [] /\ review_feedback s = [] /\ length (log_of s) = 1
  | Graph.n_generate_response =>
      length (review_feedback s) = length (drafts s)
      /\ Forall not_approved (review_feedback s)
      /\ length (log_of s) = 3 * length (drafts s) + 2
  | Graph.n_review_response =>
      S (length (review_feedback s)) = length (drafts s)
      /\ Forall not_approved (review_feedback s)
      /\ length (log_of s) = 3 * length (drafts s)
  | Graph.n_refine_context =>
      length (review_feedback s) = length (drafts s)
      /\ Forall not_approved (review_feedback s)
      /\ length (log_of s) = 3 * length (drafts s) + 1
  | Graph.n_finalize_response =>
      length (review_feedback s) = length (drafts s)
      /\ review_status s = Some "approved"
      /\ length (log_of s) = 3 * length (drafts s) + 1
  | Graph.n_escalate_ticket => False
  end.

(** The shape of the state a finished run returns. *)
Definition resolved_outcome (s : SupportTicketState) : Prop :=
  status s = "resolved"
  /\ escalated s = false
  /\ retries s = 0%Z
  /\ (exists draft, last (drafts s) = Some draft /\ final_output s = Some draft)
  /\ length (review_feedback s) = length (drafts s)
  /\ (exists earlier final,
        review_feedback s = earlier ++ [final]
        /\ Forall not_approved earlier /\ rf_status final = "approved")
  /\ length (log_of s) = 3 * length (drafts s) + 2.

(** A returned document comes from the store of its category: it carries
    the content of the document at some index, the score the similarity
    computation gave that index, and the stored source or the generated
    one. *)
Definition from_store (self : Rag.RAGSystem) (query : string)
    (d : ContextDocument) : Prop :=
  exists documents matrix similarities idx doc,
    Rag.document_stores self !! doc_category d = Some documents
    /\ Rag.document_vectors self !! doc_category d = Some (Some matrix)
    /\ Rag.cosine_similarity matrix query = Returned similarities
    /\ documents !! idx = Some doc
    /\ similarities !! idx = Some (relevance_score d)
    /\ content d = Rag.kb_content doc
    /\ source d
       = default (doc_category d +:+ "_doc_" +:+ PyStr.of_nat idx)
                 (Rag.kb_source doc).

(** What [_initialize_indexes] stores for one category: the fitted matrix
    with the documents, or nothing. *)
Definition fitted (kb : Rag.KnowledgeBase) (fit_transform : Rag.Fitter)
    (category : string) : option Rag.DocVectors * list Rag.KBDoc :=
  match Rag.get_category_documents kb category with
  | [] => (None, [])
  | documents =>
      match fit_transform (map Rag.kb_content documents) with
      | Returned vectors => (Some vectors, documents)
      | Raised _ => (None, [])
      end
  end.

(** How many of the results have a given status, or a given category. *)
Definition with_status (v : string) (results : list (App.ResultData * option Q))
    : Z :=
  Z.of_nat (length (filter (fun r => App.status r.1 = v) results)).

Definition with_category (v : string)
    (results : list (App.ResultData * option Q)) : Z :=
  Z.of_nat (length (filter (fun r => App.category r.1 = v) results)).

(** Every review in the history is an approval or a rejection. *)
Definition statuses_binary (s : SupportTicketState) : Prop :=
  Forall (fun f => rf_status f = "approved" \/ rf_status f = "rejected")
         (review_feedback s).

(** The characters of a text, and a text [clean_text] has nothing to
    remove from: printable characters and whitespace only. *)
Definition chars (s : string) : list ascii := list_ascii_of_string s.

Definition printable (s : string) : Prop :=
  Forall (fun c => 32 <= PyStr.code c \/ PyStr.is_space c = true) (chars s).

(** A word as [split] returns them: not empty and free of whitespace;
    [P] holds of its characters. *)
Definition word_of (P : ascii -> Prop) (w : string) : Prop :=
  PyStr.truthy w = true
  /\ Forall (fun c => P c /\ PyStr.is_space c = false) (chars w).

(** Unfolds the seven stage handlers. *)
Ltac unfold_nodes :=
  unfold Nodes.classify_ticket_node, Nodes.retrieve_context_node,
    Nodes.generate_response_node, Nodes.review_response_node,
    Nodes.refine_context_node, Nodes.escalate_ticket_node,
    Nodes.finalize_response_node.

(** * Properties *)

(** ** The router and the retry counter *)

Lemma review_routing_approved (s : SupportTicketState) :
  review_status s = Some "approved" ->
  Graph.review_routing s = Graph.n_finalize_response.
Proof.
  intros H. unfold Graph.review_routing.
  rewrite bool_decide_eq_true_2 by exact H. reflexivity.
Qed.

Lemma review_routing_retry (s : SupportTicketState) :
  review_status s <> Some "approved" -> (retries s < 2)%Z ->
  Graph.review_routing s = Graph.n_refine_context.
Proof.
  intros H Hlt. unfold Graph.review_routing.
  rewrite bool_decide_eq_false_2 by exact H.
  destruct (Z.ltb_spec (retries s) 2); [reflexivity | lia].
Qed.

Lemma review_routing_escalate (s : SupportTicketState) :
  review_status s <> Some "approved" -> (2 <= retries s)%Z ->
  Graph.review_routing s = Graph.n_escalate_ticket.
Proof.
  intros H Hge. unfold Graph.review_routing.
  rewrite bool_decide_eq_false_2 by exact H.
  destruct (Z.ltb_spec (retries s) 2); [lia | reflexivity].
Qed.

(** What the helper that no edge uses would do. *)
Lemma increment_retry_and_generate_retries (s : SupportTicketState) :
  retries (Graph.increment_retry_and_generate s) = (retries s + 1)%Z.
Proof. reflexivity. Qed.

(** No handler registered in the graph writes [retries]. *)
Lemma run_node_retries c now n s fs :
  retries (Graph.run_node c now n s fs).1 = retries s.
Proof.
  destruct n; cbn;
    unfold Nodes.classify_ticket_node, Nodes.retrieve_context_node,
      Nodes.generate_response_node, Nodes.review_response_node,
      Nodes.refine_context_node, Nodes.escalate_ticket_node,
      Nodes.finalize_response_node;
    repeat case_match; reflexivity.
Qed.

(** Only the escalation handler writes the log, and it ends the run. *)
Lemma run_node_fs c now n s fs :
  n <> Graph.n_escalate_ticket -> (Graph.run_node c now n s fs).2 = fs.
Proof. destruct n; intros Hn; try reflexivity. congruence. Qed.

Lemma run_node_escalated c now n s fs :
  n <> Graph.n_escalate_ticket ->
  escalated (Graph.run_node c now n s fs).1 = escalated s.
Proof.
  destruct n; intros Hn; try congruence; cbn;
    unfold Nodes.classify_ticket_node, Nodes.retrieve_context_node,
      Nodes.generate_response_node, Nodes.review_response_node,
      Nodes.refine_context_node, Nodes.finalize_response_node;
    repeat case_match; reflexivity.
Qed.

(** The entry states along a run all carry the retry count the run
    started with. *)
Lemma trace_from_retries c rt budget : forall step n s fs,
  Forall (fun p => retries p.2 = retries s)
         (Graph.trace_from c rt budget step n s fs).
Proof.
  induction budget as [|budget IH]; intros step n s fs; cbn; [constructor|].
  pose proof (run_node_retries c (Graph.clock rt step) n s fs) as Hr.
  destruct (Graph.run_node c (Graph.clock rt step) n s fs) as [s' fs'].
  cbn in Hr. constructor; [reflexivity|].
  destruct (Graph.next_node n s'); [|constructor].
  rewrite <- Hr. apply IH.
Qed.

(** From a fresh state the router never selects escalation: the counter
    it compares with 2 stays 0. *)
Lemma next_node_not_escalate n s :
  retries s = 0%Z -> Graph.next_node n s <> Some Graph.n_escalate_ticket.
Proof.
  intros Hr. destruct n; cbn; try discriminate.
  unfold Graph.review_routing. rewrite Hr. cbn.
  case_bool_decide; discriminate.
Qed.

Lemma trace_from_no_escalation c rt budget : forall step n s fs,
  retries s = 0%Z -> n <> Graph.n_escalate_ticket ->
  Forall (fun p => p.1 <> Graph.n_escalate_ticket)
         (Graph.trace_from c rt budget step n s fs).
Proof.
  induction budget as [|budget IH]; intros step n s fs Hr Hn; cbn; [constructor|].
  pose proof (run_node_retries c (Graph.clock rt step) n s fs) as Hr'.
  destruct (Graph.run_node c (Graph.clock rt step) n s fs) as [s' fs'].
  cbn in Hr'. constructor; [exact Hn|].
  destruct (Graph.next_node n s') as [n'|] eqn:Hnext; [|constructor].
  apply IH; [congruence|].
  intros ->. eapply next_node_not_escalate; [|exact Hnext]. congruence.
Qed.

(** ** A reviewer that always rejects *)

Lemma rejecting_generate now s :
  current_draft (Nodes.generate_response_node Scenario.rejecting_components now s)
  = Some "draft".
Proof. reflexivity. Qed.

Lemma rejecting_review now s :
  current_draft s = Some "draft" ->
  review_status (Nodes.review_response_node Scenario.rejecting_components now s)
  = Some "rejected".
Proof.
  intros H. unfold Nodes.review_response_node.
  cbn [Nodes.gemini_client Scenario.rejecting_components]. rewrite H.
  reflexivity.
Qed.

Lemma rejecting_step now n s fs :
  rejecting_loop n s ->
  exists n',
    Graph.next_node n (Graph.run_node Scenario.rejecting_components now n s fs).1
    = Some n'
    /\ rejecting_loop n' (Graph.run_node Scenario.rejecting_components now n s fs).1
    /\ (Graph.run_node Scenario.rejecting_components now n s fs).2 = fs.
Proof.
  intros [Hr Hn].
  assert (Hr' : retries (Graph.run_node Scenario.rejecting_components now n s fs).1
                = 0%Z) by (rewrite run_node_retries; exact Hr).
  destruct n; try contradiction.
  - eexists; split; [reflexivity | split; [split; [exact Hr' | exact I] | reflexivity]].
  - eexists; split; [reflexivity | split; [split; [exact Hr' | exact I] | reflexivity]].
  - eexists; split; [reflexivity | split; [split; [exact Hr' |] | reflexivity]].
    apply rejecting_generate.
  - exists Graph.n_refine_context.
    split; [| split; [split; [exact Hr' | exact I] | reflexivity]].
    cbn [Graph.next_node]. f_equal. apply review_routing_retry.
    + cbn [Graph.run_node fst]. rewrite (rejecting_review now s Hn). discriminate.
    + rewrite Hr'. lia.
  - eexists; split; [reflexivity | split; [split; [exact Hr' | exact I] | reflexivity]].
Qed.

Lemma rejecting_never_finishes rt budget : forall step n s fs,
  rejecting_loop n s ->
  exists s',
    Graph.invoke_from Scenario.rejecting_components rt budget step n s fs
    = Graph.GraphRecursionError (Graph.recursion_error rt) s' fs.
Proof.
  induction budget as [|budget IH]; intros step n s fs Hinv.
  - eexists; reflexivity.
  - cbn [Graph.invoke_from].
    destruct (rejecting_step (Graph.clock rt step) n s fs Hinv)
      as (n' & Hnext & Hinv' & Hfs).
    destruct (Graph.run_node Scenario.rejecting_components
                (Graph.clock rt step) n s fs) as [s1 fs1].
    cbn [fst snd] in *. subst fs1. rewrite Hnext. apply IH. exact Hinv'.
Qed.

(** C1 (defect): with a reviewer that rejects every draft the run never
    reaches a terminal stage, whatever the bound on handler invocations:
    the graph aborts with the recursion error, [process_ticket_async]
    reports status [error] (neither resolved nor escalated), and within
    LangGraph's default bound of 25 invocations the generator has already
    been called 8 times, not at most 3. *)
Theorem C1_rejecting_reviewer_never_resolves_nor_escalates :
  forall (limit : nat) (fs : Utils.FileSystem),
    (exists s,
       Graph.ainvoke Scenario.rejecting_components (Scenario.runtime limit)
         (create_initial_state "t0" Scenario.refund_ticket) fs
       = Graph.GraphRecursionError "Recursion limit reached" s fs)
    /\ App.status
         (App.process_ticket_async Scenario.rejecting_components
            (Scenario.runtime limit) "t0" Scenario.refund_ticket fs).1
       = "error"
    /\ Graph.visits Graph.n_generate_response
         (Graph.trace_from Scenario.rejecting_components (Scenario.runtime 25)
            25 0 Graph.entry_point
            (create_initial_state "t0" Scenario.refund_ticket) Scenario.no_log)
       = 8.
Proof.
  intros limit fs.
  assert (Hinv : rejecting_loop Graph.entry_point
                   (create_initial_state "t0" Scenario.refund_ticket))
    by (split; [reflexivity | exact I]).
  destruct (rejecting_never_finishes (Scenario.runtime limit) limit 0
              Graph.entry_point _ fs Hinv) as [s Hs].
  split; [|split].
  - exists s. exact Hs.
  - unfold App.process_ticket_async, Graph.ainvoke.
    cbn [Graph.recursion_limit Scenario.runtime]. rewrite Hs. reflexivity.
  - vm_compute. reflexivity.
Qed.

(** C2 (defect): the router selects finalisation, refinement or
    escalation as the rule says, but taking the refinement transition does
    not increment [retries] ([increment_retry_and_generate] is attached to
    no edge).  With a reviewer that rejects every draft, the state the
    router sees after the third rejection still has [retries = 0] and is
    routed to [refine_context], not to [escalate_ticket]; indeed no run
    from a fresh state, with any collaborators, ever visits
    [escalate_ticket]. *)
Theorem C2_third_rejection_is_routed_to_refinement :
  (forall c now s fs,
     retries (Graph.run_node c now Graph.n_refine_context s fs).1 = retries s)
  /\ (forall c rt budget start ticket_data fs,
        Forall (fun p => p.1 <> Graph.n_escalate_ticket)
          (Graph.trace_from c rt budget 0 Graph.entry_point
             (create_initial_state start ticket_data) fs))
  /\ exists s,
       Graph.trace_from Scenario.rejecting_components (Scenario.runtime 25)
         25 0 Graph.entry_point
         (create_initial_state "t0" Scenario.refund_ticket) Scenario.no_log
       !! 10 = Some (Graph.n_refine_context, s)
       /\ map rf_status (review_feedback s) = ["rejected"; "rejected"; "rejected"]
       /\ map attempt (review_feedback s) = [1; 2; 3]%Z
       /\ review_status s = Some "rejected"
       /\ retries s = 0%Z
       /\ Graph.review_routing s = Graph.n_refine_context.
Proof.
  split; [|split].
  - intros c now s fs. apply run_node_retries.
  - intros c rt budget start ticket_data fs.
    apply trace_from_no_escalation; [reflexivity | discriminate].
  - eexists. split; [vm_compute; reflexivity|].
    repeat split; vm_compute; reflexivity.
Qed.

(** C3 (defect): when the reviewer rejects the first draft and approves
    the second, the run ends resolved with two drafts while [retries] is
    still 0, so [len(drafts) = 1 + retries] fails at a terminal state. *)
Theorem C3_resolved_with_two_drafts_and_zero_retries :
  exists s fs,
    Graph.ainvoke Scenario.second_chance_components (Scenario.runtime 25)
      (create_initial_state "t0" Scenario.refund_ticket) Scenario.no_log
    = Graph.Finished s fs
    /\ status s = "resolved"
    /\ drafts s = ["first draft"; "second draft"]
    /\ retries s = 0%Z
    /\ Z.of_nat (length (drafts s)) <> (1 + retries s)%Z.
Proof.
  eexists. eexists. split; [vm_compute; reflexivity|].
  repeat split; try (vm_compute; reflexivity).
  vm_compute. discriminate.
Qed.

(** ** Ticket validation *)

(** [validate_ticket_input] on a dictionary with two string fields. *)
Lemma validate_ticket_input_ok (t : TicketInfo) :
  Utils.validate_ticket_input (Utils.ticket_dict t) = (true, "") <->
  PyStr.truthy (PyStr.strip (subject t)) = true /\
  PyStr.truthy (PyStr.strip (description t)) = true /\
  String.length (subject t) <= 200 /\
  String.length (description t) <= 5000.
Proof.
  unfold Utils.validate_ticket_input, Utils.ticket_dict.
  rewrite lookup_insert_eq.
  rewrite lookup_insert_ne by discriminate. rewrite lookup_insert_eq.
  cbn [Utils.nonblank_str].
  destruct (PyStr.truthy (PyStr.strip (subject t)));
    [|split; [discriminate | intros [? _]; discriminate]].
  destruct (PyStr.truthy (PyStr.strip (description t)));
    [|split; [discriminate | intros (_ & ? & _); discriminate]].
  destruct (Nat.ltb_spec 200 (String.length (subject t)));
    [split; [discriminate | intros (_ & _ & ? & _); lia]|].
  destruct (Nat.ltb_spec 5000 (String.length (description t)));
    [split; [discriminate | intros (_ & _ & _ & ?); lia]|].
  split; [intros _; repeat split; lia | reflexivity].
Qed.

(** The form hands every non-blank ticket to the workflow, whatever the
    length of its fields. *)
Lemma submit_processes_nonblank c rt start subject description fs :
  PyStr.truthy (PyStr.strip subject) = true ->
  PyStr.truthy (PyStr.strip description) = true ->
  App.submit c rt start true subject description fs
  = App.Processed_of (App.process_ticket_async c rt start
      {| State.subject := PyStr.strip subject;
         State.description := PyStr.strip description |} fs).
Proof.
  intros Hs Hd. unfold App.submit. rewrite Hs, Hd. reflexivity.
Qed.

(** The form turns away a ticket with a blank subject or description. *)
Lemma submit_rejects_blank c rt start key subject description fs :
  PyStr.truthy (PyStr.strip subject) = false
  \/ PyStr.truthy (PyStr.strip description) = false ->
  App.submit c rt start key subject description fs
  = App.FormError "Please provide both subject and description".
Proof.
  intros [H|H]; unfold App.submit; rewrite H; cbn [negb orb];
    [reflexivity | rewrite orb_true_r; reflexivity].
Qed.

(** C5 (defect): a ticket whose subject has 201 characters is one that
    [validate_ticket_input] rejects, yet the form never calls the
    validator: the ticket is submitted, a workflow state is created for it
    and the run resolves it. *)
Theorem C5_oversized_ticket_is_processed :
  String.length Scenario.long_subject = 201
  /\ Utils.validate_ticket_input (Utils.ticket_dict Scenario.oversized_ticket)
     = (false, "Subject must be 200 characters or less")
  /\ exists result fs,
       App.submit Scenario.bare_components (Scenario.runtime 25) "t0" true
         Scenario.long_subject "x" Scenario.no_log
       = App.Processed result fs
       /\ App.subject result = Scenario.long_subject
       /\ App.status result = "resolved"
       /\ App.escalated result = false.
Proof.
  split; [vm_compute; reflexivity|].
  split; [vm_compute; reflexivity|].
  eexists. eexists. split; [vm_compute; reflexivity|].
  repeat split; vm_compute; reflexivity.
Qed.

(** ** The escalation log *)

Lemma save_escalation_log_writable d fs :
  Utils.writable fs = true ->
  (Utils.save_escalation_log d fs).1 = true /\
  Utils.rows_of (Utils.save_escalation_log d fs).2
  = Utils.rows_of fs ++ [Utils.flattened_data d].
Proof.
  intros Hw. unfold Utils.save_escalation_log. rewrite Hw. split; [reflexivity|].
  unfold Utils.rows_of. cbn [Utils.csv_file snd].
  destruct (Utils.csv_file fs); cbn [default from_option id];
    rewrite ?omap_app; cbn; rewrite ?app_nil_r; reflexivity.
Qed.

Lemma save_escalation_log_failed d fs :
  Utils.writable fs = false -> Utils.save_escalation_log d fs = (false, fs).
Proof. intros Hw. unfold Utils.save_escalation_log. rewrite Hw. reflexivity. Qed.

Lemma escalate_ticket_node_state now s fs :
  escalated (Nodes.escalate_ticket_node now s fs).1 = true /\
  status (Nodes.escalate_ticket_node now s fs).1 = "escalated" /\
  final_output (Nodes.escalate_ticket_node now s fs).1
  = Some Nodes.escalation_message.
Proof.
  unfold Nodes.escalate_ticket_node.
  destruct (Utils.save_escalation_log _ fs). repeat split.
Qed.

Lemma escalate_ticket_node_log now s fs :
  (Utils.writable fs = true ->
     Utils.rows_of (Nodes.escalate_ticket_node now s fs).2
     = Utils.rows_of fs ++ [escalation_row (now 0) s]) /\
  (Utils.writable fs = false -> (Nodes.escalate_ticket_node now s fs).2 = fs).
Proof.
  unfold Nodes.escalate_ticket_node. split; intros Hw.
  - match goal with |- context [Utils.save_escalation_log ?d fs] =>
      pose proof (save_escalation_log_writable d fs Hw) as [_ Hrows];
      destruct (Utils.save_escalation_log d fs) end.
    exact Hrows.
  - match goal with |- context [Utils.save_escalation_log ?d fs] =>
      rewrite (save_escalation_log_failed d fs Hw) end.
    reflexivity.
Qed.

(** From a state with [retries = 0] the router never selects escalation,
    so a run never reaches the only handler that writes the log: it
    leaves the log alone and does not set [escalated], and when it
    finishes it finished in [finalize_response]. *)
Lemma invoke_from_no_row c rt budget : forall step n s fs,
  retries s = 0%Z -> escalated s = false -> n <> Graph.n_escalate_ticket ->
  match Graph.invoke_from c rt budget step n s fs with
  | Graph.Finished s' fs' =>
      fs' = fs /\ escalated s' = false /\ status s' = "resolved"
  | Graph.GraphRecursionError _ _ fs' => fs' = fs
  end.
Proof.
  induction budget as [|budget IH]; intros step n s fs Hr He Hn;
    cbn [Graph.invoke_from]; [reflexivity|].
  pose proof (run_node_fs c (Graph.clock rt step) n s fs Hn) as Hfs.
  pose proof (run_node_retries c (Graph.clock rt step) n s fs) as Hr'.
  pose proof (run_node_escalated c (Graph.clock rt step) n s fs Hn) as He'.
  assert (Hstatus : n = Graph.n_finalize_response ->
                    status (Graph.run_node c (Graph.clock rt step) n s fs).1
                    = "resolved") by (intros ->; reflexivity).
  destruct (Graph.run_node c (Graph.clock rt step) n s fs) as [s' fs'].
  cbn [fst snd] in *. subst fs'.
  destruct (Graph.next_node n s') as [n'|] eqn:Hnext.
  - apply IH; [congruence | congruence |].
    intros ->. eapply next_node_not_escalate; [|exact Hnext]. congruence.
  - split; [reflexivity|]. split; [congruence|].
    apply Hstatus. destruct n; try discriminate; [congruence | reflexivity].
Qed.

(** C4 (defect): in the running program the outcome is flagged
    [escalated] without any row being written.  No run of
    [process_ticket_async] ever writes the escalation log, because the
    router never selects [escalate_ticket] (the retry counter it tests
    stays 0); and the outcome carries [escalated = True] exactly when it
    is the error outcome of a run that hit the recursion limit.  With a
    reviewer that rejects every draft and a writable log that does not
    exist yet, the outcome is flagged [escalated] and the log still has no
    row, whatever the limit. *)
Theorem C4_escalated_outcome_without_a_row :
  (forall (c : Nodes.Components) (rt : Graph.Runtime) (start : string)
          (ticket_data : TicketInfo) (fs : Utils.FileSystem),
     (App.process_ticket_async c rt start ticket_data fs).2 = fs
     /\ (App.escalated (App.process_ticket_async c rt start ticket_data fs).1
         = true
         <-> App.status (App.process_ticket_async c rt start ticket_data fs).1
             = "error"))
  /\ (forall (limit : nat) (start : string),
        App.escalated
          (App.process_ticket_async Scenario.rejecting_components
             (Scenario.runtime limit) start Scenario.refund_ticket
             Scenario.no_log).1 = true
        /\ Utils.writable
             (App.process_ticket_async Scenario.rejecting_components
                (Scenario.runtime limit) start Scenario.refund_ticket
                Scenario.no_log).2 = true
        /\ Utils.rows_of
             (App.process_ticket_async Scenario.rejecting_components
                (Scenario.runtime limit) start Scenario.refund_ticket
                Scenario.no_log).2 = []).
Proof.
  split.
  - intros c rt start ticket_data fs.
    unfold App.process_ticket_async, Graph.ainvoke.
    pose proof (invoke_from_no_row c rt (Graph.recursion_limit rt) 0
                  Graph.entry_point (create_initial_state start ticket_data) fs
                  eq_refl eq_refl) as H.
    destruct (Graph.invoke_from _ _ _ _ _ _ _) as [s' fs'|msg s' fs'];
      cbn [fst snd App.escalated App.status].
    + destruct H as (-> & -> & ->); [discriminate|].
      split; [reflexivity|]. split; discriminate.
    + rewrite H by discriminate. split; [reflexivity|]. split; reflexivity.
  - intros limit start.
    assert (Hinv : rejecting_loop Graph.entry_point
                     (create_initial_state start Scenario.refund_ticket))
      by (split; [reflexivity | exact I]).
    destruct (rejecting_never_finishes (Scenario.runtime limit) limit 0
                Graph.entry_point _ Scenario.no_log Hinv) as [s Hs].
    unfold App.process_ticket_async, Graph.ainvoke.
    cbn [Graph.recursion_limit Scenario.runtime]. rewrite Hs.
    repeat split.
Qed.

(** ** Classification *)

Lemma existsb_eqb_In (x : string) (l : list string) :
  existsb (String.eqb x) l = true <-> In x l.
Proof.
  rewrite existsb_exists. split.
  - intros (y & Hin & Heq). apply String.eqb_eq in Heq. subst. exact Hin.
  - intros Hin. exists x. split; [exact Hin | apply String.eqb_refl].
Qed.

Lemma classify_ticket_closed e subject description :
  In (Gemini.classify_ticket e subject description) categories.
Proof.
  unfold Gemini.classify_ticket.
  destruct (Gemini.post_classify e subject description) as [msg|code body];
    [cbn; tauto|].
  destruct (code =? 200)%Z; [|cbn; tauto].
  destruct body as [text|]; [|cbn; tauto].
  destruct (existsb _ _) eqn:Hin; cbn [negb]; [|cbn; tauto].
  apply existsb_eqb_In in Hin. exact Hin.
Qed.

Lemma _fallback_classify_closed subject description :
  In (Nodes._fallback_classify subject description) categories.
Proof.
  unfold Nodes._fallback_classify. repeat case_match; cbn; tauto.
Qed.

(** C6 (refuted as stated): with a client whose endpoint cannot be
    reached, the ticket "Refund request / I was charged twice" is
    classified as General, where the keyword heuristic of the
    specification gives Billing; and on the path that does use the
    heuristic, "my bill is wrong" is Billing although none of the
    keywords the specification lists occurs in it. *)
Lemma C6_counterexample :
  category (Nodes.classify_ticket_node Scenario.unreachable_components
              (Scenario.fixed_clock 0)
              (create_initial_state "t0" Scenario.refund_ticket))
  = "General"
  /\ Spec.spec_keyword_heuristic "Refund request" "I was charged twice" = "Billing"
  /\ category (Nodes.classify_ticket_node Scenario.bare_components
                 (Scenario.fixed_clock 0)
                 (create_initial_state "t0"
                    {| subject := "Invoice"; description := "my bill is wrong" |}))
     = "Billing"
  /\ Spec.spec_keyword_heuristic "Invoice" "my bill is wrong" = "General".
Proof. repeat split; vm_compute; reflexivity. Qed.

(** C6 (amended): the classification stage always yields a state (it
    never raises) with status [classified] and a category among Billing,
    Technical, Security and General.  With the Gemini client, an answer
    outside that set, a transport error, a non-200 status or a malformed
    body all give General, and an answer inside the set is kept.  Without
    a client the category is that of the keyword heuristic:
    bill/payment/charge/refund/price give Billing, else
    api/error/bug/technical/integration give Technical, else
    security/password/login/access/authentication give Security, else
    General.  A client call that raises gives General. *)
Theorem C6_classification_is_closed :
  forall (c : Nodes.Components) (now : Nodes.Clock) (s : SupportTicketState),
    let subj := subject (ticket s) in
    let desc := description (ticket s) in
    let text := PyStr.lower (subj +:+ " " +:+ desc) in
    let s' := Nodes.classify_ticket_node c now s in
    status s' = "classified"
    /\ (forall e, Nodes.gemini_client c = Some (GeminiClient e) ->
          In (category s') categories
          /\ (forall answer,
                Gemini.post_classify e subj desc
                = Gemini.HttpResponse 200 (Some answer) ->
                (In (PyStr.strip answer) categories ->
                 category s' = PyStr.strip answer)
                /\ (~ In (PyStr.strip answer) categories ->
                    category s' = "General"))
          /\ (forall msg,
                Gemini.post_classify e subj desc = Gemini.ConnectionError msg ->
                category s' = "General")
          /\ (forall code body,
                Gemini.post_classify e subj desc = Gemini.HttpResponse code body ->
                code <> 200%Z \/ body = None ->
                category s' = "General"))
    /\ (Nodes.gemini_client c = None ->
          In (category s') categories
          /\ (PyStr.any_in ["bill"; "payment"; "charge"; "refund"; "price"] text
              = true -> category s' = "Billing")
          /\ (PyStr.any_in ["bill"; "payment"; "charge"; "refund"; "price"] text
              = false ->
              (PyStr.any_in ["api"; "error"; "bug"; "technical"; "integration"]
                 text = true -> category s' = "Technical")
              /\ (PyStr.any_in ["api"; "error"; "bug"; "technical"; "integration"]
                    text = false ->
                  (PyStr.any_in
                     ["security"; "password"; "login"; "access"; "authentication"]
                     text = true -> category s' = "Security")
                  /\ (PyStr.any_in
                        ["security"; "password"; "login"; "access";
                         "authentication"] text = false ->
                      category s' = "General"))))
    /\ (forall client msg,
          Nodes.gemini_client c = Some client ->
          classify_ticket client subj desc = Raised msg ->
          category s' = "General").
Proof.
  intros c now s subj desc text s'. subst s'.
  unfold Nodes.classify_ticket_node. fold subj desc.
  split; [repeat case_match; reflexivity|].
  split; [|split].
  - intros e He. rewrite He. cbn [classify_ticket GeminiClient].
    cbn [category log_state_transition set_node_execution_log set_status
         set_category].
    split; [apply classify_ticket_closed|].
    unfold Gemini.classify_ticket.
    split; [|split].
    + intros answer ->. cbn [Z.eqb Pos.eqb].
      destruct (existsb _ _) eqn:Hin; cbn [negb]; split; intros H;
        try reflexivity.
      * apply existsb_eqb_In in Hin. contradiction.
      * apply existsb_eqb_In in H. unfold categories, BILLING, TECHNICAL,
          SECURITY, GENERAL in H. congruence.
    + intros msg ->. reflexivity.
    + intros code body -> [Hcode| ->].
      * destruct (Z.eqb_spec code 200); [contradiction | reflexivity].
      * destruct (code =? 200)%Z; reflexivity.
  - intros Hnone. rewrite Hnone.
    cbn [category log_state_transition set_node_execution_log set_status
         set_category].
    split; [apply _fallback_classify_closed|].
    unfold Nodes._fallback_classify. fold text.
    split; [intros ->; reflexivity|].
    intros ->. split; [intros ->; reflexivity|].
    intros ->. split; [intros ->; reflexivity|].
    intros ->. reflexivity.
  - intros client msg Hc Hraise. rewrite Hc, Hraise. reflexivity.
Qed.

Lemma C6_classification_is_closed_witness :
  category (Nodes.classify_ticket_node Scenario.unreachable_components
              (Scenario.fixed_clock 0)
              (create_initial_state "t0" Scenario.refund_ticket))
  = "General"
  /\ category (Nodes.classify_ticket_node Scenario.bare_components
                 (Scenario.fixed_clock 0)
                 (create_initial_state "t0" Scenario.refund_ticket))
     = "Billing".
Proof.
  split.
  - destruct (C6_classification_is_closed Scenario.unreachable_components
                (Scenario.fixed_clock 0)
                (create_initial_state "t0" Scenario.refund_ticket))
      as (_ & Hclient & _).
    destruct (Hclient Scenario.unreachable_endpoint eq_refl)
      as (_ & _ & Hconn & _).
    apply (Hconn "timeout"). reflexivity.
  - destruct (C6_classification_is_closed Scenario.bare_components
                (Scenario.fixed_clock 0)
                (create_initial_state "t0" Scenario.refund_ticket))
      as (_ & _ & Hbare & _).
    destruct (Hbare eq_refl) as (_ & Hbilling & _).
    apply Hbilling. vm_compute. reflexivity.
Defined.

(** ** Facts about the string operations *)

#[local] Arguments String.append !s1 s2 : simpl nomatch.

Lemma sapp_assoc (a b c : string) : (a +:+ b) +:+ c = a +:+ (b +:+ c).
Proof. induction a as [|x a IH]; cbn; [reflexivity | rewrite IH; reflexivity]. Qed.

Lemma prefix_cons x a y s :
  String.prefix (String x a) (String y s)
  = if Ascii.ascii_dec x y then String.prefix a s else false.
Proof. reflexivity. Qed.

Lemma prefix_spec (a s : string) :
  String.prefix a s = true <-> exists post, s = a +:+ post.
Proof.
  revert s. induction a as [|x a IH]; intros s.
  - destruct s; cbn; (split; [intros _; eexists; reflexivity | reflexivity]).
  - destruct s as [|y s].
    + split; [discriminate | intros [post H]; discriminate].
    + rewrite prefix_cons. cbn. destruct (Ascii.ascii_dec x y) as [->|Hne].
      * rewrite IH. split; intros [post H]; exists post; congruence.
      * split; [discriminate | intros [post H]; congruence].
Qed.

Lemma contains_spec (needle hay : string) :
  PyStr.contains needle hay = true <->
  exists pre post, hay = pre +:+ needle +:+ post.
Proof.
  induction hay as [|c hay IH]; cbn [PyStr.contains].
  - rewrite orb_false_r, prefix_spec. split.
    + intros [post H]. exists "", post. exact H.
    + intros (pre & post & H). destruct pre; [exists post; exact H|discriminate].
  - rewrite orb_true_iff, prefix_spec, IH. split.
    + intros [[post H]|(pre & post & H)].
      * exists "", post. exact H.
      * exists (String c pre), post. cbn. rewrite H. reflexivity.
    + intros (pre & post & H). destruct pre as [|x pre].
      * left. exists post. exact H.
      * right. exists pre, post. cbn in H. congruence.
Qed.

Lemma map_chars_app f (a b : string) :
  PyStr.map_chars f (a +:+ b) = PyStr.map_chars f a +:+ PyStr.map_chars f b.
Proof. induction a as [|x a IH]; cbn; [reflexivity | rewrite IH; reflexivity]. Qed.

Lemma map_chars_app_inv f (t a b : string) :
  PyStr.map_chars f t = a +:+ b ->
  exists ta tb, t = ta +:+ tb /\ PyStr.map_chars f ta = a
                /\ PyStr.map_chars f tb = b.
Proof.
  revert t. induction a as [|x a IH]; intros t H.
  - exists "", t. repeat split. exact H.
  - destruct t as [|y t]; [discriminate|]. cbn in H.
    injection H as Hx Ht. destruct (IH t Ht) as (ta & tb & -> & Ha & Hb).
    exists (String y ta), tb. cbn. rewrite Hx, Ha. repeat split. exact Hb.
Qed.

(** [word in text.upper()] holds exactly when [text] has a piece that
    upper-cases to [word]. *)
Lemma contains_upper_iff (word text : string) :
  PyStr.contains word (PyStr.upper text) = true <->
  exists pre mid post, text = pre +:+ mid +:+ post /\ PyStr.upper mid = word.
Proof.
  rewrite contains_spec. unfold PyStr.upper. split.
  - intros (pre & post & H).
    apply map_chars_app_inv in H as (tpre & rest & -> & _ & H).
    apply map_chars_app_inv in H as (mid & tpost & -> & Hmid & _).
    exists tpre, mid, tpost. split; [reflexivity | exact Hmid].
  - intros (pre & mid & post & -> & Hmid).
    exists (PyStr.map_chars PyStr.upper_char pre),
           (PyStr.map_chars PyStr.upper_char post).
    rewrite !map_chars_app, Hmid. reflexivity.
Qed.

(** Case mapping on single characters, checked on all 256 of them. *)
Lemma forall_ascii (P : ascii -> bool) :
  forallb P (map ascii_of_nat (seq 0 256)) = true -> forall c, P c = true.
Proof.
  intros H c. rewrite forallb_forall in H. apply H.
  apply in_map_iff. exists (nat_of_ascii c). split.
  - apply ascii_nat_embedding.
  - apply in_seq. pose proof (nat_ascii_bounded c). lia.
Qed.

Lemma is_space_upper_char c :
  PyStr.is_space (PyStr.upper_char c) = PyStr.is_space c.
Proof.
  apply Bool.eqb_prop. revert c. apply forall_ascii. vm_compute. reflexivity.
Qed.

(** [strip] keeps a piece of the text whose ends are not white space. *)
Lemma lstrip_suffix (t : string) : exists a, t = a +:+ PyStr.lstrip t.
Proof.
  induction t as [|c t [a IH]]; [exists ""; reflexivity|]. cbn.
  destruct (PyStr.is_space c).
  - exists (String c a). cbn. rewrite <- IH. reflexivity.
  - exists "". reflexivity.
Qed.

Lemma rstrip_prefix (t : string) : exists b, t = PyStr.rstrip t +:+ b.
Proof.
  induction t as [|c t [b IH]]; [exists ""; reflexivity|]. cbn.
  destruct (PyStr.rstrip t) as [|d r] eqn:Hr.
  - destruct (PyStr.is_space c).
    + exists (String c t). reflexivity.
    + exists b. cbn. rewrite IH at 1. reflexivity.
  - exists b. cbn. rewrite IH at 1. reflexivity.
Qed.

Lemma lstrip_app (pre : string) c r :
  PyStr.is_space c = false ->
  PyStr.lstrip (pre +:+ String c r) = PyStr.lstrip pre +:+ String c r.
Proof.
  intros Hc. induction pre as [|a pre IH]; cbn.
  - rewrite Hc. reflexivity.
  - destruct (PyStr.is_space a); [exact IH | reflexivity].
Qed.

Lemma rstrip_app (y : string) c post :
  PyStr.is_space c = false ->
  PyStr.rstrip ((y +:+ String c "") +:+ post)
  = (y +:+ String c "") +:+ PyStr.rstrip post.
Proof.
  intros Hc. induction y as [|a y IH].
  - cbn. destruct (PyStr.rstrip post); [rewrite Hc|]; reflexivity.
  - cbn [String.append PyStr.rstrip]. rewrite IH.
    destruct y; reflexivity.
Qed.

Lemma solid_upper (mid w : string) :
  PyStr.upper mid = w -> solid w -> solid mid.
Proof.
  intros Hu [(c & r & Hw & Hc) (y & d & Hw' & Hd)]. split.
  - destruct mid as [|c' m]; [subst; discriminate|].
    exists c', m. split; [reflexivity|].
    rewrite Hw in Hu. cbn in Hu. injection Hu as Hcc _.
    rewrite <- is_space_upper_char, Hcc. exact Hc.
  - rewrite Hw' in Hu. apply map_chars_app_inv in Hu as (ty & td & -> & _ & Htd).
    destruct td as [|d' [|? ?]]; try discriminate.
    exists ty, d'. split; [reflexivity|].
    cbn in Htd. injection Htd as Hdd.
    rewrite <- is_space_upper_char, Hdd. exact Hd.
Qed.

Lemma strip_app (pre mid post : string) :
  solid mid ->
  PyStr.strip (pre +:+ mid +:+ post)
  = PyStr.lstrip pre +:+ mid +:+ PyStr.rstrip post.
Proof.
  intros [(c & r & Hm & Hc) (y & d & Hm' & Hd)]. unfold PyStr.strip.
  rewrite Hm at 1. cbn [String.append]. rewrite (lstrip_app pre c _ Hc).
  change (String c (r +:+ post)) with (String c r +:+ post). rewrite <- Hm.
  rewrite Hm'. rewrite <- !sapp_assoc.
  apply rstrip_app. exact Hd.
Qed.

(** White space around the answer does not change what it mentions. *)
Lemma mentions_strip (word text : string) :
  solid (PyStr.upper word) ->
  mentions word (PyStr.strip text) <-> mentions word text.
Proof.
  intros Hsolid. split.
  - intros (pre & mid & post & Ht & Hmid).
    destruct (lstrip_suffix text) as [a Ha].
    destruct (rstrip_prefix (PyStr.lstrip text)) as [b Hb].
    fold (PyStr.strip text) in Hb.
    exists (a +:+ pre), mid, (post +:+ b). split; [|exact Hmid].
    rewrite Ha, Hb, Ht. rewrite !sapp_assoc. reflexivity.
  - intros (pre & mid & post & -> & Hmid).
    exists (PyStr.lstrip pre), mid, (PyStr.rstrip post).
    split; [|exact Hmid]. apply strip_app.
    apply (solid_upper mid _ Hmid Hsolid).
Qed.

Lemma contains_mentions (word text : string) :
  solid (PyStr.upper word) ->
  PyStr.contains (PyStr.upper word) (PyStr.upper (PyStr.strip text)) = true
  <-> mentions word text.
Proof.
  intros Hsolid. rewrite contains_upper_iff.
  rewrite <- (mentions_strip word text Hsolid). reflexivity.
Qed.

Lemma solid_APPROVED : solid (PyStr.upper "approved").
Proof.
  split.
  - exists "A"%char, "PPROVED". split; reflexivity.
  - exists "APPROVE", "D"%char. split; reflexivity.
Qed.

Lemma solid_REJECTED : solid (PyStr.upper "rejected").
Proof.
  split.
  - exists "R"%char, "EJECTED". split; reflexivity.
  - exists "REJECTE", "D"%char. split; reflexivity.
Qed.

(** ** Review *)

Lemma parse_verdict_approved (answer : string) :
  mentions "approved" answer ->
  Gemini.parse_verdict (PyStr.strip answer)
  = {| Gemini.rr_status := "approved";
       Gemini.rr_feedback := "Response meets quality standards" |}.
Proof.
  intros H. apply (contains_mentions "approved" answer solid_APPROVED) in H.
  change (PyStr.upper "approved") with "APPROVED" in H.
  unfold Gemini.parse_verdict. rewrite H. reflexivity.
Qed.

Lemma parse_verdict_no_rejection (answer : string) :
  ~ mentions "rejected" answer ->
  Gemini.rr_status (Gemini.parse_verdict (PyStr.strip answer)) = "approved".
Proof.
  intros H. unfold Gemini.parse_verdict.
  destruct (PyStr.contains "APPROVED" _); [reflexivity|].
  destruct (PyStr.contains "REJECTED" _) eqn:Hr; [|reflexivity].
  exfalso. apply H.
  apply (contains_mentions "rejected" answer solid_REJECTED). exact Hr.
Qed.

Lemma review_response_no_verdict e subject description draft ctx :
  no_verdict (Gemini.post_review e subject description draft ctx) ->
  Gemini.rr_status (Gemini.review_response e subject description draft ctx)
  = "approved".
Proof.
  unfold Gemini.review_response. intros H.
  inversion H as [msg Heq | code body Hcode Heq | code Heq
                 | code answer Ha Hr Heq | code answer Ha Hr Heq].
  - reflexivity.
  - destruct (Z.eqb_spec code 200); [contradiction | reflexivity].
  - destruct (code =? 200)%Z; reflexivity.
  - destruct (code =? 200)%Z; [|reflexivity].
    apply parse_verdict_no_rejection. exact Hr.
  - destruct (code =? 200)%Z; [|reflexivity].
    rewrite (parse_verdict_approved answer Ha). reflexivity.
Qed.

(** C10: in the verdict parsing the test for APPROVED comes first, so an
    answer that contains "approved" in any casing is an approval, also
    when it reads NOT APPROVED or contains REJECTED as well. *)
Theorem C10_approved_is_checked_first :
  forall (e : Gemini.Endpoint) (subject description draft : string)
         (ctx : list ContextDocument) (answer : string),
    Gemini.post_review e subject description draft ctx
    = Gemini.HttpResponse 200 (Some answer) ->
    mentions "approved" answer ->
    Gemini.review_response e subject description draft ctx
    = {| Gemini.rr_status := "approved";
         Gemini.rr_feedback := "Response meets quality standards" |}.
Proof.
  intros e subject description draft ctx answer Hpost Ha.
  unfold Gemini.review_response. rewrite Hpost. cbn [Z.eqb Pos.eqb].
  apply parse_verdict_approved. exact Ha.
Qed.

Lemma C10_approved_is_checked_first_witness :
  mentions "rejected" "REJECTED: the refund amount is not approved by policy"
  /\ Gemini.review_response Scenario.contradicting_endpoint "Refund request"
       "I was charged twice" "draft" []
     = {| Gemini.rr_status := "approved";
          Gemini.rr_feedback := "Response meets quality standards" |}.
Proof.
  split.
  - exists "", "REJECTED", ": the refund amount is not approved by policy".
    split; reflexivity.
  - apply (C10_approved_is_checked_first Scenario.contradicting_endpoint
             "Refund request" "I was charged twice" "draft" []
             "REJECTED: the refund amount is not approved by policy").
    + reflexivity.
    + exists "REJECTED: the refund amount is not ", "approved", " by policy".
      split; reflexivity.
Defined.

(** C7: every execution of the review stage appends exactly one entry;
    its [attempt] is the length of the list before the append plus one,
    which is its 1-based position; [review_status] and [latest_feedback]
    mirror it; and the entry is an approval whenever the reviewer call
    raises, the reviewer fails or gives no usable verdict, or there is no
    client. *)
Theorem C7_review_appends_one_entry :
  forall (c : Nodes.Components) (now : Nodes.Clock) (s : SupportTicketState),
    let subj := subject (ticket s) in
    let desc := description (ticket s) in
    let s' := Nodes.review_response_node c now s in
    exists entry,
      review_feedback s' = review_feedback s ++ [entry]
      /\ attempt entry = (Z.of_nat (length (review_feedback s)) + 1)%Z
      /\ attempt entry = Z.of_nat (length (review_feedback s'))
      /\ review_status s' = Some (rf_status entry)
      /\ latest_feedback s' = Some (rf_feedback entry)
      /\ status s' = "reviewed"
      /\ (forall client draft msg,
            Nodes.gemini_client c = Some client ->
            current_draft s = Some draft -> PyStr.truthy draft = true ->
            review_response client subj desc draft (retrieved_context s)
            = Raised msg ->
            rf_status entry = "approved")
      /\ (forall e draft,
            Nodes.gemini_client c = Some (GeminiClient e) ->
            current_draft s = Some draft -> PyStr.truthy draft = true ->
            no_verdict (Gemini.post_review e subj desc draft (retrieved_context s)) ->
            rf_status entry = "approved")
      /\ (Nodes.gemini_client c = None -> rf_status entry = "approved").
Proof.
  intros c now s subj desc s'. subst s'. unfold Nodes.review_response_node.
  fold subj desc.
  match goal with |- context [match ?a with Returned _ => _ | Raised _ => _ end] =>
    destruct a as [result|err] eqn:Hattempt end.
  - eexists. split; [reflexivity|].
    cbn [attempt rf_status rf_feedback review_feedback review_status
         latest_feedback status log_state_transition set_node_execution_log
         set_status set_latest_feedback set_review_status set_review_feedback].
    rewrite length_app, Nat2Z.inj_add. cbn [length].
    repeat split.
    + intros client draft msg Hc Hd Ht Hcall.
      rewrite Hc, Hd, Ht, Hcall in Hattempt. discriminate.
    + intros e draft Hc Hd Ht Hnv.
      rewrite Hc, Hd, Ht in Hattempt. cbn in Hattempt.
      injection Hattempt as <-. apply review_response_no_verdict. exact Hnv.
    + intros Hc. rewrite Hc in Hattempt. injection Hattempt as <-. reflexivity.
  - eexists. split; [reflexivity|].
    cbn [attempt rf_status rf_feedback review_feedback review_status
         latest_feedback status log_state_transition set_node_execution_log
         set_status set_latest_feedback set_review_status set_review_feedback].
    rewrite length_app, Nat2Z.inj_add. cbn [length].
    repeat split.
Qed.

Lemma C7_review_appends_one_entry_witness :
  exists entry,
    review_feedback
      (Nodes.review_response_node Scenario.contradicting_components
         (Scenario.fixed_clock 3) Scenario.drafted_state)
    = [entry]
    /\ attempt entry = 1%Z
    /\ rf_status entry = "approved".
Proof.
  destruct (C7_review_appends_one_entry Scenario.contradicting_components
              (Scenario.fixed_clock 3) Scenario.drafted_state)
    as (entry & Happ & Hatt & _ & _ & _ & _ & _ & Hnv & _).
  exists entry. split; [exact Happ|]. split; [exact Hatt|].
  apply (Hnv Scenario.contradicting_endpoint "draft");
    [reflexivity | reflexivity | reflexivity |].
  apply nv_ambiguous.
  - exists "REJECTED: the refund amount is not ", "approved", " by policy".
    split; reflexivity.
  - exists "", "REJECTED", ": the refund amount is not approved by policy".
    split; reflexivity.
Defined.

(** ** Retrieval *)

Lemma score_ge_trans (a b c : ContextDocument) :
  score_ge a b -> score_ge b c -> score_ge a c.
Proof. unfold score_ge. intros Hab Hbc. eapply Qle_trans; eassumption. Qed.

Lemma Forall_insert_desc (P : ContextDocument -> Prop) x l :
  P x -> Forall P l -> Forall P (Rag.insert_desc x l).
Proof.
  intros Hx Hl. induction Hl as [|y l Hy Hl IH]; cbn.
  - constructor; [exact Hx | constructor].
  - destruct (Qle_bool _ _); repeat constructor; assumption.
Qed.

Lemma Forall_sort_desc (P : ContextDocument -> Prop) l :
  Forall P l -> Forall P (Rag.sort_desc l).
Proof.
  induction 1 as [|x l Hx Hl IH]; cbn; [constructor|].
  apply Forall_insert_desc; assumption.
Qed.

Lemma length_insert_desc x l : length (Rag.insert_desc x l) = S (length l).
Proof.
  induction l as [|y l IH]; cbn; [reflexivity|].
  destruct (Qle_bool _ _); cbn; [reflexivity | rewrite IH; reflexivity].
Qed.

Lemma length_sort_desc l : length (Rag.sort_desc l) = length l.
Proof.
  induction l as [|x l IH]; cbn; [reflexivity|].
  rewrite length_insert_desc, IH. reflexivity.
Qed.

Lemma insert_desc_Permutation x l : Permutation (x :: l) (Rag.insert_desc x l).
Proof.
  induction l as [|y l IH]; cbn; [reflexivity|].
  destruct (Qle_bool _ _); [reflexivity|].
  rewrite perm_swap. constructor. exact IH.
Qed.

Lemma sort_desc_Permutation l : Permutation l (Rag.sort_desc l).
Proof.
  induction l as [|x l IH]; cbn; [reflexivity|].
  rewrite <- insert_desc_Permutation. constructor. exact IH.
Qed.

Lemma insert_desc_sorted x l :
  StronglySorted score_ge l -> StronglySorted score_ge (Rag.insert_desc x l).
Proof.
  induction 1 as [|y l Hsorted IH Hy]; cbn.
  - repeat constructor.
  - destruct (Qle_bool (relevance_score y) (relevance_score x)) eqn:Hle.
    + apply Qle_bool_iff in Hle.
      constructor; [constructor; assumption|].
      constructor; [exact Hle|].
      eapply Forall_impl; [exact Hy|].
      intros z Hz. eapply score_ge_trans; [exact Hle | exact Hz].
    + constructor; [exact IH|].
      apply Forall_insert_desc; [|exact Hy].
      unfold score_ge. apply Qlt_le_weak, Qnot_le_lt.
      intros Hc. apply Qle_bool_iff in Hc. congruence.
Qed.

Lemma sort_desc_sorted l : StronglySorted score_ge (Rag.sort_desc l).
Proof.
  induction l as [|x l IH]; cbn; [constructor|].
  apply insert_desc_sorted. exact IH.
Qed.

Lemma StronglySorted_take {A} (R : A -> A -> Prop) (n : nat) (l : list A) :
  StronglySorted R l -> StronglySorted R (take n l).
Proof.
  intros H. revert n. induction H as [|x l Hs IH Hx]; intros [|n]; cbn;
    try constructor.
  - apply IH.
  - apply Forall_take. exact Hx.
Qed.

Lemma py_take_sorted {A} (R : A -> A -> Prop) (k : Z) (l : list A) :
  StronglySorted R l -> StronglySorted R (py_take k l).
Proof. unfold py_take. destruct (0 <=? k)%Z; apply StronglySorted_take. Qed.

Lemma py_take_Forall {A} (P : A -> Prop) (k : Z) (l : list A) :
  Forall P l -> Forall P (py_take k l).
Proof. unfold py_take. destruct (0 <=? k)%Z; apply Forall_take. Qed.

Lemma py_take_length {A} (k : Z) (l : list A) :
  (0 <= k)%Z -> (Z.of_nat (length (py_take k l)) <= k)%Z.
Proof.
  intros Hk. unfold py_take.
  destruct (Z.leb_spec 0 k); [|lia]. rewrite length_take. lia.
Qed.

Lemma collect_Forall category min_relevance documents similarities :
  forall idx results,
    Rag.collect category min_relevance documents idx similarities
    = Returned results ->
    Forall (fun d => (min_relevance <= relevance_score d)%Q) results.
Proof.
  induction similarities as [|sim rest IH]; intros idx results; cbn.
  - intros [= <-]. constructor.
  - destruct (Qle_bool min_relevance sim) eqn:Hle; [|apply IH].
    destruct (documents !! idx) as [doc|]; [|discriminate].
    destruct (Rag.collect category min_relevance documents (S idx) rest)
      as [tail|] eqn:Htail; cbn; [|discriminate].
    intros [= <-]. constructor.
    + cbn. apply Qle_bool_iff. exact Hle.
    + eapply IH. exact Htail.
Qed.

Lemma _search_category_Forall self query category top_k min_relevance :
  Forall (fun d => (min_relevance <= relevance_score d)%Q)
         (Rag._search_category self query category top_k min_relevance).
Proof.
  unfold Rag._search_category, Rag.or_empty.
  match goal with |- Forall _ (match ?m with _ => _ end) =>
    destruct m as [results|] eqn:Hm end; [|constructor].
  revert Hm. unfold mbind, outcome_bind.
  destruct (bool_decide _); [|discriminate].
  destruct (Rag.getitem (Rag.document_vectors self) category) as [[matrix|]|];
    try discriminate.
  - destruct (Rag.getitem (Rag.document_stores self) category) as [documents|];
      [|discriminate].
    destruct (length documents =? 0)%nat; [intros [= <-]; constructor|].
    destruct (Rag.cosine_similarity matrix query) as [sims|]; [|discriminate].
    destruct (Rag.collect category min_relevance documents 0 sims)
      as [found|] eqn:Hfound; [|discriminate].
    intros [= <-]. apply py_take_Forall, Forall_sort_desc.
    eapply collect_Forall. exact Hfound.
  - destruct (Rag.getitem (Rag.document_stores self) category);
      [intros [= <-]; constructor | discriminate].
Qed.

Lemma search_related_Forall self query top_k remaining_k min_relevance related :
  forall all_results results,
    Forall (fun d => (min_relevance <= relevance_score d)%Q) all_results ->
    Rag.search_related self query top_k remaining_k min_relevance related
      all_results = Returned results ->
    Forall (fun d => (min_relevance <= relevance_score d)%Q) results.
Proof.
  induction related as [|cat rest IH]; intros all_results results Hall; cbn.
  - intros [= <-]. exact Hall.
  - unfold mbind, outcome_bind.
    destruct (Rag.indexed self cat) as [[|]|]; [| |discriminate].
    + destruct (_ <=? _)%Z.
      * intros [= <-]. apply Forall_app. split; [exact Hall|].
        apply _search_category_Forall.
      * apply IH. apply Forall_app. split; [exact Hall|].
        apply _search_category_Forall.
    + apply IH. exact Hall.
Qed.

(** [RAGSystem.retrieve_context]: bounded, filtered, sorted. *)
Lemma retrieve_context_bounds self query category top_k include_related
    min_relevance :
  let docs :=
    Rag.retrieve_context self query category top_k include_related
      min_relevance in
  ((0 <= top_k)%Z -> (Z.of_nat (length docs) <= top_k)%Z)
  /\ Forall (fun d => (min_relevance <= relevance_score d)%Q) docs
  /\ StronglySorted score_ge docs.
Proof.
  cbn zeta. unfold Rag.retrieve_context, Rag.or_empty.
  match goal with |- context [match ?m with Returned _ => _ | Raised _ => _ end] =>
    destruct m as [docs|] eqn:Hm end.
  2:{ split; [cbn; lia|]. split; constructor. }
  revert Hm. unfold mbind, outcome_bind.
  destruct (Rag.indexed self category) as [primary|]; [|discriminate].
  match goal with |- context [match ?m with Returned _ => _ | Raised _ => _ end] =>
    destruct m as [first|] eqn:Hfirst end; [|discriminate].
  assert (Hall : Forall (fun d => (min_relevance <= relevance_score d)%Q) first).
  { destruct primary.
    - injection Hfirst as <-. apply _search_category_Forall.
    - destruct (Rag.indexed self "General") as [[|]|]; try discriminate;
        injection Hfirst as <-; [apply _search_category_Forall | constructor]. }
  match goal with |- context [match ?m with Returned _ => _ | Raised _ => _ end] =>
    destruct m as [merged|] eqn:Hmerged end; [|discriminate].
  assert (Hmerged' : Forall (fun d => (min_relevance <= relevance_score d)%Q)
                       merged).
  { destruct (include_related && _).
    - eapply search_related_Forall; [exact Hall | exact Hmerged].
    - injection Hmerged as <-. exact Hall. }
  intros [= <-]. split; [|split].
  - apply py_take_length.
  - apply py_take_Forall, Forall_sort_desc. exact Hmerged'.
  - apply py_take_sorted, sort_desc_sorted.
Qed.

Lemma py_take_nil {A} (k : Z) : py_take k ([] : list A) = [].
Proof. unfold py_take. destruct (0 <=? k)%Z; apply take_nil. Qed.

(** When the similarity computation raises, a category contributes
    nothing. *)
Lemma _search_category_failure self query category top_k min_relevance :
  (forall matrix,
     Rag.document_vectors self !! category = Some (Some matrix) ->
     exists msg, Rag.cosine_similarity matrix query = Raised msg) ->
  Rag._search_category self query category top_k min_relevance = [].
Proof.
  intros Hfail. unfold Rag._search_category, Rag.or_empty, mbind, outcome_bind.
  destruct (bool_decide _); [|reflexivity].
  unfold Rag.getitem.
  destruct (Rag.document_vectors self !! category) as [[matrix|]|] eqn:Hv;
    [| |reflexivity].
  - destruct (Rag.document_stores self !! category) as [documents|];
      [|reflexivity].
    destruct (length documents =? 0)%nat; [reflexivity|].
    destruct (Hfail matrix eq_refl) as [msg ->]. reflexivity.
  - destruct (Rag.document_stores self !! category); reflexivity.
Qed.

Lemma search_related_failure self query top_k remaining_k min_relevance related :
  (forall category matrix,
     Rag.document_vectors self !! category = Some (Some matrix) ->
     exists msg, Rag.cosine_similarity matrix query = Raised msg) ->
  forall results,
    Rag.search_related self query top_k remaining_k min_relevance related []
    = Returned results ->
    results = [].
Proof.
  intros Hfail. induction related as [|cat rest IH]; intros results; cbn.
  - intros [= <-]. reflexivity.
  - unfold mbind, outcome_bind.
    destruct (Rag.indexed self cat) as [[|]|]; [| |discriminate].
    + rewrite (_search_category_failure self query cat remaining_k
                 min_relevance (Hfail cat)).
      cbn [length]. destruct (_ <=? _)%Z; [intros [= <-]; reflexivity | apply IH].
    + apply IH.
Qed.

Lemma retrieve_context_failure self query category top_k include_related
    min_relevance :
  (forall cat matrix,
     Rag.document_vectors self !! cat = Some (Some matrix) ->
     exists msg, Rag.cosine_similarity matrix query = Raised msg) ->
  Rag.retrieve_context self query category top_k include_related min_relevance
  = [].
Proof.
  intros Hfail. unfold Rag.retrieve_context, Rag.or_empty.
  match goal with |- match ?m with Returned _ => _ | Raised _ => _ end = _ =>
    destruct m as [docs|] eqn:Hm end; [|reflexivity].
  revert Hm. unfold mbind, outcome_bind.
  destruct (Rag.indexed self category) as [primary|]; [|discriminate].
  match goal with |- context [match ?m with Returned _ => _ | Raised _ => _ end] =>
    destruct m as [first|] eqn:Hfirst end; [|discriminate].
  assert (first = []) as ->.
  { destruct primary.
    - injection Hfirst as <-. apply _search_category_failure, Hfail.
    - destruct (Rag.indexed self "General") as [[|]|]; try discriminate;
        injection Hfirst as <-;
        [apply _search_category_failure, Hfail | reflexivity]. }
  match goal with |- context [match ?m with Returned _ => _ | Raised _ => _ end] =>
    destruct m as [merged|] eqn:Hmerged end; [|discriminate].
  assert (merged = []) as ->.
  { destruct (include_related && _).
    - eapply search_related_failure; [exact Hfail | exact Hmerged].
    - injection Hmerged as <-. reflexivity. }
  intros [= <-]. apply py_take_nil.
Qed.

(** C8: the context-retrieval stage stores at most [top_k = 3] documents,
    each with a score of at least the default [min_relevance = 0.1], in
    descending order of score; [RAGSystem.retrieve_context] has these
    three properties for every non-negative [top_k] and every threshold;
    and a failing retrieval leaves the empty list: when the retriever call
    raises the stage stores [[]], and when the similarity computation
    raises for every category [RAGSystem.retrieve_context] returns [[]]. *)
Theorem C8_retrieval_is_bounded_filtered_sorted :
  forall (c : Nodes.Components) (now : Nodes.Clock) (s : SupportTicketState),
    let s' := Nodes.retrieve_context_node c now s in
    status s' = "context_retrieved"
    /\ (forall self,
          Nodes.rag_system c = Some (RAGSystem self) ->
          length (retrieved_context s') <= 3
          /\ Forall (fun d => (1 # 10 <= relevance_score d)%Q)
                    (retrieved_context s')
          /\ StronglySorted score_ge (retrieved_context s'))
    /\ (forall self query category top_k include_related min_relevance,
          (0 <= top_k)%Z ->
          let docs :=
            Rag.retrieve_context self query category top_k include_related
              min_relevance in
          (Z.of_nat (length docs) <= top_k)%Z
          /\ Forall (fun d => (min_relevance <= relevance_score d)%Q) docs
          /\ StronglySorted score_ge docs)
    /\ (forall rag msg,
          Nodes.rag_system c = Some rag ->
          retrieve_context rag
            (enhance_query rag (subject (ticket s)) (description (ticket s)))
            (category s) 3 true Rag.default_min_relevance
          = Raised msg ->
          retrieved_context s' = [])
    /\ (forall self query category top_k include_related min_relevance,
          (forall cat matrix,
             Rag.document_vectors self !! cat = Some (Some matrix) ->
             exists msg, Rag.cosine_similarity matrix query = Raised msg) ->
          Rag.retrieve_context self query category top_k include_related
            min_relevance = []).
Proof.
  intros c now s s'. subst s'. unfold Nodes.retrieve_context_node.
  split; [repeat case_match; reflexivity|].
  split; [|split; [|split]].
  - intros self Hrag. rewrite Hrag. cbn [retrieve_context enhance_query RAGSystem].
    cbn [retrieved_context log_state_transition set_node_execution_log
         set_status set_retrieved_context].
    destruct (retrieve_context_bounds self
                (Rag.enhance_query (subject (ticket s)) (description (ticket s)))
                (category s) 3 true Rag.default_min_relevance)
      as (Hlen & Hall & Hsorted).
    split; [|split; [exact Hall | exact Hsorted]].
    specialize (Hlen ltac:(lia)). lia.
  - intros self query category top_k include_related min_relevance Hk.
    destruct (retrieve_context_bounds self query category top_k include_related
                min_relevance) as (Hlen & Hall & Hsorted).
    split; [exact (Hlen Hk) | split; [exact Hall | exact Hsorted]].
  - intros rag msg Hrag Hraise. rewrite Hrag, Hraise. reflexivity.
  - intros self query category top_k include_related min_relevance Hfail.
    apply retrieve_context_failure. exact Hfail.
Qed.

Lemma C8_retrieval_is_bounded_filtered_sorted_witness :
  map relevance_score
    (retrieved_context
       (Nodes.retrieve_context_node Scenario.rag_components
          (Scenario.fixed_clock 1)
          Scenario.exhausted_state))
  = [(9 # 10)%Q; (4 # 10)%Q]
  /\ length
       (retrieved_context
          (Nodes.retrieve_context_node Scenario.rag_components
             (Scenario.fixed_clock 1)
             Scenario.exhausted_state)) <= 3
  /\ retrieved_context
       (Nodes.retrieve_context_node Scenario.failing_rag_components
          (Scenario.fixed_clock 1)
          Scenario.exhausted_state) = [].
Proof.
  split; [vm_compute; reflexivity|]. split.
  - apply (C8_retrieval_is_bounded_filtered_sorted Scenario.rag_components
             (Scenario.fixed_clock 1)
             Scenario.exhausted_state
             ) with (self := Scenario.small_rag).
    reflexivity.
  - destruct (C8_retrieval_is_bounded_filtered_sorted
                Scenario.failing_rag_components (Scenario.fixed_clock 1)
                Scenario.exhausted_state)
      as (_ & _ & _ & Hraise & _).
    apply (Hraise Scenario.failing_retriever "service unavailable");
      reflexivity.
Defined.

(** ** Refinement *)

(** With the repository's [RAGSystem] the retriever call always returns
    (it catches its own errors), so the stage stores its result. *)
Lemma refine_context_node_RAGSystem c now s self :
  Nodes.rag_system c = Some (RAGSystem self) ->
  retrieved_context (Nodes.refine_context_node c now s)
  = Rag.retrieve_context self
      (subject (ticket s) +:+ " " +:+ description (ticket s) +:+ " "
       +:+ Nodes.format_opt (latest_feedback s))
      (category s) 5 true (5 # 100)%Q.
Proof.
  intros Hrag. unfold Nodes.refine_context_node. rewrite Hrag. reflexivity.
Qed.



(** ** The scenarios of the specification that the code passes *)

Example approved_on_first_attempt :
  exists s fs,
    Graph.ainvoke Scenario.approving_components (Scenario.runtime 25)
      (create_initial_state "t0" Scenario.refund_ticket) Scenario.no_log
    = Graph.Finished s fs
    /\ status s = "resolved" /\ category s = "Billing" /\ retries s = 0%Z
    /\ length (drafts s) = 1 /\ escalated s = false
    /\ final_output s = Some "draft" /\ Utils.rows_of fs = [].
Proof.
  eexists. eexists. split; [vm_compute; reflexivity|].
  repeat split; vm_compute; reflexivity.
Qed.

Example services_down_still_resolves :
  exists s fs,
    Graph.ainvoke Scenario.unreachable_components (Scenario.runtime 25)
      (create_initial_state "t0" Scenario.refund_ticket) Scenario.no_log
    = Graph.Finished s fs
    /\ status s = "resolved" /\ category s = "General"
    /\ retrieved_context s = []
    /\ drafts s
       = ["I apologize, but I'm experiencing technical difficulties. Please contact our support team directly for assistance with your general inquiry."]
    /\ map rf_status (review_feedback s) = ["approved"].
Proof.
  eexists. eexists. split; [vm_compute; reflexivity|].
  repeat split; vm_compute; reflexivity.
Qed.

Example validate_ticket_input_blank_subject :
  Utils.validate_ticket_input
    (Utils.ticket_dict {| subject := "   "; description := "x" |})
  = (false, "Subject must be a non-empty string").
Proof. vm_compute. reflexivity. Qed.

Example validate_ticket_input_missing_field :
  Utils.validate_ticket_input (Utils.ADict {["subject" := Utils.VStr "Hi"]})
  = (false, "Ticket must have a 'description' field").
Proof. vm_compute. reflexivity. Qed.

(** * Further properties of the workflow *)

(** ** What each handler does to the histories *)

Lemma log_state_transition_log now s node_name action :
  log_of (log_state_transition now s node_name action)
  = log_of s ++ [now +:+ " - " +:+ node_name +:+ ": " +:+ action].
Proof. unfold log_of, log_state_transition. destruct (node_execution_log s); reflexivity. Qed.

(** The handlers other than generation and review leave both histories
    and their mirrors alone. *)
Lemma run_node_histories c now n s fs :
  n <> Graph.n_generate_response -> n <> Graph.n_review_response ->
  let s' := (Graph.run_node c now n s fs).1 in
  drafts s' = drafts s /\ current_draft s' = current_draft s
  /\ review_feedback s' = review_feedback s
  /\ review_status s' = review_status s
  /\ latest_feedback s' = latest_feedback s.
Proof.
  intros Hg Hr. destruct n; try congruence; cbn [Graph.run_node fst];
    unfold_nodes; repeat case_match; repeat split.
Qed.

Lemma generate_response_node_shape c now s :
  let s' := Nodes.generate_response_node c now s in
  (exists response,
     drafts s' = drafts s ++ [response] /\ current_draft s' = Some response)
  /\ review_feedback s' = review_feedback s
  /\ review_status s' = review_status s
  /\ latest_feedback s' = latest_feedback s.
Proof.
  cbn zeta. unfold Nodes.generate_response_node.
  repeat case_match; (split; [eexists; split; reflexivity | repeat split]).
Qed.

Lemma review_response_node_shape c now s :
  let s' := Nodes.review_response_node c now s in
  (exists entry,
     review_feedback s' = review_feedback s ++ [entry]
     /\ attempt entry = (Z.of_nat (length (review_feedback s)) + 1)%Z
     /\ review_status s' = Some (rf_status entry)
     /\ latest_feedback s' = Some (rf_feedback entry))
  /\ drafts s' = drafts s /\ current_draft s' = current_draft s.
Proof.
  cbn zeta. unfold Nodes.review_response_node.
  repeat case_match;
    (split; [eexists; split; [reflexivity|]; repeat split | repeat split]);
    cbn; congruence.
Qed.

(** A property every handler keeps holds in the state a run stops in. *)
Lemma invoke_from_invariant (P : SupportTicketState -> Prop) c rt :
  (forall now n s fs, P s -> P (Graph.run_node c now n s fs).1) ->
  forall budget step n s fs,
    P s -> P (final_state (Graph.invoke_from c rt budget step n s fs)).
Proof.
  intros Hstep. induction budget as [|budget IH]; intros step n s fs Hs;
    cbn [Graph.invoke_from]; [exact Hs|].
  specialize (Hstep (Graph.clock rt step) n s fs Hs).
  destruct (Graph.run_node c (Graph.clock rt step) n s fs) as [s' fs'].
  cbn [fst] in Hstep.
  destruct (Graph.next_node n s'); [apply IH; exact Hstep | exact Hstep].
Qed.

Lemma run_node_log c now n s fs :
  exists entry, log_of (Graph.run_node c now n s fs).1 = log_of s ++ [entry].
Proof.
  destruct n; cbn [Graph.run_node fst];
    unfold_nodes; repeat case_match; cbn [fst];
    rewrite log_state_transition_log; eexists; reflexivity.
Qed.

(** X1: every handler invocation appends exactly one entry to the audit
    trail and keeps the earlier entries; a run that stops after [k]
    invocations has added [k] entries. *)
Theorem X1_one_log_entry_per_invocation :
  forall (c : Nodes.Components) (now : Nodes.Clock) (n : Graph.node)
         (s : SupportTicketState) (fs : Utils.FileSystem),
    (exists entry, log_of (Graph.run_node c now n s fs).1 = log_of s ++ [entry])
    /\ forall rt budget step,
         length (log_of (final_state (Graph.invoke_from c rt budget step n s fs)))
         = length (log_of s)
           + length (Graph.trace_from c rt budget step n s fs).
Proof.
  intros c now n s fs.
  assert (Hone : forall now n s fs,
            exists entry,
              log_of (Graph.run_node c now n s fs).1 = log_of s ++ [entry])
    by (intros; apply run_node_log).
  split; [apply Hone|].
  intros rt budget. revert n s fs.
  induction budget as [|budget IH]; intros n s fs step;
    cbn [Graph.invoke_from Graph.trace_from final_state]; [cbn; lia|].
  destruct (Hone (Graph.clock rt step) n s fs) as [entry Hentry].
  destruct (Graph.run_node c (Graph.clock rt step) n s fs) as [s' fs'].
  cbn [fst] in Hentry.
  destruct (Graph.next_node n s') as [n'|].
  - rewrite IH, Hentry, length_app. cbn [length]. lia.
  - cbn [final_state length]. rewrite Hentry, length_app. cbn [length]. lia.
Qed.

(** ** Invariants of the histories *)

Lemma run_node_attempts_numbered c now n s fs :
  attempts_numbered s -> attempts_numbered (Graph.run_node c now n s fs).1.
Proof.
  unfold attempts_numbered. intros H.
  destruct (decide (n = Graph.n_review_response)) as [->|Hr].
  - cbn [Graph.run_node fst].
    destruct (review_response_node_shape c now s) as [(e & -> & Hatt & _) _].
    rewrite map_app, length_app, H. cbn [map length].
    rewrite Nat.add_1_r, seq_S, map_app. cbn [map]. f_equal. f_equal.
    rewrite Hatt. lia.
  - destruct (decide (n = Graph.n_generate_response)) as [->|Hg].
    + cbn [Graph.run_node fst].
      destruct (generate_response_node_shape c now s) as (_ & -> & _).
      exact H.
    + destruct (run_node_histories c now n s fs Hg Hr) as (_ & _ & -> & _).
      exact H.
Qed.

Lemma run_node_mirrors c now n s fs :
  mirrors s -> mirrors (Graph.run_node c now n s fs).1.
Proof.
  unfold mirrors. intros (Hd & Hs & Hf).
  destruct (decide (n = Graph.n_review_response)) as [->|Hr].
  - cbn [Graph.run_node fst].
    destruct (review_response_node_shape c now s)
      as [(e & -> & _ & -> & ->) (-> & ->)].
    rewrite last_snoc. repeat split. exact Hd.
  - destruct (decide (n = Graph.n_generate_response)) as [->|Hg].
    + cbn [Graph.run_node fst].
      destruct (generate_response_node_shape c now s)
        as ((r & -> & ->) & -> & -> & ->).
      rewrite last_snoc. repeat split; assumption.
    + destruct (run_node_histories c now n s fs Hg Hr)
        as (-> & -> & -> & -> & ->).
      repeat split; assumption.
Qed.

(** X2: the review history is numbered 1, 2, 3, ...: every handler keeps
    this, and it holds in the state any run from a fresh state stops in,
    finished or not. *)
Theorem X2_attempts_are_numbered_from_one :
  (forall c now n s fs,
     attempts_numbered s -> attempts_numbered (Graph.run_node c now n s fs).1)
  /\ (forall c rt start ticket_data fs,
        attempts_numbered
          (final_state
             (Graph.ainvoke c rt (create_initial_state start ticket_data) fs))).
Proof.
  split; [apply run_node_attempts_numbered|].
  intros c rt start ticket_data fs. unfold Graph.ainvoke.
  apply invoke_from_invariant; [apply run_node_attempts_numbered | reflexivity].
Qed.

Lemma X2_attempts_are_numbered_from_one_witness :
  map attempt
    (review_feedback
       (Graph.run_node Scenario.rejecting_components (Scenario.fixed_clock 0)
          Graph.n_review_response Scenario.exhausted_state Scenario.no_log).1)
  = [1; 2; 3; 4]%Z.
Proof.
  apply (proj1 X2_attempts_are_numbered_from_one Scenario.rejecting_components
           (Scenario.fixed_clock 0) Graph.n_review_response
           Scenario.exhausted_state Scenario.no_log).
  reflexivity.
Defined.

(** X3: [current_draft] is always the last draft, and [review_status] and
    [latest_feedback] are always the status and text of the last review:
    every handler keeps this, and it holds wherever a run from a fresh
    state stops. *)
Theorem X3_convenience_fields_mirror_the_histories :
  (forall c now n s fs,
     mirrors s -> mirrors (Graph.run_node c now n s fs).1)
  /\ (forall c rt start ticket_data fs,
        mirrors
          (final_state
             (Graph.ainvoke c rt (create_initial_state start ticket_data) fs))).
Proof.
  split; [apply run_node_mirrors|].
  intros c rt start ticket_data fs. unfold Graph.ainvoke.
  apply invoke_from_invariant; [apply run_node_mirrors | repeat split].
Qed.

Lemma X3_convenience_fields_mirror_the_histories_witness :
  mirrors
    (Graph.run_node Scenario.second_chance_components (Scenario.fixed_clock 0)
       Graph.n_generate_response Scenario.exhausted_state Scenario.no_log).1.
Proof.
  apply (proj1 X3_convenience_fields_mirror_the_histories).
  repeat split.
Defined.

(** ** The shape of a finished run *)

Lemma on_entry_step c now n s fs :
  on_entry n s ->
  (Graph.run_node c now n s fs).2 = fs /\
  match Graph.next_node n (Graph.run_node c now n s fs).1 with
  | Some n' => on_entry n' (Graph.run_node c now n s fs).1
  | None => resolved_outcome (Graph.run_node c now n s fs).1
  end.
Proof.
  intros (Hret & Hesc & Hmir & Hrem & Hn).
  assert (Hn_esc : n <> Graph.n_escalate_ticket) by (intros ->; exact Hn).
  split; [apply run_node_fs; exact Hn_esc|].
  pose proof (run_node_retries c now n s fs) as Hret'. rewrite Hret in Hret'.
  pose proof (run_node_escalated c now n s fs Hn_esc) as Hesc'.
  rewrite Hesc in Hesc'.
  pose proof (run_node_mirrors c now n s fs Hmir) as Hmir'.
  destruct (run_node_log c now n s fs) as [entry Hlog].
  assert (Hlen : length (log_of (Graph.run_node c now n s fs).1)
                 = S (length (log_of s)))
    by (rewrite Hlog, length_app; cbn [length]; lia).
  clear Hlog.
  destruct n; try contradiction.
  - (* classify *)
    destruct (run_node_histories c now Graph.n_classify_ticket s fs
                ltac:(discriminate) ltac:(discriminate))
      as (Hd & _ & Hr & _).
    destruct Hn as (Hd0 & Hr0 & Hl0). cbn [Graph.next_node].
    repeat split; try assumption; try apply Hmir'.
    + rewrite Hr, Hr0. constructor.
    + congruence.
    + congruence.
    + lia.
  - (* retrieve *)
    destruct (run_node_histories c now Graph.n_retrieve_context s fs
                ltac:(discriminate) ltac:(discriminate))
      as (Hd & _ & Hr & _).
    destruct Hn as (Hd0 & Hr0 & Hl0). cbn [Graph.next_node].
    repeat split; try assumption; try apply Hmir'.
    + rewrite Hr, Hr0. constructor.
    + rewrite Hr, Hd, Hr0, Hd0. reflexivity.
    + rewrite Hr, Hr0. constructor.
    + rewrite Hd, Hd0, Hlen, Hl0. reflexivity.
  - (* generate *)
    cbn [Graph.run_node fst] in *.
    destruct (generate_response_node_shape c now s)
      as ((r & Hd & _) & Hr & _).
    destruct Hn as (Hlen0 & Hall & Hl0). cbn [Graph.next_node].
    repeat split; try assumption; try apply Hmir'.
    + rewrite Hr. exact Hrem.
    + rewrite Hr, Hd, length_app. cbn [length]. lia.
    + rewrite Hr. exact Hall.
    + rewrite Hd, length_app. cbn [length]. lia.
  - (* review *)
    cbn [Graph.run_node fst] in *.
    destruct (review_response_node_shape c now s)
      as ((e & Hr & _ & Hst & _) & Hd & _).
    destruct Hn as (Hlen0 & Hall & Hl0). cbn [Graph.next_node].
    unfold Graph.review_routing. rewrite Hret'. cbn [Z.ltb Z.compare].
    case_bool_decide as Happ.
    + repeat split; try assumption; try apply Hmir'.
      * rewrite Hr, removelast_last. exact Hall.
      * rewrite Hr, Hd, length_app. cbn [length]. lia.
      * rewrite Hd. lia.
    + repeat split; try assumption; try apply Hmir'.
      * rewrite Hr, removelast_last. exact Hall.
      * rewrite Hr, Hd, length_app. cbn [length]. lia.
      * rewrite Hr. apply Forall_app. split; [exact Hall|].
        constructor; [|constructor]. unfold not_approved. congruence.
      * rewrite Hd. lia.
  - (* refine *)
    destruct (run_node_histories c now Graph.n_refine_context s fs
                ltac:(discriminate) ltac:(discriminate))
      as (Hd & _ & Hr & _).
    destruct Hn as (Hlen0 & Hall & Hl0). cbn [Graph.next_node].
    repeat split; try assumption; try apply Hmir'.
    + rewrite Hr. exact Hrem.
    + rewrite Hr, Hd. exact Hlen0.
    + rewrite Hr. exact Hall.
    + rewrite Hd. lia.
  - (* finalize *)
    destruct Hn as (Hlen0 & Happ & Hl0). cbn [Graph.next_node].
    destruct Hmir as (Hcur & Hst & _).
    rewrite Happ in Hst.
    destruct (last (review_feedback s)) as [final|] eqn:Hlast; [|discriminate].
    apply last_Some in Hlast as [earlier Hearlier].
    assert (Hdrafts : exists draft, last (drafts s) = Some draft).
    { destruct (drafts s) as [|d ds] eqn:Hds.
      - rewrite Hearlier, length_app in Hlen0. cbn in Hlen0. lia.
      - destruct (last (d :: ds)) eqn:Hl; [eauto|].
        apply last_None in Hl. discriminate. }
    destruct Hdrafts as [draft Hdraft].
    cbn [Graph.run_node fst] in *. unfold Nodes.finalize_response_node in *.
    repeat split; try assumption.
    + exists draft. split; [exact Hdraft|].
      cbn. rewrite Hcur. exact Hdraft.
    + exists earlier, final. split; [exact Hearlier|].
      split; [|cbn in Hst; congruence].
      rewrite Hearlier, removelast_last in Hrem. exact Hrem.
    + cbn [drafts log_state_transition set_node_execution_log
           set_processing_end_time set_status set_final_output] in *. lia.
Qed.

Lemma invoke_from_on_entry c rt budget : forall step n s fs,
  on_entry n s ->
  match Graph.invoke_from c rt budget step n s fs with
  | Graph.Finished s' fs' => resolved_outcome s' /\ fs' = fs
  | Graph.GraphRecursionError _ _ fs' => fs' = fs
  end.
Proof.
  induction budget as [|budget IH]; intros step n s fs Hs;
    cbn [Graph.invoke_from]; [reflexivity|].
  destruct (on_entry_step c (Graph.clock rt step) n s fs Hs) as [Hfs Hnext].
  destruct (Graph.run_node c (Graph.clock rt step) n s fs) as [s' fs'].
  cbn [fst snd] in *. subst fs'.
  destruct (Graph.next_node n s') as [n'|]; [apply IH; exact Hnext|].
  split; [exact Hnext | reflexivity].
Qed.

Lemma on_entry_fresh start ticket_data :
  on_entry Graph.entry_point (create_initial_state start ticket_data).
Proof. repeat split; constructor. Qed.

(** X4: whatever the collaborators do, a run from a fresh state that
    finishes has status [resolved] and [escalated = False]; its
    [final_output] is the last draft; it holds as many reviews as drafts;
    the last review is an approval and no earlier one is; the audit trail
    has three entries per draft plus two; and the escalation log is
    untouched. *)
Theorem X4_finished_runs_are_resolved_by_the_last_draft :
  forall (c : Nodes.Components) (rt : Graph.Runtime) (start : string)
         (ticket_data : TicketInfo) (fs : Utils.FileSystem)
         (s' : SupportTicketState) (fs' : Utils.FileSystem),
    Graph.ainvoke c rt (create_initial_state start ticket_data) fs
    = Graph.Finished s' fs' ->
    resolved_outcome s' /\ fs' = fs.
Proof.
  intros c rt start ticket_data fs s' fs' Hrun.
  pose proof (invoke_from_on_entry c rt (Graph.recursion_limit rt) 0
                Graph.entry_point _ fs (on_entry_fresh start ticket_data)) as H.
  unfold Graph.ainvoke in Hrun. rewrite Hrun in H. exact H.
Qed.

Lemma X4_finished_runs_are_resolved_by_the_last_draft_witness :
  exists s',
    resolved_outcome s' /\ drafts s' = ["first draft"; "second draft"].
Proof.
  eexists. split.
  - eapply (X4_finished_runs_are_resolved_by_the_last_draft
              Scenario.second_chance_components (Scenario.runtime 25) "t0"
              Scenario.refund_ticket Scenario.no_log).
    vm_compute. reflexivity.
  - reflexivity.
Defined.

(** X5: without an LLM client (initialisation failed) every ticket is
    resolved in five handler invocations: the category comes from the
    keyword heuristic, the single draft is the canned fallback response,
    and the review is an automatic approval.  The answer the customer gets
    is the canned text, whatever the retriever found. *)
Theorem X5_without_a_client_the_canned_response_is_approved :
  forall (c : Nodes.Components) (rt : Graph.Runtime) (start : string)
         (ticket_data : TicketInfo) (fs : Utils.FileSystem),
    Nodes.gemini_client c = None ->
    5 <= Graph.recursion_limit rt ->
    exists s',
      Graph.ainvoke c rt (create_initial_state start ticket_data) fs
      = Graph.Finished s' fs
      /\ status s' = "resolved"
      /\ category s'
         = Nodes._fallback_classify (subject ticket_data)
             (description ticket_data)
      /\ drafts s'
         = [Nodes._fallback_response (ticket s') (category s')
              (retrieved_context s')]
      /\ final_output s'
         = Some (Nodes._fallback_response (ticket s') (category s')
                   (retrieved_context s'))
      /\ map rf_status (review_feedback s') = ["approved"]
      /\ map rf_feedback (review_feedback s') = ["Automated review completed"]
      /\ length (log_of s') = 5.
Proof.
  intros [client rag] [limit msg clock] start ticket_data fs Hc Hlimit.
  cbn [Nodes.gemini_client Graph.recursion_limit] in *. subst client.
  destruct limit as [|[|[|[|[|k]]]]]; try lia.
  unfold Graph.ainvoke.
  cbn [Graph.recursion_limit Graph.invoke_from Graph.run_node Graph.entry_point
       Graph.next_node Graph.clock].
  eexists. split; [reflexivity|].
  unfold Nodes.retrieve_context_node. cbn [Nodes.rag_system].
  destruct rag as [r|]; [destruct (retrieve_context r _ _ _ _ _)|];
    repeat split.
Qed.

Lemma X5_without_a_client_the_canned_response_is_approved_witness :
  exists s',
    Graph.ainvoke Scenario.rag_components (Scenario.runtime 25)
      (create_initial_state "t0" Scenario.refund_ticket) Scenario.no_log
    = Graph.Finished s' Scenario.no_log
    /\ status s' = "resolved".
Proof.
  destruct (X5_without_a_client_the_canned_response_is_approved
              Scenario.rag_components (Scenario.runtime 25) "t0"
              Scenario.refund_ticket Scenario.no_log)
    as (s' & Hrun & Hstatus & _).
  - reflexivity.
  - cbn. lia.
  - exists s'. split; assumption.
Defined.

(** ** The reviewer's verdict *)

(** X6: [review_response] returns only [approved] or [rejected], and it
    returns [rejected] exactly when the endpoint answered with status 200
    and a text that contains "rejected" in some casing and does not
    contain "approved" in any casing. *)
Theorem X6_rejected_exactly_when_only_rejected_is_named :
  forall (e : Gemini.Endpoint) (subject description draft : string)
         (ctx : list ContextDocument),
    (Gemini.rr_status (Gemini.review_response e subject description draft ctx)
     = "rejected"
     <-> exists answer,
           Gemini.post_review e subject description draft ctx
           = Gemini.HttpResponse 200 (Some answer)
           /\ mentions "rejected" answer /\ ~ mentions "approved" answer)
    /\ (Gemini.rr_status (Gemini.review_response e subject description draft ctx)
        = "approved"
        \/ Gemini.rr_status
             (Gemini.review_response e subject description draft ctx)
           = "rejected").
Proof.
  intros e subject description draft ctx.
  pose proof (contains_mentions "approved") as Ha.
  pose proof (contains_mentions "rejected") as Hr.
  change (PyStr.upper "approved") with "APPROVED" in Ha.
  change (PyStr.upper "rejected") with "REJECTED" in Hr.
  unfold Gemini.review_response, Gemini.parse_verdict.
  destruct (Gemini.post_review e subject description draft ctx)
    as [msg|code [answer|]].
  - split; [|left; reflexivity].
    split; [discriminate | intros (a & H & _); discriminate].
  - destruct (Z.eqb_spec code 200) as [->|Hcode].
    + specialize (Ha answer solid_APPROVED). specialize (Hr answer solid_REJECTED).
      destruct (PyStr.contains "APPROVED" _) eqn:Hca.
      * split; [|left; reflexivity].
        split; [discriminate|]. intros (a & [= <-] & _ & Hno).
        exfalso. apply Hno, Ha. reflexivity.
      * destruct (PyStr.contains "REJECTED" _) eqn:Hcr.
        -- split; [|right; reflexivity]. split; [|reflexivity].
           intros _. exists answer. split; [reflexivity|].
           split; [apply Hr; reflexivity|].
           intros Hm. apply Ha in Hm. discriminate.
        -- split; [|left; reflexivity].
           split; [discriminate|]. intros (a & [= <-] & Hm & _).
           apply Hr in Hm. discriminate.
    + split; [|left; reflexivity].
      split; [discriminate | intros (a & [= -> _] & _); contradiction].
  - split; [|destruct (code =? 200)%Z; left; reflexivity].
    split; [destruct (code =? 200)%Z; discriminate|].
    intros (a & H & _). discriminate.
Qed.

Lemma X6_rejected_exactly_when_only_rejected_is_named_witness :
  Gemini.rr_status
    (Gemini.review_response Scenario.rejecting_endpoint "Refund request"
       "I was charged twice" "draft" [])
  = "rejected".
Proof.
  apply (proj1 (X6_rejected_exactly_when_only_rejected_is_named
                  Scenario.rejecting_endpoint "Refund request"
                  "I was charged twice" "draft" [])).
  exists "REJECTED: too vague". split; [reflexivity|]. split.
  - exists "", "REJECTED", ": too vague". split; reflexivity.
  - intros Hm.
    apply (contains_mentions "approved" "REJECTED: too vague" solid_APPROVED)
      in Hm.
    vm_compute in Hm. discriminate.
Defined.

(** ** Where retrieved documents come from *)

Lemma collect_from_store category min_relevance documents similarities :
  forall idx results,
    Rag.collect category min_relevance documents idx similarities
    = Returned results ->
    Forall (fun d =>
              doc_category d = category
              /\ exists i doc,
                   documents !! (idx + i) = Some doc
                   /\ similarities !! i = Some (relevance_score d)
                   /\ content d = Rag.kb_content doc
                   /\ source d
                      = default (category +:+ "_doc_" +:+ PyStr.of_nat (idx + i))
                                (Rag.kb_source doc))
           results.
Proof.
  induction similarities as [|sim rest IH]; intros idx results; cbn [Rag.collect].
  - intros [= <-]. constructor.
  - assert (Hshift : forall tail,
              Rag.collect category min_relevance documents (S idx) rest
              = Returned tail ->
              Forall (fun d =>
                        doc_category d = category
                        /\ exists i doc,
                             documents !! (idx + i) = Some doc
                             /\ (sim :: rest) !! i = Some (relevance_score d)
                             /\ content d = Rag.kb_content doc
                             /\ source d
                                = default (category +:+ "_doc_"
                                           +:+ PyStr.of_nat (idx + i))
                                          (Rag.kb_source doc))
                     tail).
    { intros tail Htail. eapply Forall_impl; [apply (IH _ _ Htail)|].
      intros d (Hcat & i & doc & Hdoc & Hsim & Hc & Hs).
      split; [exact Hcat|]. exists (S i), doc.
      replace (idx + S i) with (S idx + i) by lia. repeat split; assumption. }
    destruct (Qle_bool min_relevance sim); [|apply Hshift].
    destruct (documents !! idx) as [doc|] eqn:Hdoc; [|discriminate].
    unfold mbind, outcome_bind.
    destruct (Rag.collect category min_relevance documents (S idx) rest)
      as [tail|] eqn:Htail; [|discriminate].
    intros [= <-]. constructor; [|apply Hshift; reflexivity].
    split; [reflexivity|]. exists 0, doc. rewrite Nat.add_0_r.
    repeat split. exact Hdoc.
Qed.

Lemma _search_category_from_store self query category top_k min_relevance :
  Forall (fun d => doc_category d = category /\ from_store self query d)
         (Rag._search_category self query category top_k min_relevance).
Proof.
  unfold Rag._search_category, Rag.or_empty.
  match goal with |- Forall _ (match ?m with _ => _ end) =>
    destruct m as [results|] eqn:Hm end; [|constructor].
  revert Hm. unfold mbind, outcome_bind, Rag.getitem.
  destruct (bool_decide _); [|discriminate].
  destruct (Rag.document_vectors self !! category) as [[matrix|]|] eqn:Hv;
    try discriminate.
  - destruct (Rag.document_stores self !! category) as [documents|] eqn:Hs;
      [|discriminate].
    destruct (length documents =? 0)%nat; [intros [= <-]; constructor|].
    destruct (Rag.cosine_similarity matrix query) as [sims|] eqn:Hsims;
      [|discriminate].
    destruct (Rag.collect category min_relevance documents 0 sims)
      as [found|] eqn:Hfound; [|discriminate].
    intros [= <-]. apply py_take_Forall, Forall_sort_desc.
    eapply Forall_impl; [apply (collect_from_store _ _ _ _ _ _ Hfound)|].
    intros d (Hcat & i & doc & Hdoc & Hsim & Hc & Hsrc).
    split; [exact Hcat|]. unfold from_store. rewrite Hcat.
    exists documents, matrix, sims, i, doc. repeat split; assumption.
  - destruct (Rag.document_stores self !! category);
      [intros [= <-]; constructor | discriminate].
Qed.

Lemma search_related_from_store self query top_k remaining_k min_relevance
    (P : ContextDocument -> Prop) related :
  (forall cat d, In cat related -> doc_category d = cat ->
                 from_store self query d -> P d) ->
  forall all_results results,
    Forall P all_results ->
    Rag.search_related self query top_k remaining_k min_relevance related
      all_results = Returned results ->
    Forall P results.
Proof.
  induction related as [|cat rest IH]; intros HP all_results results Hall;
    cbn [Rag.search_related].
  - intros [= <-]. exact Hall.
  - assert (Hnew : Forall P
                     (all_results ++
                      Rag._search_category self query cat remaining_k
                        min_relevance)).
    { apply Forall_app. split; [exact Hall|].
      eapply Forall_impl; [apply _search_category_from_store|].
      intros d [Hcat Hd]. apply (HP cat d); [left; reflexivity | | ]; assumption. }
    assert (HP' : forall cat' d, In cat' rest -> doc_category d = cat' ->
                                 from_store self query d -> P d)
      by (intros cat' d Hin; apply HP; right; exact Hin).
    unfold mbind, outcome_bind.
    destruct (Rag.indexed self cat) as [[|]|]; [| |discriminate].
    + destruct (_ <=? _)%Z; [intros [= <-]; exact Hnew | apply IH; assumption].
    + apply IH; assumption.
Qed.

(** X7: retrieval never invents a document.  Every document
    [retrieve_context] returns carries the content of a knowledge-base
    document stored under the document's own category, the score the
    similarity computation gave that document for this query, and the
    stored source (or the generated "<category>_doc_<index>"); and its
    category is the requested one, General, or, when related categories
    are included, one of the related categories. *)
Theorem X7_retrieved_documents_come_from_the_store :
  forall (self : Rag.RAGSystem) (query category : string) (top_k : Z)
         (include_related : bool) (min_relevance : Q),
    Forall (fun d =>
              from_store self query d
              /\ (doc_category d = category
                  \/ doc_category d = "General"
                  \/ (include_related = true
                      /\ In (doc_category d)
                            (Rag._get_related_categories category))))
           (Rag.retrieve_context self query category top_k include_related
              min_relevance).
Proof.
  intros self query category top_k include_related min_relevance.
  set (P := fun d : ContextDocument =>
              from_store self query d
              /\ (doc_category d = category
                  \/ doc_category d = "General"
                  \/ (include_related = true
                      /\ In (doc_category d)
                            (Rag._get_related_categories category)))).
  unfold Rag.retrieve_context, Rag.or_empty.
  match goal with |- Forall _ (match ?m with Returned _ => _ | Raised _ => _ end) =>
    destruct m as [docs|] eqn:Hm end; [|constructor].
  revert Hm. unfold mbind, outcome_bind.
  destruct (Rag.indexed self category) as [primary|]; [|discriminate].
  match goal with |- context [match ?m with Returned _ => _ | Raised _ => _ end] =>
    destruct m as [first|] eqn:Hfirst end; [|discriminate].
  assert (Hall : Forall P first).
  { destruct primary.
    - injection Hfirst as <-.
      eapply Forall_impl; [apply _search_category_from_store|].
      intros d [Hcat Hd]. split; [exact Hd | left; exact Hcat].
    - destruct (Rag.indexed self "General") as [[|]|]; try discriminate;
        injection Hfirst as <-; [|constructor].
      eapply Forall_impl; [apply _search_category_from_store|].
      intros d [Hcat Hd]. split; [exact Hd | right; left; exact Hcat]. }
  match goal with |- context [match ?m with Returned _ => _ | Raised _ => _ end] =>
    destruct m as [merged|] eqn:Hmerged end; [|discriminate].
  assert (Hmerged' : Forall P merged).
  { destruct include_related; cbn [andb] in Hmerged.
    - destruct (_ <? _)%Z.
      + eapply (search_related_from_store self query top_k _ min_relevance P);
          [|exact Hall | exact Hmerged].
        intros cat d Hin Hcat Hd. split; [exact Hd|].
        right; right. split; [reflexivity | rewrite Hcat; exact Hin].
      + injection Hmerged as <-. exact Hall.
    - injection Hmerged as <-. exact Hall. }
  intros [= <-]. apply py_take_Forall, Forall_sort_desc. exact Hmerged'.
Qed.

(** ** The indexes built at start-up *)

Lemma fitted_cases kb fit c :
  ((fitted kb fit c).1 = None /\ (fitted kb fit c).2 = [])
  \/ (exists m, (fitted kb fit c).1 = Some m
               /\ (fitted kb fit c).2 = Rag.get_category_documents kb c
               /\ Rag.get_category_documents kb c <> []
               /\ fit (map Rag.kb_content (Rag.get_category_documents kb c))
                  = Returned m).
Proof.
  unfold fitted. destruct (Rag.get_category_documents kb c) as [|d ds];
    [left; split; reflexivity|].
  destruct (fit _) as [m|] eqn:Hfit; [|left; split; reflexivity].
  right. exists m. repeat split. discriminate.
Qed.

Lemma index_category_fitted kb fit self c :
  Rag.index_category kb fit self c
  = {| Rag.vectorizers := {[c]} ∪ Rag.vectorizers self;
       Rag.document_stores := <[c := (fitted kb fit c).2]> (Rag.document_stores self);
       Rag.document_vectors :=
         <[c := (fitted kb fit c).1]> (Rag.document_vectors self) |}.
Proof.
  unfold Rag.index_category, fitted.
  destruct (Rag.get_category_documents kb c) as [|d ds]; [reflexivity|].
  cbn [length Nat.eqb]. destruct (fit _); reflexivity.
Qed.

Lemma foldl_index_category kb fit cats : forall self c,
  let r := foldl (Rag.index_category kb fit) self cats in
  (c ∈ Rag.vectorizers r <-> In c cats \/ c ∈ Rag.vectorizers self)
  /\ (In c cats ->
      Rag.document_vectors r !! c = Some (fitted kb fit c).1
      /\ Rag.document_stores r !! c = Some (fitted kb fit c).2)
  /\ (~ In c cats ->
      Rag.document_vectors r !! c = Rag.document_vectors self !! c
      /\ Rag.document_stores r !! c = Rag.document_stores self !! c).
Proof.
  induction cats as [|c0 cats IH]; intros self c; cbn [foldl].
  - cbn. split; [tauto|]. split; [tauto | intros _; split; reflexivity].
  - rewrite index_category_fitted.
    set (self' := Rag.Build_RAGSystem _ _ _).
    destruct (IH self' c) as (Hv & Hin & Hout). subst self'.
    cbn [Rag.vectorizers Rag.document_stores Rag.document_vectors] in Hv, Hout.
    split; [|split].
    + rewrite Hv, elem_of_union, elem_of_singleton. cbn [In].
      split; [intros [?|[?|?]] | intros [[?|?]|?]]; subst; tauto.
    + intros [->|Hc].
      * destruct (in_dec String.string_dec c cats) as [Hc|Hc];
          [apply Hin; exact Hc|].
        destruct (Hout Hc) as [-> ->]. rewrite !lookup_insert_eq.
        split; reflexivity.
      * apply Hin. exact Hc.
    + intros Hc. cbn [In] in Hc.
      destruct (Hout ltac:(tauto)) as [-> ->].
      rewrite !lookup_insert_ne by tauto. split; reflexivity.
Qed.

(** X8: the indexes [_initialize_indexes] builds have the four categories
    as the keys of all three dictionaries, so no later lookup raises
    [KeyError].  A category has a matrix exactly when the knowledge base
    has documents for it and fitting them succeeded: the matrix is then
    the fitted one and the store holds exactly those documents.  It has
    [None] for a matrix exactly when the knowledge base has no documents
    for it or fitting raised, and its store is then empty, also when the
    knowledge base does have documents. *)
Theorem X8_initialised_indexes_are_consistent :
  forall (kb : Rag.KnowledgeBase) (fit_transform : Rag.Fitter),
    let self := Rag._initialize_indexes kb fit_transform in
    let fit c :=
      fit_transform (map Rag.kb_content (Rag.get_category_documents kb c)) in
    (forall c, c ∈ Rag.vectorizers self <-> In c categories)
    /\ (forall c, is_Some (Rag.document_vectors self !! c) <-> In c categories)
    /\ (forall c, is_Some (Rag.document_stores self !! c) <-> In c categories)
    /\ (forall c, exists b, Rag.indexed self c = Returned b)
    /\ (forall c m,
          Rag.document_vectors self !! c = Some (Some m)
          <-> In c categories
              /\ Rag.get_category_documents kb c <> []
              /\ fit c = Returned m)
    /\ (forall c,
          Rag.document_vectors self !! c = Some None
          <-> In c categories
              /\ (Rag.get_category_documents kb c = []
                  \/ exists msg, fit c = Raised msg))
    /\ (forall c m,
          Rag.document_vectors self !! c = Some (Some m) ->
          Rag.document_stores self !! c
          = Some (Rag.get_category_documents kb c)
          /\ Rag.get_category_stats self !! c
             = Some (length (Rag.get_category_documents kb c)))
    /\ (forall c,
          Rag.document_vectors self !! c = Some None ->
          Rag.document_stores self !! c = Some []
          /\ Rag.get_category_stats self !! c = Some 0).
Proof.
  intros kb fit_transform self fit.
  assert (H : forall c,
            (c ∈ Rag.vectorizers self <-> In c categories)
            /\ (In c categories ->
                Rag.document_vectors self !! c
                = Some (fitted kb fit_transform c).1
                /\ Rag.document_stores self !! c
                   = Some (fitted kb fit_transform c).2)
            /\ (~ In c categories ->
                Rag.document_vectors self !! c = None
                /\ Rag.document_stores self !! c = None)).
  { intros c. subst self. unfold Rag._initialize_indexes.
    destruct (foldl_index_category kb fit_transform
                ["Billing"; "Technical"; "Security"; "General"]
                {| Rag.vectorizers := ∅; Rag.document_stores := ∅;
                   Rag.document_vectors := ∅ |} c) as (Hv & Hin & Hout).
    split; [|split; assumption].
    rewrite Hv. cbn [Rag.vectorizers]. rewrite elem_of_empty.
    unfold categories, BILLING, TECHNICAL, SECURITY, GENERAL. tauto. }
  assert (Hdec : forall c, In c categories \/ ~ In c categories).
  { intros c. destruct (in_dec String.string_dec c categories); tauto. }
  assert (Hmatrix : forall c m,
            Rag.document_vectors self !! c = Some (Some m)
            <-> In c categories
                /\ Rag.get_category_documents kb c <> []
                /\ fit c = Returned m).
  { intros c m. destruct (H c) as (_ & Hin & Hout). split.
    - intros Hvec.
      destruct (Hdec c) as [Hc|Hc]; [|destruct (Hout Hc); congruence].
      destruct (Hin Hc) as [Hvec' _]. rewrite Hvec' in Hvec.
      destruct (fitted_cases kb fit_transform c)
        as [[Hnone _]|(m' & Hm & _ & Hne & Hfit)]; [congruence|].
      split; [exact Hc|]. split; [exact Hne|]. subst fit. cbn beta.
      congruence.
    - intros (Hc & Hne & Hfit). destruct (Hin Hc) as [-> _].
      destruct (fitted_cases kb fit_transform c)
        as [[Hnone Hnil]|(m' & Hm & _ & _ & Hfit')].
      + exfalso. revert Hnone. unfold fitted.
        destruct (Rag.get_category_documents kb c) as [|d ds] eqn:Hdocs;
          [congruence|].
        subst fit. cbn beta in Hfit. rewrite Hdocs in Hfit. rewrite Hfit.
        discriminate.
      + subst fit. cbn beta in Hfit. congruence. }
  assert (Hnone : forall c,
            Rag.document_vectors self !! c = Some None
            <-> In c categories
                /\ (Rag.get_category_documents kb c = []
                    \/ exists msg, fit c = Raised msg)).
  { intros c. destruct (H c) as (_ & Hin & Hout). split.
    - intros Hvec.
      destruct (Hdec c) as [Hc|Hc]; [|destruct (Hout Hc); congruence].
      split; [exact Hc|].
      destruct (Rag.get_category_documents kb c) as [|d ds] eqn:Hdocs;
        [left; reflexivity | right].
      destruct (fit c) as [m|msg] eqn:Hfit; [|eauto].
      exfalso.
      assert (Hsome : Rag.document_vectors self !! c = Some (Some m)).
      { apply Hmatrix. rewrite Hdocs. repeat split; [exact Hc | discriminate|].
        exact Hfit. }
      congruence.
    - intros (Hc & Hcase). destruct (Hin Hc) as [-> _]. f_equal.
      unfold fitted. destruct Hcase as [->|[msg Hfit]]; [reflexivity|].
      destruct (Rag.get_category_documents kb c) as [|d ds] eqn:Hdocs;
        [reflexivity|].
      subst fit. cbn beta in Hfit. rewrite Hdocs in Hfit. rewrite Hfit.
      reflexivity. }
  split; [intros c; apply H|].
  split; [|split; [|split; [|split; [exact Hmatrix|split; [exact Hnone|split]]]]].
  - intros c. destruct (H c) as (_ & Hin & Hout). split.
    + intros Hsome. destruct (Hdec c) as [Hc|Hc]; [exact Hc|].
      destruct (Hout Hc) as [Hvec _]. rewrite Hvec in Hsome.
      destruct Hsome; discriminate.
    + intros Hc. destruct (Hin Hc) as [-> _]. eauto.
  - intros c. destruct (H c) as (_ & Hin & Hout). split.
    + intros Hsome. destruct (Hdec c) as [Hc|Hc]; [exact Hc|].
      destruct (Hout Hc) as [_ Hstore]. rewrite Hstore in Hsome.
      destruct Hsome; discriminate.
    + intros Hc. destruct (Hin Hc) as [_ ->]. eauto.
  - intros c. destruct (H c) as (Hv & Hin & _). unfold Rag.indexed.
    case_bool_decide as Hmem; [|eauto].
    apply Hv in Hmem. destruct (Hin Hmem) as [Hvec _].
    unfold Rag.getitem. rewrite Hvec. cbn. eauto.
  - intros c m Hvec. destruct (H c) as (_ & Hin & Hout).
    destruct (Hdec c) as [Hc|Hc]; [|destruct (Hout Hc); congruence].
    destruct (Hin Hc) as [Hvec' Hstore]. rewrite Hvec' in Hvec.
    destruct (fitted_cases kb fit_transform c)
      as [[Hn _]|(m' & Hm & Hdocs & _)]; [congruence|].
    unfold Rag.get_category_stats. rewrite lookup_fmap, Hstore, Hdocs.
    split; reflexivity.
  - intros c Hvec. destruct (H c) as (_ & Hin & Hout).
    destruct (Hdec c) as [Hc|Hc]; [|destruct (Hout Hc); congruence].
    destruct (Hin Hc) as [Hvec' Hstore]. rewrite Hvec' in Hvec.
    destruct (fitted_cases kb fit_transform c) as [[_ Hnil]|(m' & Hm & _)];
      [|congruence].
    unfold Rag.get_category_stats. rewrite lookup_fmap, Hstore, Hnil.
    split; reflexivity.
Qed.

Lemma X8_initialised_indexes_are_consistent_witness :
  Rag.document_vectors
    (Rag._initialize_indexes Scenario.billing_only Scenario.always_fits)
  !! "Billing" = Some (Some Scenario.constant_matrix)
  /\ Rag.document_stores
       (Rag._initialize_indexes Scenario.billing_only Scenario.always_fits)
     !! "Billing"
     = Some (Rag.get_category_documents Scenario.billing_only "Billing")
  /\ Rag.document_vectors
       (Rag._initialize_indexes Scenario.billing_only Scenario.always_fits)
     !! "General" = Some None
  /\ Rag.document_stores
       (Rag._initialize_indexes Scenario.billing_only Scenario.always_fits)
     !! "General" = Some [].
Proof.
  destruct (X8_initialised_indexes_are_consistent Scenario.billing_only
              Scenario.always_fits)
    as (_ & _ & _ & _ & Hmatrix & Hnone & Hstore & Hempty).
  assert (Hbilling : Rag.document_vectors
                       (Rag._initialize_indexes Scenario.billing_only
                          Scenario.always_fits) !! "Billing"
                     = Some (Some Scenario.constant_matrix)).
  { apply Hmatrix. split; [vm_compute; tauto|].
    split; [vm_compute; discriminate | vm_compute; reflexivity]. }
  assert (Hgeneral : Rag.document_vectors
                       (Rag._initialize_indexes Scenario.billing_only
                          Scenario.always_fits) !! "General" = Some None).
  { apply Hnone. split; [vm_compute; tauto | left; vm_compute; reflexivity]. }
  split; [exact Hbilling|]. split; [apply (Hstore _ _ Hbilling)|].
  split; [exact Hgeneral | apply (Hempty _ Hgeneral)].
Defined.

(** ** Ticket validation and the escalation log *)

(** X9: [validate_ticket_input] accepts exactly the dictionaries whose
    [subject] and [description] are strings with a non-blank character,
    of at most 200 and 5000 characters (further keys do not matter); the
    error message is empty exactly when the ticket is accepted. *)
Theorem X9_validate_ticket_input_accepts_exactly :
  forall (t : Utils.pyarg),
    ((Utils.validate_ticket_input t).1 = true
     <-> exists d subject description,
           t = Utils.ADict d
           /\ d !! "subject" = Some (Utils.VStr subject)
           /\ d !! "description" = Some (Utils.VStr description)
           /\ PyStr.truthy (PyStr.strip subject) = true
           /\ PyStr.truthy (PyStr.strip description) = true
           /\ String.length subject <= 200
           /\ String.length description <= 5000)
    /\ ((Utils.validate_ticket_input t).1 = true
        <-> (Utils.validate_ticket_input t).2 = "").
Proof.
  intros t. unfold Utils.validate_ticket_input.
  destruct t as [d|v].
  2:{ split; (split; [discriminate|]); [intros (d & ? & ? & H & _) | ];
        discriminate. }
  destruct (d !! "subject") as [sv|] eqn:Hs.
  2:{ split; (split; [discriminate|]); [intros (d' & ? & ? & [= <-] & H & _) | ];
        [congruence | discriminate]. }
  destruct (d !! "description") as [dv|] eqn:Hd.
  2:{ split; (split; [discriminate|]);
        [intros (d' & ? & ? & [= <-] & _ & H & _) | ];
        [congruence | discriminate]. }
  unfold Utils.nonblank_str.
  destruct sv as [subject| | |];
    try (split; (split; [discriminate|]);
         [intros (d' & ? & ? & [= <-] & H & _) | ]; [congruence | discriminate]).
  destruct (PyStr.truthy (PyStr.strip subject)) eqn:Hts.
  2:{ split; (split; [discriminate|]);
        [intros (d' & ? & ? & [= <-] & H & _ & Ht & _) | ];
        [congruence | discriminate]. }
  destruct dv as [description| | |];
    try (split; (split; [discriminate|]);
         [intros (d' & ? & ? & [= <-] & _ & H & _) | ];
         [congruence | discriminate]).
  destruct (PyStr.truthy (PyStr.strip description)) eqn:Htd.
  2:{ split; (split; [discriminate|]);
        [intros (d' & ? & ? & [= <-] & _ & H & _ & Ht & _) | ];
        [congruence | discriminate]. }
  destruct (Nat.ltb_spec 200 (String.length subject)).
  { split; (split; [discriminate|]);
      [intros (d' & ? & ? & [= <-] & H1 & _ & _ & _ & Hlen & _) | discriminate].
    rewrite Hs in H1. injection H1 as <-. lia. }
  destruct (Nat.ltb_spec 5000 (String.length description)).
  { split; (split; [discriminate|]);
      [intros (d' & ? & ? & [= <-] & _ & H2 & _ & _ & _ & Hlen) | discriminate].
    rewrite Hd in H2. injection H2 as <-. lia. }
  split; [|split; reflexivity].
  split; [intros _ | reflexivity].
  exists d, subject, description. repeat split; assumption.
Qed.

Lemma X9_validate_ticket_input_accepts_exactly_witness :
  (Utils.validate_ticket_input (Utils.ticket_dict Scenario.refund_ticket)).1
  = true.
Proof.
  apply (proj1 (X9_validate_ticket_input_accepts_exactly
                  (Utils.ticket_dict Scenario.refund_ticket))).
  eexists _, "Refund request", "I was charged twice".
  split; [reflexivity|]. repeat split; vm_compute; try reflexivity; lia.
Defined.

Lemma save_all_unwritable ds : forall fs,
  Utils.writable fs = false -> Utils.save_all ds fs = fs.
Proof.
  induction ds as [|d ds IH]; intros fs Hw; [reflexivity|].
  unfold Utils.save_all in *. cbn [foldl].
  rewrite (save_escalation_log_failed d fs Hw). cbn [snd]. apply IH. exact Hw.
Qed.

Lemma save_all_existing ds : forall old,
  Utils.save_all ds {| Utils.csv_file := Some old; Utils.writable := true |}
  = {| Utils.csv_file :=
         Some (old ++ map (fun d => Utils.Row (Utils.flattened_data d)) ds);
       Utils.writable := true |}.
Proof.
  induction ds as [|d ds IH]; intros old.
  - cbn. rewrite app_nil_r. reflexivity.
  - unfold Utils.save_all in *. cbn [foldl].
    unfold Utils.save_escalation_log at 2. cbn [Utils.writable Utils.csv_file snd default from_option id].
    rewrite IH. cbn [map app]. rewrite <- !app_assoc. reflexivity.
Qed.

(** X10: the escalation log is append-only and gets its header once.  A
    sequence of [save_escalation_log] calls on a writable log leaves the
    lines that were there, writes the seven-column header only if the
    file did not exist, and appends one row per call in call order; on an
    unwritable log the whole sequence changes nothing. *)
Theorem X10_escalation_log_is_append_only_with_one_header :
  forall (ds : list Utils.EscalationData) (fs : Utils.FileSystem),
    (Utils.writable fs = true -> ds <> [] ->
     Utils.save_all ds fs
     = {| Utils.csv_file :=
            Some (match Utils.csv_file fs with
                  | Some old => old
                  | None =>
                      [Utils.Header
                         ["timestamp"; "ticket_subject"; "ticket_description";
                          "category"; "retries"; "review_count"; "draft_count"]]
                  end
                  ++ map (fun d => Utils.Row (Utils.flattened_data d)) ds);
          Utils.writable := true |})
    /\ (Utils.writable fs = false -> Utils.save_all ds fs = fs).
Proof.
  intros ds fs. split; [|apply save_all_unwritable].
  intros Hw Hne. destruct ds as [|d ds]; [congruence|].
  destruct fs as [file w]. cbn [Utils.writable] in Hw. subst w.
  destruct file as [old|].
  - apply save_all_existing.
  - unfold Utils.save_all. cbn [foldl].
    unfold Utils.save_escalation_log at 2.
    cbn [Utils.writable Utils.csv_file snd default from_option id app].
    fold (Utils.save_all ds
            {| Utils.csv_file :=
                 Some [Utils.Header (Utils.flattened_data d).*1;
                       Utils.Row (Utils.flattened_data d)];
               Utils.writable := true |}).
    rewrite save_all_existing. reflexivity.
Qed.

Lemma X10_escalation_log_is_append_only_with_one_header_witness :
  Utils.csv_file
    (Utils.save_all
       [ {| Utils.ed_timestamp := "t1"; Utils.ed_ticket_subject := "a";
            Utils.ed_ticket_description := "b"; Utils.ed_category := "Billing";
            Utils.ed_retries := 2; Utils.ed_review_feedback := [];
            Utils.ed_final_drafts := ["x"] |} ] Scenario.no_log)
  = Some
      [ Utils.Header
          ["timestamp"; "ticket_subject"; "ticket_description"; "category";
           "retries"; "review_count"; "draft_count"];
        Utils.Row
          [ ("timestamp", Utils.CStr "t1"); ("ticket_subject", Utils.CStr "a");
            ("ticket_description", Utils.CStr "b");
            ("category", Utils.CStr "Billing"); ("retries", Utils.CInt 2);
            ("review_count", Utils.CInt 0); ("draft_count", Utils.CInt 1) ] ].
Proof.
  rewrite (proj1 (X10_escalation_log_is_append_only_with_one_header _
                    Scenario.no_log)); [reflexivity | reflexivity | discriminate].
Defined.

(** X11: [log_escalation] and [save_escalation_log] append to the same
    file with different columns (eleven against seven), and each writes a
    header only when it creates the file; so when one writer creates the
    log, the rows of the other are appended under a header that is not
    theirs. *)
Theorem X11_the_two_escalation_writers_share_one_header :
  forall (json : Utils.JsonLib) (now : string) (d : Utils.EscalationData)
         (g : Utils.EscalationDict) (fs : Utils.FileSystem),
    Utils.csv_file fs = None -> Utils.writable fs = true ->
    let saved_then_logged :=
      (Utils.log_escalation json now g (Utils.save_escalation_log d fs).2).2 in
    let logged_then_saved :=
      (Utils.save_escalation_log d (Utils.log_escalation json now g fs).2).2 in
    Utils.csv_file saved_then_logged
    = Some [ Utils.Header (Utils.flattened_data d).*1;
             Utils.Row (Utils.flattened_data d);
             Utils.Row (Utils.csv_row json now g) ]
    /\ Utils.csv_file logged_then_saved
       = Some [ Utils.Header (Utils.csv_row json now g).*1;
                Utils.Row (Utils.csv_row json now g);
                Utils.Row (Utils.flattened_data d) ]
    /\ length (Utils.flattened_data d) = 7
    /\ length (Utils.csv_row json now g) = 11
    /\ (Utils.csv_row json now g).*1 <> (Utils.flattened_data d).*1.
Proof.
  intros json now d g [file w] Hfile Hw. cbn in Hfile, Hw. subst file w.
  repeat split. discriminate.
Qed.

Lemma X11_the_two_escalation_writers_share_one_header_witness :
  Utils.header_of
    (Utils.log_escalation
       {| Utils.dumps_strings := fun _ => "[]";
          Utils.dumps_reviews := fun _ => "[]" |}
       "t2" (Utils.follow_up_escalation "t1")
       (Nodes.escalate_ticket_node (Scenario.fixed_clock 0)
          Scenario.exhausted_state Scenario.no_log).2).2
  = Some ["timestamp"; "ticket_subject"; "ticket_description"; "category";
          "retries"; "review_count"; "draft_count"].
Proof.
  unfold Utils.header_of, Nodes.escalate_ticket_node.
  cbn [snd].
  match goal with |- context [Utils.save_escalation_log ?d Scenario.no_log] =>
    destruct (X11_the_two_escalation_writers_share_one_header
                {| Utils.dumps_strings := fun _ => "[]";
                   Utils.dumps_reviews := fun _ => "[]" |}
                "t2" d (Utils.follow_up_escalation "t1") Scenario.no_log
                eq_refl eq_refl) as (H & _)
  end.
  cbn zeta in H.
  destruct (Utils.save_escalation_log _ Scenario.no_log) as [ok fs1] eqn:Hs.
  cbn [snd] in *. rewrite H. reflexivity.
Defined.

(** ** The dashboard counters *)

Lemma update_all_snoc results r a :
  App.update_all (results ++ [r]) a
  = App.update_analytics r.1 r.2 (App.update_all results a).
Proof. unfold App.update_all. rewrite foldl_app. reflexivity. Qed.

Lemma with_status_snoc v results r :
  with_status v (results ++ [r])
  = (with_status v results + if String.eqb (App.status r.1) v then 1 else 0)%Z.
Proof.
  unfold with_status. rewrite filter_app, length_app, Nat2Z.inj_add. f_equal.
  destruct (String.eqb_spec (App.status r.1) v) as [Heq|Hne].
  - rewrite filter_cons_True by exact Heq. reflexivity.
  - rewrite filter_cons_False by exact Hne. reflexivity.
Qed.

Lemma with_category_snoc v results r :
  with_category v (results ++ [r])
  = (with_category v results
     + if String.eqb (App.category r.1) v then 1 else 0)%Z.
Proof.
  unfold with_category. rewrite filter_app, length_app, Nat2Z.inj_add. f_equal.
  destruct (String.eqb_spec (App.category r.1) v) as [Heq|Hne].
  - rewrite filter_cons_True by exact Heq. reflexivity.
  - rewrite filter_cons_False by exact Hne. reflexivity.
Qed.

(** X12: after any sequence of processed tickets the dashboard counters
    are exact tallies: the total is the number of tickets, the resolved
    and escalated counters count the results with those statuses (a
    result with any other status, such as [error], is in the total only),
    each category's entry in the distribution is the number of results of
    that category, categories never seen have no entry, and the
    resolution times are kept in order. *)
Theorem X12_dashboard_counters_are_tallies :
  forall (results : list (App.ResultData * option Q)),
    let a := App.update_all results App.initial_analytics in
    App.total_tickets a = Z.of_nat (length results)
    /\ App.resolved_tickets a = with_status "resolved" results
    /\ App.escalated_tickets a = with_status "escalated" results
    /\ (App.resolved_tickets a + App.escalated_tickets a
        <= App.total_tickets a)%Z
    /\ (forall c,
          default 0%Z (App.category_distribution a !! c)
          = with_category c results)
    /\ (forall c,
          App.category_distribution a !! c = None
          <-> with_category c results = 0%Z)
    /\ App.resolution_times a = omap snd results.
Proof.
  intros results. cbn zeta.
  assert (H : App.total_tickets (App.update_all results App.initial_analytics)
              = Z.of_nat (length results)
              /\ App.resolved_tickets (App.update_all results App.initial_analytics)
                 = with_status "resolved" results
              /\ App.escalated_tickets (App.update_all results App.initial_analytics)
                 = with_status "escalated" results
              /\ (forall c,
                    App.category_distribution
                      (App.update_all results App.initial_analytics) !! c
                    = if (0 <? with_category c results)%Z
                      then Some (with_category c results) else None)
              /\ App.resolution_times (App.update_all results App.initial_analytics)
                 = omap snd results).
  { induction results as [|r results IH] using rev_ind.
    - repeat split.
    - destruct IH as (Ht & Hr & He & Hd & Hts).
      rewrite update_all_snoc. unfold App.update_analytics.
      cbn [App.total_tickets App.resolved_tickets App.escalated_tickets
           App.category_distribution App.resolution_times].
      rewrite Ht, Hr, He, Hts, length_app, !with_status_snoc, omap_app.
      cbn [length]. split; [lia|].
      split; [destruct (String.eqb _ "resolved"); lia|].
      split.
      { destruct (String.eqb_spec (App.status r.1) "resolved") as [Heq|Hne].
        - rewrite Heq. cbn. lia.
        - destruct (String.eqb (App.status r.1) "escalated"); lia. }
      split.
      { intros c. rewrite with_category_snoc.
        assert (Hnn : (0 <= with_category c results)%Z)
          by (unfold with_category; lia).
        destruct (String.eqb_spec (App.category r.1) c) as [<-|Hne].
        - rewrite lookup_insert_eq, Hd.
          destruct (Z.ltb_spec 0 (with_category (App.category r.1) results));
            cbn [default from_option id];
            destruct (Z.ltb_spec 0 (with_category (App.category r.1) results + 1));
            try lia; f_equal; lia.
        - rewrite lookup_insert_ne by exact Hne. rewrite Hd, Z.add_0_r.
          reflexivity. }
      destruct r as [rd [t|]]; cbn; rewrite ?app_nil_r; reflexivity. }
  destruct H as (Ht & Hr & He & Hd & Hts).
  assert (Hsum : (with_status "resolved" results + with_status "escalated" results
                  <= Z.of_nat (length results))%Z).
  { clear. induction results as [|r results IH] using rev_ind;
      [unfold with_status; rewrite !filter_nil; cbn [length]; lia|].
    rewrite !with_status_snoc, length_app. cbn [length].
    destruct (String.eqb_spec (App.status r.1) "resolved") as [Heq|Hne].
    - rewrite Heq. cbn. lia.
    - destruct (String.eqb (App.status r.1) "escalated"); lia. }
  repeat split; try assumption.
  - rewrite Ht, Hr, He. exact Hsum.
  - intros c. rewrite Hd.
    destruct (Z.ltb_spec 0 (with_category c results)); cbn; [reflexivity|].
    unfold with_category in *. lia.
  - rewrite Hd. destruct (Z.ltb_spec 0 (with_category c results));
      [discriminate | intros _; unfold with_category in *; lia].
  - rewrite Hd. intros ->. reflexivity.
Qed.

(** X13: no ticket processed through [process_ticket_async] is ever
    counted as escalated.  The outcome either has status [resolved], and
    is then not flagged escalated and adds one to the resolved counter,
    or it is the error outcome of a run that hit the recursion bound:
    status [error], category [Error], no drafts, flagged
    [escalated = True], and counted in the total only. *)
Theorem X13_processed_tickets_are_never_counted_as_escalated :
  forall (c : Nodes.Components) (rt : Graph.Runtime) (start : string)
         (ticket_data : TicketInfo) (fs : Utils.FileSystem)
         (resolution_time : option Q) (a : App.Analytics),
    let out := (App.process_ticket_async c rt start ticket_data fs).1 in
    let a' := App.update_analytics out resolution_time a in
    App.escalated_tickets a' = App.escalated_tickets a
    /\ App.total_tickets a' = (App.total_tickets a + 1)%Z
    /\ (App.process_ticket_async c rt start ticket_data fs).2 = fs
    /\ ((App.status out = "resolved" /\ App.escalated out = false
         /\ App.retries out = 0%Z
         /\ App.resolved_tickets a' = (App.resolved_tickets a + 1)%Z)
        \/ (App.status out = "error" /\ App.category out = "Error"
            /\ App.escalated out = true /\ App.drafts out = []
            /\ App.resolved_tickets a' = App.resolved_tickets a)).
Proof.
  intros c rt start ticket_data fs resolution_time a.
  unfold App.process_ticket_async, Graph.ainvoke.
  pose proof (invoke_from_on_entry c rt (Graph.recursion_limit rt) 0
                Graph.entry_point _ fs (on_entry_fresh start ticket_data)) as H.
  destruct (Graph.invoke_from _ _ _ _ _ _ _) as [s' fs'|msg s' fs'].
  - destruct H as [(Hst & Hesc & Hret & _) ->].
    cbn [fst snd]. unfold App.update_analytics.
    cbn [App.status App.escalated App.retries App.escalated_tickets
         App.total_tickets App.resolved_tickets].
    rewrite Hst. cbn [String.eqb Ascii.eqb Bool.eqb].
    repeat split. left. repeat split; assumption.
  - subst fs'. cbn. repeat split. right. repeat split.
Qed.

(** ** Feedback reaches the generator *)

Lemma review_response_binary e subject description draft ctx :
  Gemini.rr_status (Gemini.review_response e subject description draft ctx)
  = "approved"
  \/ Gemini.rr_status (Gemini.review_response e subject description draft ctx)
     = "rejected".
Proof.
  unfold Gemini.review_response, Gemini.parse_verdict.
  repeat case_match; cbn; tauto.
Qed.

Lemma run_node_statuses_binary e rag now n s fs :
  statuses_binary s ->
  statuses_binary
    (Graph.run_node
       {| Nodes.gemini_client := Some (GeminiClient e);
          Nodes.rag_system := rag |} now n s fs).1.
Proof.
  unfold statuses_binary. intros H.
  destruct (decide (n = Graph.n_review_response)) as [->|Hr].
  - cbn [Graph.run_node fst]. unfold Nodes.review_response_node.
    cbn [Nodes.gemini_client review_response GeminiClient].
    repeat case_match; simplify_eq; cbn; apply Forall_app; (split; [exact H|]);
      (constructor; [|constructor]); cbn;
      try apply review_response_binary; tauto.
  - destruct (decide (n = Graph.n_generate_response)) as [->|Hg].
    + cbn [Graph.run_node fst].
      destruct (generate_response_node_shape
                  {| Nodes.gemini_client := Some (GeminiClient e);
                     Nodes.rag_system := rag |} now s) as (_ & -> & _).
      exact H.
    + destruct (run_node_histories
                  {| Nodes.gemini_client := Some (GeminiClient e);
                     Nodes.rag_system := rag |} now n s fs Hg Hr)
        as (_ & _ & -> & _).
      exact H.
Qed.

Lemma trace_from_on_entry (P : SupportTicketState -> Prop) c rt :
  (forall now n s fs, P s -> P (Graph.run_node c now n s fs).1) ->
  forall budget step n s fs,
    on_entry n s -> P s ->
    Forall (fun p => on_entry p.1 p.2 /\ P p.2)
           (Graph.trace_from c rt budget step n s fs).
Proof.
  intros HP. induction budget as [|budget IH]; intros step n s fs Hs Hp;
    cbn [Graph.trace_from]; [constructor|].
  destruct (on_entry_step c (Graph.clock rt step) n s fs Hs) as [_ Hnext].
  specialize (HP (Graph.clock rt step) n s fs Hp).
  destruct (Graph.run_node c (Graph.clock rt step) n s fs) as [s' fs'].
  cbn [fst] in *. constructor; [split; assumption|].
  destruct (Graph.next_node n s') as [n'|]; [|constructor].
  apply IH; assumption.
Qed.

(** X14: with the Gemini client, every regeneration is given the text of
    the rejection that caused it.  In any run from a fresh state, each
    time [generate_response] is entered with a draft already in the
    history, the last review is a rejection and [previous_feedback] (what
    the handler passes to the generator) is that review's feedback text,
    which is also [latest_feedback]. *)
Theorem X14_regeneration_receives_the_rejection_feedback :
  forall (e : Gemini.Endpoint) (rag : option Retriever) (rt : Graph.Runtime)
         (budget : nat) (start : string) (ticket_data : TicketInfo)
         (fs : Utils.FileSystem),
    Forall (fun p =>
              p.1 = Graph.n_generate_response -> drafts p.2 <> [] ->
              exists f,
                last (review_feedback p.2) = Some f
                /\ rf_status f = "rejected"
                /\ Nodes.previous_feedback p.2 = Some (rf_feedback f)
                /\ latest_feedback p.2 = Some (rf_feedback f))
           (Graph.trace_from
              {| Nodes.gemini_client := Some (GeminiClient e);
                 Nodes.rag_system := rag |}
              rt budget 0 Graph.entry_point
              (create_initial_state start ticket_data) fs).
Proof.
  intros e rag rt budget start ticket_data fs.
  eapply Forall_impl.
  - apply (trace_from_on_entry statuses_binary).
    + intros now n s fs0. apply run_node_statuses_binary.
    + apply on_entry_fresh.
    + constructor.
  - intros [n s] [Hentry Hbin] Hn Hdrafts. cbn [fst snd] in *. subst n.
    destruct Hentry as (_ & _ & (_ & _ & Hlatest) & _ & Hlen & Hall & _).
    destruct (last (review_feedback s)) as [f|] eqn:Hlast.
    2:{ apply last_None in Hlast. rewrite Hlast in Hlen.
        destruct (drafts s); [congruence | discriminate]. }
    exists f. split; [reflexivity|].
    assert (Hin : f ∈ review_feedback s).
    { apply last_Some in Hlast as [l ->]. set_solver. }
    assert (Hrej : rf_status f = "rejected").
    { unfold statuses_binary in Hbin. rewrite Forall_forall in Hbin, Hall.
      destruct (Hbin f Hin) as [Happ|Hrej]; [|exact Hrej].
      exfalso. apply (Hall f Hin). exact Happ. }
    split; [exact Hrej|]. split; [|exact Hlatest].
    unfold Nodes.previous_feedback. rewrite Hlast, Hrej. reflexivity.
Qed.

Lemma X14_regeneration_receives_the_rejection_feedback_witness :
  exists p,
    Graph.trace_from Scenario.rejecting_components (Scenario.runtime 25) 6 0
      Graph.entry_point
      (create_initial_state "2025-01-01T00:00:00" Scenario.refund_ticket)
      Scenario.no_log !! 5 = Some p
    /\ p.1 = Graph.n_generate_response
    /\ drafts p.2 = ["draft"]
    /\ exists f,
         last (review_feedback p.2) = Some f
         /\ rf_status f = "rejected"
         /\ Nodes.previous_feedback p.2 = Some (rf_feedback f)
         /\ latest_feedback p.2 = Some (rf_feedback f).
Proof.
  eexists. split; [vm_compute; reflexivity|].
  split; [reflexivity|]. split; [reflexivity|].
  refine (Forall_lookup_1 _ _ 5 _
            (X14_regeneration_receives_the_rejection_feedback
               Scenario.rejecting_endpoint None (Scenario.runtime 25) 6
               "2025-01-01T00:00:00" Scenario.refund_ticket Scenario.no_log)
            _ _ _).
  - vm_compute; reflexivity.
  - reflexivity.
  - discriminate.
Defined.

(** ** Drafting on the client path *)

Lemma confidence_line_nonempty confidence :
  exists c rest, Intelligent.confidence_line confidence = String c rest.
Proof.
  unfold Intelligent.confidence_line. repeat case_match; eexists _, _; reflexivity.
Qed.

Lemma truthy_app_l (a b : string) :
  PyStr.truthy a = true -> PyStr.truthy (a +:+ b) = true.
Proof. destruct a; [discriminate | reflexivity]. Qed.

(** The draft [enhance_response_with_context] builds: the confidence
    line, then the urgency line for an urgent ticket, then the response,
    then the closing. *)
Lemma enhance_response_with_context_shape response profile confidence :
  Intelligent.enhance_response_with_context response profile confidence
  = Intelligent.confidence_line confidence +:+ PyStr.nl +:+ PyStr.nl
    +:+ (if String.eqb (Intelligent.urgency profile) "high"
         then Intelligent.urgency_line +:+ PyStr.nl +:+ PyStr.nl
         else "")
    +:+ response +:+ PyStr.nl +:+ PyStr.nl
    +:+ Intelligent.get_personalized_closing profile.
Proof.
  unfold Intelligent.enhance_response_with_context.
  destruct (String.eqb (Intelligent.urgency profile) "high"); cbn [app];
    rewrite ?sapp_assoc; reflexivity.
Qed.

(** X15: on the Gemini client path drafting never fails.  Whatever the
    completion request comes back with, [generate_response_node] appends
    one non-empty draft made of the confidence line, the urgency line for
    an urgent ticket, the response and the personalised closing, and logs
    success; when the request failed the response is the client's own
    fallback text, so the handler's apology fallback is never used.  As
    the draft is never empty, the review that follows always carries the
    reviewer's verdict on it. *)
Theorem X15_client_drafting_never_fails :
  forall (post_classify : string -> string -> Gemini.http_reply)
         (post_review : string -> string -> string -> list ContextDocument
                        -> Gemini.http_reply)
         (post_generate : TicketInfo -> string -> list ContextDocument
                          -> option string -> Gemini.http_reply)
         (rag : option Retriever) (now now' : Nodes.Clock)
         (s : SupportTicketState),
    let e := {| Gemini.post_classify := post_classify;
                Gemini.post_review := post_review;
                Gemini.generation := Intelligent.drafting post_generate |} in
    let c := {| Nodes.gemini_client := Some (GeminiClient e);
                Nodes.rag_system := rag |} in
    let profile := Intelligent.analyze_user_profile (ticket s) in
    let response :=
      Intelligent.generate_intelligent_response
        (post_generate (ticket s) (category s) (retrieved_context s)
           (Nodes.previous_feedback s))
        profile (subject (ticket s)) (description (ticket s)) in
    let draft :=
      Intelligent.confidence_line
        (Intelligent.confidence_level (retrieved_context s))
      +:+ PyStr.nl +:+ PyStr.nl
      +:+ (if String.eqb (Intelligent.urgency profile) "high"
           then Intelligent.urgency_line +:+ PyStr.nl +:+ PyStr.nl
           else "")
      +:+ response +:+ PyStr.nl +:+ PyStr.nl
      +:+ Intelligent.get_personalized_closing profile in
    let s' := Nodes.generate_response_node c now s in
    drafts s' = drafts s ++ [draft]
    /\ current_draft s' = Some draft
    /\ PyStr.truthy draft = true
    /\ last (log_of s')
       = Some (now 0 +:+ " - generate_response: Response generated successfully")
    /\ review_status (Nodes.review_response_node c now' s')
       = Some (Gemini.rr_status
                 (Gemini.review_response e (subject (ticket s))
                    (description (ticket s)) draft (retrieved_context s))).
Proof.
  intros post_classify post_review post_generate rag now now' s e c profile
    response draft s'.
  assert (Htruthy : PyStr.truthy draft = true).
  { subst draft.
    destruct (confidence_line_nonempty
                (Intelligent.confidence_level (retrieved_context s)))
      as (ch & rest & ->).
    reflexivity. }
  assert (Hs' : s' = log_state_transition (now 0)
                       (set_status "response_generated"
                          (set_current_draft (Some draft)
                             (set_drafts (drafts s ++ [draft]) s)))
                       "generate_response" "Response generated successfully").
  { subst s' c e draft response profile. unfold Nodes.generate_response_node.
    cbn [Nodes.gemini_client generate_intelligent_response GeminiClient
         Gemini.generation].
    unfold Intelligent.drafting.
    rewrite enhance_response_with_context_shape. reflexivity. }
  rewrite Hs'. split; [reflexivity|]. split; [reflexivity|].
  split; [exact Htruthy|]. split.
  - rewrite log_state_transition_log, last_snoc. reflexivity.
  - unfold Nodes.review_response_node.
    cbn [Nodes.gemini_client c current_draft log_state_transition
         set_node_execution_log set_status set_current_draft set_drafts].
    rewrite Htruthy. reflexivity.
Qed.

(** ** Profile and complexity analysis *)

Lemma count_in_zero words text w :
  Intelligent.count_in words text = 0 -> In w words ->
  PyStr.contains w text = false.
Proof.
  unfold Intelligent.count_in.
  induction words as [|x words IH]; cbn [map list_sum fold_right In].
  - intros _ [].
  - intros Hsum [->|Hin].
    + destruct (PyStr.contains w text); [discriminate Hsum | reflexivity].
    + apply IH; [|exact Hin].
      destruct (PyStr.contains x text); [discriminate Hsum | exact Hsum].
Qed.

Lemma contains_app_l w a b :
  PyStr.contains w a = true -> PyStr.contains w (a +:+ b) = true.
Proof.
  rewrite !contains_spec. intros (pre & post & ->).
  exists pre, (post +:+ b). rewrite !sapp_assoc. reflexivity.
Qed.

(** X16: what [analyze_user_profile] never returns.  An [advanced]
    technical level always comes with user type [developer]; the response
    style [direct_technical_immediate] is therefore only given to
    developers; and the urgency is [high] exactly when one of the urgency
    keywords occurs in the lower-cased subject and description (the two
    extra tests on the subject add nothing). *)
Theorem X16_profile_fields_are_consistent :
  forall (t : TicketInfo),
    let p := Intelligent.analyze_user_profile t in
    let combined_text :=
      PyStr.lower (subject t) +:+ " " +:+ PyStr.lower (description t) in
    (Intelligent.technical_level p = "advanced" ->
     Intelligent.user_type p = "developer")
    /\ (Intelligent.response_style p = "direct_technical_immediate" ->
        Intelligent.user_type p = "developer"
        /\ Intelligent.urgency p = "high")
    /\ (Intelligent.urgency p = "high"
        <-> 0 < Intelligent.count_in
                  ["urgent"; "immediately"; "asap"; "critical"; "emergency";
                   "production"; "down"; "broken"] combined_text).
Proof.
  intros t. cbv zeta. unfold Intelligent.analyze_user_profile. cbv zeta.
  set (combined := PyStr.lower (subject t) +:+ " " +:+ PyStr.lower (description t)).
  set (negative := Intelligent.count_in ("cant" :: _) combined).
  set (positive := Intelligent.count_in ("please" :: _) combined).
  set (technical := Intelligent.count_in ("api" :: _) combined).
  set (urgent := Intelligent.count_in ("urgent" :: _) combined).
  rewrite <- !orb_assoc.
  set (on_subject := PyStr.contains "urgent" _ || PyStr.contains "critical" _).
  assert (Hsubject : urgent = 0 -> on_subject = false).
  { intros Hzero. subst on_subject.
    destruct (PyStr.contains "urgent" (PyStr.lower (subject t))) eqn:H1.
    - apply (contains_app_l _ _ (" " +:+ PyStr.lower (description t))) in H1.
      fold combined in H1.
      rewrite (count_in_zero _ combined "urgent" Hzero) in H1;
        [discriminate | cbn; tauto].
    - destruct (PyStr.contains "critical" (PyStr.lower (subject t))) eqn:H2;
        [|reflexivity].
      apply (contains_app_l _ _ (" " +:+ PyStr.lower (description t))) in H2.
      fold combined in H2.
      rewrite (count_in_zero _ combined "critical" Hzero) in H2;
        [discriminate | cbn; tauto]. }
  assert (Hdeveloper : (2 <? technical) = true -> (1 <? technical) = true).
  { intros H. apply Nat.ltb_lt in H. apply Nat.ltb_lt. lia. }
  destruct (positive + 1 <? negative); [|destruct (negative <? positive)];
    (destruct (2 <? technical) eqn:Ht; [|destruct (technical <? _) eqn:Ht2]);
    cbn [Intelligent.technical_level Intelligent.user_type
         Intelligent.response_style Intelligent.urgency];
    rewrite ?(Hdeveloper eq_refl);
    (split; [first [reflexivity | discriminate]|]);
    (split;
     [unfold Intelligent.determine_response_style;
      repeat case_match; first [discriminate | intros _; split; reflexivity]|]);
    (destruct (Nat.ltb_spec 0 urgent) as [Hu|Hu]; cbn [orb];
     [split; [intros _; exact Hu | reflexivity]|]);
    (rewrite Hsubject by lia);
    (split; [destruct (PyStr.any_in _ _); discriminate | lia]).
Qed.

(** X17: [assess_issue_complexity] returns one of the three levels, so
    the default of 3 steps in [get_estimated_steps] is never used: the
    estimate is 2, 4 or 6.  For a Security or Technical ticket the level
    is never [simple] and the estimate is at least 4 and never below the
    one of the same ticket in another category; the category adjustment
    changes the level only, the reasoning and the recommended approach
    stay those of the unadjusted level. *)
Theorem X17_complexity_levels_and_steps :
  forall (t : TicketInfo) (category : string),
    let r := Intelligent.assess_issue_complexity t category in
    let unadjusted := Intelligent.assess_issue_complexity t "General" in
    In (Intelligent.level r, Intelligent.estimated_resolution_steps r)
       [("simple", 2%Z); ("moderate", 4%Z); ("complex", 6%Z)]
    /\ Intelligent.reasoning r = Intelligent.reasoning unadjusted
    /\ Intelligent.recommended_approach r
       = Intelligent.recommended_approach unadjusted
    /\ (category = "Security" \/ category = "Technical" ->
        Intelligent.level r <> "simple"
        /\ (4 <= Intelligent.estimated_resolution_steps r)%Z
        /\ (Intelligent.estimated_resolution_steps unadjusted
            < Intelligent.estimated_resolution_steps r
            \/ Intelligent.level unadjusted = "complex")%Z)
    /\ (category <> "Security" -> category <> "Technical" -> r = unadjusted).
Proof.
  intros t category. cbv zeta. unfold Intelligent.assess_issue_complexity.
  cbv zeta.
  set (combined := PyStr.lower (subject t) +:+ " " +:+ PyStr.lower (description t)).
  set (simple := Intelligent.count_in ("password" :: _) combined).
  set (moderate := Intelligent.count_in ("setup" :: _) combined).
  set (complex := Intelligent.count_in ("api" :: _) combined).
  assert (Hcat : existsb (String.eqb category) ["Security"; "Technical"] = true
                 <-> category = "Security" \/ category = "Technical").
  { cbn [existsb]. rewrite !orb_true_iff, !String.eqb_eq. intuition discriminate. }
  destruct (existsb (String.eqb category) ["Security"; "Technical"]) eqn:Hadj.
  - destruct (0 <? complex); [|destruct (simple <? moderate)];
      cbn -[In]; (split; [cbn; tauto|]);
      (split; [reflexivity|]); (split; [reflexivity|]);
      (split; [intros _; repeat split; first [discriminate | lia | tauto]|]);
      intros H1 H2; destruct (proj1 Hcat eq_refl); contradiction.
  - destruct (0 <? complex); [|destruct (simple <? moderate)];
      cbn -[In]; (split; [cbn; tauto|]);
      (split; [reflexivity|]); (split; [reflexivity|]);
      (split; [intros H; apply Hcat in H; discriminate | reflexivity]).
Qed.

Lemma X17_complexity_levels_and_steps_witness :
  let t := {| subject := "Forgot my password"; description := "Cannot log in" |} in
  ("Security" = "Security" \/ "Security" = "Technical")
  /\ Intelligent.level (Intelligent.assess_issue_complexity t "Security")
     = "moderate"
  /\ Intelligent.reasoning (Intelligent.assess_issue_complexity t "Security")
     = "Common user account or access issue"
  /\ Intelligent.level (Intelligent.assess_issue_complexity t "Security")
     <> "simple".
Proof.
  cbv zeta. split; [left; reflexivity|]. split; [reflexivity|].
  split; [reflexivity|].
  apply (X17_complexity_levels_and_steps
           {| subject := "Forgot my password"; description := "Cannot log in" |}
           "Security").
  left; reflexivity.
Defined.

Lemma X16_profile_fields_are_consistent_witness :
  let t := {| subject := "API webhook down";
              description := "The server integration is failing" |} in
  Intelligent.technical_level (Intelligent.analyze_user_profile t) = "advanced"
  /\ Intelligent.response_style (Intelligent.analyze_user_profile t)
     = "direct_technical_immediate"
  /\ Intelligent.user_type (Intelligent.analyze_user_profile t) = "developer".
Proof.
  cbv zeta. split; [vm_compute; reflexivity|]. split; [vm_compute; reflexivity|].
  apply (X16_profile_fields_are_consistent
           {| subject := "API webhook down";
              description := "The server integration is failing" |}).
  vm_compute; reflexivity.
Defined.

(** ** Text cleaning *)

Lemma chars_app (a b : string) : chars (a +:+ b) = chars a ++ chars b.
Proof.
  unfold chars. induction a as [|x a IH]; cbn; [reflexivity|].
  rewrite IH. reflexivity.
Qed.

Lemma split_go_words (P : ascii -> Prop) s : forall word,
  Forall (fun c => P c /\ PyStr.is_space c = false) (chars word) ->
  Forall P (chars s) ->
  Forall (word_of P) (PyStr.split_go word s).
Proof.
  induction s as [|c s IH]; intros word Hword Hs; cbn [PyStr.split_go].
  - destruct (PyStr.truthy word) eqn:Ht; [|constructor].
    constructor; [split; assumption | constructor].
  - apply Forall_cons in Hs as [Hc Hs].
    destruct (PyStr.is_space c) eqn:Hsp.
    + destruct (PyStr.truthy word) eqn:Ht.
      * constructor; [split; assumption|]. apply IH; [constructor | exact Hs].
      * apply IH; [constructor | exact Hs].
    + apply IH; [|exact Hs]. rewrite chars_app. apply Forall_app.
      split; [exact Hword|]. constructor; [split; assumption | constructor].
Qed.

Lemma join_chars (P : ascii -> Prop) ws :
  P " "%char -> Forall (fun w => Forall P (chars w)) ws ->
  Forall P (chars (PyStr.join " " ws)).
Proof.
  intros Hsp. induction 1 as [|w ws Hw Hws IH]; cbn [PyStr.join]; [constructor|].
  destruct ws as [|w' ws]; [exact Hw|].
  rewrite !chars_app. apply Forall_app. split; [exact Hw|].
  apply Forall_app. split; [constructor; [exact Hsp | constructor] | exact IH].
Qed.

Lemma filter_chars_Forall f (P : ascii -> Prop) s :
  Forall P (chars s) ->
  Forall (fun c => P c /\ f c = true) (chars (PyStr.filter_chars f s)).
Proof.
  induction s as [|c s IH]; cbn; intros H; [constructor|].
  apply Forall_cons in H as [Hc Hs].
  destruct (f c) eqn:Hf; [constructor; [split; assumption|]|]; apply IH, Hs.
Qed.

Lemma filter_chars_id f s :
  Forall (fun c => f c = true) (chars s) -> PyStr.filter_chars f s = s.
Proof.
  induction s as [|c s IH]; cbn; intros H; [reflexivity|].
  apply Forall_cons in H as [-> Hs]. rewrite IH by exact Hs. reflexivity.
Qed.

Lemma Forall_True {A} (l : list A) : Forall (fun _ => True) l.
Proof. induction l; constructor; trivial. Qed.

(** What is left of a character after [split] and [join]: a blank, or a
    character that is not whitespace. *)
Lemma joined_chars (P : ascii -> Prop) s :
  Forall P (chars s) ->
  Forall (fun c => c = " "%char \/ (P c /\ PyStr.is_space c = false))
         (chars (PyStr.join " " (PyStr.split s))).
Proof.
  intros Hs. apply join_chars; [left; reflexivity|].
  eapply Forall_impl; [apply (split_go_words P s ""); [constructor | exact Hs]|].
  intros w [_ Hw]. eapply Forall_impl; [exact Hw|]. cbn. tauto.
Qed.

Lemma space_or_printable c :
  PyStr.is_space c = false ->
  ((32 <=? PyStr.code c)
   || PyStr.contains (String c "")
        (String (ascii_of_nat 10) (String (ascii_of_nat 9) ""))) = true ->
  32 <= PyStr.code c.
Proof.
  revert c.
  assert (H : forall c,
             (PyStr.is_space c
              || negb ((32 <=? PyStr.code c)
                       || PyStr.contains (String c "")
                            (String (ascii_of_nat 10)
                               (String (ascii_of_nat 9) "")))
              || (32 <=? PyStr.code c)) = true)
    by (apply forall_ascii; vm_compute; reflexivity).
  intros c Hsp Hf. specialize (H c). rewrite Hsp, Hf in H. cbn in H.
  apply Nat.leb_le. exact H.
Qed.

(** X18: [clean_text] returns no character below code 32: line feeds and
    tabs, which its last filter would let through, have already been
    turned into single blanks by [split] and [join], so that exemption
    never applies.  Every character returned is a blank or a
    non-whitespace character of the input, and anything but a [str]
    gives the empty text. *)
Theorem X18_clean_text_returns_no_control_character :
  forall (text : Utils.pyval),
    Forall (fun c => 32 <= PyStr.code c
                     /\ (PyStr.is_space c = true -> c = " "%char))
           (chars (Utils.clean_text text))
    /\ (forall s, text = Utils.VStr s ->
          Forall (fun c => c = " "%char \/ c ∈ chars s)
                 (chars (Utils.clean_text text)))
    /\ ((forall s, text <> Utils.VStr s) -> Utils.clean_text text = "").
Proof.
  intros text. split; [|split].
  - destruct text as [s| | |]; try constructor. cbn [Utils.clean_text].
    eapply Forall_impl.
    + apply filter_chars_Forall.
      apply (joined_chars (fun _ => True)), Forall_True.
    + cbn. intros c [[->|[_ Hsp]] Hf].
      * split; [vm_compute; lia | reflexivity].
      * split; [exact (space_or_printable c Hsp Hf)|]. congruence.
  - intros s ->. cbn [Utils.clean_text].
    eapply Forall_impl.
    + apply (filter_chars_Forall _ (fun c => c = " "%char \/ c ∈ chars s)).
      eapply Forall_impl.
      * apply (joined_chars (fun c => c ∈ chars s)).
        destruct (rstrip_prefix (PyStr.lstrip s)) as [b Hb].
        destruct (lstrip_suffix s) as [a Ha].
        apply Forall_forall. intros c Hc. rewrite Ha, Hb, !chars_app.
        fold (PyStr.strip s). set_solver.
      * cbn. tauto.
    + cbn. tauto.
  - destruct text as [s| | |]; intros H; try reflexivity.
    exfalso. exact (H s eq_refl).
Qed.

Lemma X18_clean_text_returns_no_control_character_witness :
  Utils.clean_text (Utils.VInt 7) = "".
Proof.
  apply (X18_clean_text_returns_no_control_character (Utils.VInt 7)).
  intros s. discriminate.
Defined.

Lemma sapp_nil_r (a : string) : a +:+ "" = a.
Proof. induction a as [|x a IH]; cbn; [reflexivity | rewrite IH; reflexivity]. Qed.

Lemma split_go_spaces b : forall word,
  Forall (fun c => PyStr.is_space c = true) (chars b) ->
  PyStr.split_go word b = PyStr.split_go word "".
Proof.
  induction b as [|c b IH]; intros word H; [reflexivity|].
  apply Forall_cons in H as [Hc Hb]. cbn [PyStr.split_go]. rewrite Hc.
  rewrite (IH "" Hb). reflexivity.
Qed.

Lemma split_go_app_spaces a b : forall word,
  Forall (fun c => PyStr.is_space c = true) (chars b) ->
  PyStr.split_go word (a +:+ b) = PyStr.split_go word a.
Proof.
  induction a as [|c a IH]; intros word H.
  - cbn [String.append]. apply split_go_spaces, H.
  - cbn [String.append PyStr.split_go]. rewrite !IH by exact H. reflexivity.
Qed.

Lemma rstrip_spaces (t : string) :
  exists b, t = PyStr.rstrip t +:+ b
            /\ Forall (fun c => PyStr.is_space c = true) (chars b).
Proof.
  induction t as [|c t (b & IH & Hb)]; [exists ""; split; [reflexivity | constructor]|].
  cbn [PyStr.rstrip]. destruct (PyStr.rstrip t) as [|d r] eqn:Hr.
  - destruct (PyStr.is_space c) eqn:Hc.
    + exists (String c t). split; [reflexivity|].
      constructor; [exact Hc|]. cbn [String.append] in IH. rewrite IH. exact Hb.
    + exists b. split; [|exact Hb]. cbn. rewrite IH at 1. reflexivity.
  - exists b. split; [|exact Hb]. cbn [String.append]. rewrite IH at 1.
    reflexivity.
Qed.

Lemma split_lstrip s : PyStr.split (PyStr.lstrip s) = PyStr.split s.
Proof.
  unfold PyStr.split. induction s as [|c s IH]; [reflexivity|].
  cbn [PyStr.lstrip PyStr.split_go]. destruct (PyStr.is_space c) eqn:Hc.
  - exact IH.
  - cbn [PyStr.split_go]. rewrite Hc. reflexivity.
Qed.

(** [strip] before [split] changes nothing. *)
Lemma split_strip s : PyStr.split (PyStr.strip s) = PyStr.split s.
Proof.
  rewrite <- (split_lstrip s). unfold PyStr.strip.
  destruct (rstrip_spaces (PyStr.lstrip s)) as (b & Hb & Hspaces).
  rewrite Hb at 2. unfold PyStr.split.
  rewrite split_go_app_spaces by exact Hspaces. reflexivity.
Qed.

Lemma split_go_word w rest : forall word,
  Forall (fun c => PyStr.is_space c = false) (chars w) ->
  PyStr.split_go word (w +:+ rest) = PyStr.split_go (word +:+ w) rest.
Proof.
  induction w as [|c w IH]; intros word H.
  - rewrite sapp_nil_r. reflexivity.
  - apply Forall_cons in H as [Hc Hw]. cbn [String.append PyStr.split_go].
    rewrite Hc, (IH _ Hw), sapp_assoc. reflexivity.
Qed.

(** [split] undoes [join] on words. *)
Lemma split_join (P : ascii -> Prop) ws :
  Forall (word_of P) ws -> PyStr.split (PyStr.join " " ws) = ws.
Proof.
  unfold PyStr.split.
  induction 1 as [|w ws [Ht Hw] Hws IH]; [reflexivity|].
  assert (Hns : Forall (fun c => PyStr.is_space c = false) (chars w))
    by (eapply Forall_impl; [exact Hw | cbn; tauto]).
  cbn [PyStr.join]. destruct ws as [|w' ws].
  - rewrite <- (sapp_nil_r w) at 1. rewrite (split_go_word w "" "" Hns).
    cbn [String.append PyStr.split_go]. rewrite Ht. reflexivity.
  - rewrite (split_go_word w _ "" Hns).
    cbn [String.append PyStr.split_go]. change (PyStr.is_space " ") with true.
    cbv iota. rewrite Ht, IH. reflexivity.
Qed.

Lemma word_last (P : ascii -> Prop) w :
  word_of P w -> exists y d, w = y +:+ String d "" /\ PyStr.is_space d = false.
Proof.
  intros [Ht Hw]. induction w as [|c w IH]; [discriminate|].
  apply Forall_cons in Hw as [[_ Hc] Hw]. destruct w as [|c' w].
  - exists "", c. split; [reflexivity | exact Hc].
  - destruct (IH eq_refl Hw) as (y & d & -> & Hd).
    exists (String c y), d. split; [reflexivity | exact Hd].
Qed.

Lemma join_last (P : ascii -> Prop) ws : forall w,
  Forall (word_of P) (w :: ws) ->
  exists y d, PyStr.join " " (w :: ws) = y +:+ String d ""
              /\ PyStr.is_space d = false.
Proof.
  induction ws as [|w' ws IH]; intros w H; apply Forall_cons in H as [Hw Hws].
  - exact (word_last P w Hw).
  - destruct (IH w' Hws) as (y & d & Hy & Hd).
    exists (w +:+ " " +:+ y), d. split; [|exact Hd].
    change (PyStr.join " " (w :: w' :: ws))
      with (w +:+ " " +:+ PyStr.join " " (w' :: ws)).
    rewrite Hy, !sapp_assoc. reflexivity.
Qed.

(** Joined words have no whitespace to strip. *)
Lemma strip_join (P : ascii -> Prop) ws :
  Forall (word_of P) ws ->
  PyStr.strip (PyStr.join " " ws) = PyStr.join " " ws.
Proof.
  destruct ws as [|w ws]; [reflexivity|]. intros H.
  destruct (join_last P ws w H) as (y & d & Hy & Hd).
  apply Forall_cons in H as [[Ht Hw] _].
  destruct w as [|c r]; [discriminate|].
  apply Forall_cons in Hw as [[_ Hc] _].
  assert (Hl : PyStr.lstrip (PyStr.join " " (String c r :: ws))
               = PyStr.join " " (String c r :: ws)).
  { destruct ws; cbn [PyStr.join String.append PyStr.lstrip];
      rewrite Hc; reflexivity. }
  unfold PyStr.strip. rewrite Hl, Hy.
  rewrite <- (sapp_nil_r (y +:+ String d "")) at 1.
  rewrite (rstrip_app y d "" Hd). cbn [PyStr.rstrip]. apply sapp_nil_r.
Qed.

Lemma clean_text_printable s :
  printable s ->
  Utils.clean_text (Utils.VStr s) = PyStr.join " " (PyStr.split s).
Proof.
  intros Hs. cbn [Utils.clean_text]. rewrite split_strip.
  apply filter_chars_id. eapply Forall_impl; [apply joined_chars, Hs|].
  cbn beta. intros c [->|[[Hc|Hc] Hsp]]; try reflexivity; [|congruence].
  apply orb_true_iff. left. apply Nat.leb_le. exact Hc.
Qed.

(** X19: on a text of printable characters and whitespace, [clean_text]
    is the words of the text joined by single blanks, it keeps the words,
    and cleaning twice is cleaning once.  (A control character that is
    not whitespace breaks this: it is removed after the blanks were
    normalised, see [clean_text_not_idempotent].) *)
Theorem X19_clean_text_normalises_printable_text :
  forall (s : string),
    printable s ->
    let cleaned := Utils.clean_text (Utils.VStr s) in
    cleaned = PyStr.join " " (PyStr.split s)
    /\ PyStr.split cleaned = PyStr.split s
    /\ PyStr.strip cleaned = cleaned
    /\ Utils.clean_text (Utils.VStr cleaned) = cleaned.
Proof.
  intros s Hs. cbv zeta. rewrite (clean_text_printable s Hs).
  pose proof (split_go_words _ s "" (List.Forall_nil _) Hs) as Hwords.
  fold (PyStr.split s) in Hwords.
  assert (Hsplit : PyStr.split (PyStr.join " " (PyStr.split s)) = PyStr.split s)
    by exact (split_join _ _ Hwords).
  assert (Hprintable : printable (PyStr.join " " (PyStr.split s))).
  { eapply Forall_impl; [apply joined_chars, Hs|].
    cbn. intros c [->|[H _]]; [right; reflexivity | exact H]. }
  split; [reflexivity|]. split; [exact Hsplit|].
  assert (Hclean : Utils.clean_text (Utils.VStr (PyStr.join " " (PyStr.split s)))
                   = PyStr.join " " (PyStr.split s)).
  { rewrite (clean_text_printable _ Hprintable), Hsplit. reflexivity. }
  split; [|exact Hclean].
  exact (strip_join _ _ Hwords).
Qed.

(** A control character between two words is removed after the blanks
    around it were kept, so a second pass still finds something to do. *)
Example clean_text_not_idempotent :
  let s := "a " +:+ String (ascii_of_nat 1) " b" in
  Utils.clean_text (Utils.VStr s) = "a  b"
  /\ Utils.clean_text (Utils.VStr (Utils.clean_text (Utils.VStr s))) = "a b".
Proof. split; vm_compute; reflexivity. Qed.

Lemma X19_clean_text_normalises_printable_text_witness :
  printable "  refund   please  "
  /\ Utils.clean_text (Utils.VStr "  refund   please  ") = "refund please"
  /\ Utils.clean_text
       (Utils.VStr (Utils.clean_text (Utils.VStr "  refund   please  ")))
     = Utils.clean_text (Utils.VStr "  refund   please  ").
Proof.
  assert (H : printable "  refund   please  ").
  { unfold printable. cbn [chars list_ascii_of_string].
    repeat (constructor; [first [left; vm_compute; lia | right; reflexivity]|]).
    constructor. }
  split; [exact H|]. split; [vm_compute; reflexivity|].
  apply (X19_clean_text_normalises_printable_text "  refund   please  " H).
Defined.
